(** * Maritime intelligence backend: ingestion, broadcast, persistence, anomalies

    A shallow embedding of the streaming pipeline of the backend
    ([src/api/ais_client.py], [src/api/broadcaster.py],
    [src/db/repository.py], [src/core/anomalies.py]) together with the
    properties the specification states about it, and of the code around
    it ([src/main.py], [src/db/session.py], [src/mcp/tools.py]) with
    further properties read off the code.

    Modelling conventions.
    - The anomaly detector is embedded twice. Module [Detector] follows
      the code on Python's [float], the binary64 numbers of IEEE 754,
      with [None] where a column of a row is null: every operation
      rounds as the machine does, a zero divisor and a [None] operand
      raise, and [math.cos], [math.sin], [x ** 2] and [round(x, 6)] are
      parameters, so that what is proved holds for whatever the
      platform's library returns. The values the detector computes, the
      threshold of the clusters and the rows it fails on are stated
      there. Module [Anomalies] reads the same code on real numbers,
      for the properties that do not depend on a computed value: the
      branch below 0.5 knots, the six-decimal form of a rounded result,
      the counting of alerts and clusters.
    - JSON text received from the feed is a tree of [value]s; a JSON number
      with a fraction is the rational its decimal literal denotes.
    - A Python exception is a value of [exn]; a call that may raise returns
      a [result].
    - [datetime.now] is an explicit argument [now]; a [datetime] is a count
      of microseconds. *)

From Stdlib Require Import ZArith List String Bool Lia Arith.
From Stdlib Require Import QArith Reals Lra Permutation.
From Stdlib Require Floats.
Import ListNotations.

Set Implicit Arguments.

(** ** Python values, exceptions *)

Module Py.

Inductive exn : Type :=
| TypeError
| AttributeError
| KeyError
| ValueError
| ZeroDivisionError
| OverflowError
| QueueFull
| OtherError (what : string).

Inductive result (A : Type) : Type :=
| Ok (a : A)
| Raise (e : exn).

Arguments Ok {A} a.
Arguments Raise {A} e.

Definition bind {A B} (r : result A) (k : A -> result B) : result B :=
  match r with
  | Ok a => k a
  | Raise e => Raise e
  end.

(** A [datetime], in microseconds since the epoch (UTC). *)
Definition datetime := Z.

(** What [json.loads] builds. A dictionary keeps its items in order and
    is looked up by its first matching key. *)
Unset Elimination Schemes.
Inductive value : Type :=
| VNone
| VBool (b : bool)
| VInt (z : Z)
| VFloat (q : Q)
| VStr (s : string)
| VList (l : list value)
| VDict (d : list (string * value)).
Set Elimination Schemes.

(** Equality of two values, decided on their structure. *)
Definition value_eq_dec : forall a b : value, {a = b} + {a <> b}.
Proof.
  fix IH 1.
  intros a b; destruct a, b; try (right; discriminate).
  - left; reflexivity.
  - destruct (Bool.bool_dec b0 b) as [-> | N]; [left; reflexivity | right; congruence].
  - destruct (Z.eq_dec z z0) as [-> | N]; [left; reflexivity | right; congruence].
  - destruct q as [n d], q0 as [n0 d0].
    destruct (Z.eq_dec n n0) as [-> | N]; [| right; congruence].
    destruct (Pos.eq_dec d d0) as [-> | N]; [left; reflexivity | right; congruence].
  - destruct (string_dec s s0) as [-> | N]; [left; reflexivity | right; congruence].
  - destruct (list_eq_dec IH l l0) as [-> | N]; [left; reflexivity | right; congruence].
  - assert (P : forall x y : string * value, {x = y} + {x <> y}).
    { intros [k v] [k' v'].
      destruct (string_dec k k') as [-> | N]; [| right; congruence].
      destruct (IH v v') as [-> | N]; [left; reflexivity | right; congruence]. }
    destruct (list_eq_dec P d d0) as [-> | N]; [left; reflexivity | right; congruence].
Defined.

(** Truth value of an object, as [if x], [x and y], [x or y] test it. *)
Definition truthy (v : value) : bool :=
  match v with
  | VNone => false
  | VBool b => b
  | VInt z => negb (z =? 0)%Z
  | VFloat q => negb (Qeq_bool q 0)
  | VStr s => negb (String.eqb s "")
  | VList l => match l with [] => false | _ => true end
  | VDict d => match d with [] => false | _ => true end
  end.

(** [x is not None]. *)
Definition is_not_None (v : value) : bool :=
  match v with
  | VNone => false
  | _ => true
  end.

(** [x or y], [y] already evaluated (it has no effect here). *)
Definition py_or (x y : value) : value := if truthy x then x else y.

Fixpoint lookup (d : list (string * value)) (key : string) : option value :=
  match d with
  | [] => None
  | (k, v) :: rest => if String.eqb k key then Some v else lookup rest key
  end.

(** [obj.get(key, default)]: only a dictionary has the method. *)
Definition dict_get (obj : value) (key : string) (default : value) : result value :=
  match obj with
  | VDict d =>
      match lookup d key with
      | Some v => Ok v
      | None => Ok default
      end
  | _ => Raise AttributeError
  end.

(** The characters [str.strip] removes (those of the ASCII range). *)
Definition is_space (c : Ascii.ascii) : bool :=
  let n := Ascii.nat_of_ascii c in
  ((9 <=? n) && (n <=? 13) || (28 <=? n) && (n <=? 32))%nat.

Fixpoint lstrip (s : string) : string :=
  match s with
  | EmptyString => EmptyString
  | String c rest => if is_space c then lstrip rest else s
  end.

(** Drops trailing white space: [None] stands for a string that is white
    space only. *)
Fixpoint rstrip_aux (s : string) : option string :=
  match s with
  | EmptyString => None
  | String c rest =>
      match rstrip_aux rest with
      | Some rest' => Some (String c rest')
      | None => if is_space c then None else Some (String c EmptyString)
      end
  end.

Definition rstrip (s : string) : string :=
  match rstrip_aux s with
  | Some s' => s'
  | None => EmptyString
  end.

(** [obj.strip()]: only a string has the method. *)
Definition str_strip (obj : value) : result value :=
  match obj with
  | VStr s => Ok (VStr (rstrip (lstrip s)))
  | _ => Raise AttributeError
  end.

End Py.

Import Py.

Notation "x <- r ;; k" := (Py.bind r (fun x => k))
  (at level 61, r at next level, right associativity).

(** ** [src/core/anomalies.py], on real numbers *)

Module Anomalies.

Local Open Scope R_scope.

(** What [v.get('course', 0)] can hand to the predictor: a number, or
    [None] when the stored course is null. *)
Inductive pyval : Type :=
| PyNone
| PyFloat (x : R).

(** The dictionary [{"lat": _, "lon": _}]. *)
Record pos : Type := mk_pos { p_lat : R; p_lon : R }.

(** [(a - b).total_seconds()] of two datetimes. *)
Definition total_seconds (d : Z) : R := IZR d / 1000000.

(** [math.radians]. *)
Definition radians (x : R) : R := x * (PI / 180).

(** Nearest integer, ties to even: Python's [round] on an exact value. *)
Definition round_half_even (x : R) : Z :=
  let f := Int_part x in
  let r := frac_part x in
  if Rlt_dec r (1 / 2) then f
  else if Rlt_dec (1 / 2) r then (f + 1)%Z
  else if Z.even f then f else (f + 1)%Z.

(** [round(x, 6)]. *)
Definition round6 (x : R) : R := IZR (round_half_even (x * 1000000)) / 1000000.


(** [math.radians(course)]: a [TypeError] on [None]. *)
Definition radians_of (course : pyval) : result R :=
  match course with
  | PyFloat c => Ok (radians c)
  | PyNone => Raise TypeError
  end.

(** [AnomalyDetector.calculate_predicted_pos]. *)
Definition calculate_predicted_pos (now : datetime)
    (lat lon speed : R) (course : pyval) (last_seen : datetime) : result pos :=
  if Rlt_dec speed 0.5 then Ok (mk_pos lat lon)
  else
    let hours_passed := total_seconds (now - last_seen) / 3600 in
    let dist_nm := speed * hours_passed in
    rc <- radians_of course ;;
    let d_lat := (dist_nm * cos rc) / 60 in
    let d_lon := (dist_nm * sin rc) / (60 * cos (radians lat)) in
    Ok (mk_pos (round6 (lat + d_lat)) (round6 (lon + d_lon))).

(** A row of [repo.get_inactive_vessels]. [course] is what the key
    ['course'] holds: [None] when the row has no such key, [Some PyNone]
    when the key holds [None]. *)
Record vessel : Type := mk_vessel {
  v_mmsi : Z;
  v_name : string;
  v_lat : R;
  v_lon : R;
  v_speed : R;
  v_course : option pyval;
  v_last_seen : datetime
}.

Record alert : Type := mk_alert {
  a_mmsi : Z;
  a_name : string;
  a_speed : R;
  a_last_seen : datetime;
  last_pos : pos;
  predicted_pos : pos
}.

Record cluster : Type := mk_cluster {
  center : pos;
  affected_mmsi : list Z;
  c_type : string
}.

Record report : Type := mk_report {
  alerts : list alert;
  clusters : list cluster
}.

(** [d.get(key, default)] on an optional key. *)
Definition get {A} (field : option A) (default : A) : A :=
  match field with
  | Some x => x
  | None => default
  end.

(** The first loop of [get_enhanced_anomalies]: one alert per vessel,
    appended in order. [clock k] is what [datetime.now] returns in the
    call made for the vessel of index [k]. *)
Fixpoint alerts_loop (clock : nat -> datetime) (k : nat)
    (vessels : list vessel) (acc : list alert) : result (list alert) :=
  match vessels with
  | [] => Ok acc
  | v :: rest =>
      predicted <- calculate_predicted_pos (clock k)
                     (v_lat v) (v_lon v) (v_speed v)
                     (get (v_course v) (PyFloat 0)) (v_last_seen v) ;;
      alerts_loop clock (S k) rest
        (acc ++ [mk_alert (v_mmsi v) (v_name v) (v_speed v) (v_last_seen v)
                          (mk_pos (v_lat v) (v_lon v)) predicted])
  end.

(** [enumerate(l)]. *)
Definition enumerate {A} (l : list A) : list (nat * A) :=
  combine (seq 0 (List.length l)) l.

(** The distance the clustering loop computes between two alerts. *)
Definition dist (a1 a2 : alert) : R :=
  sqrt ((p_lat (last_pos a1) - p_lat (last_pos a2)) ^ 2 +
        (p_lon (last_pos a1) - p_lon (last_pos a2)) ^ 2).

(** The inner loop: [nearby] collects the identifiers of the alerts other
    than [i] that are closer than 0.1. *)
Fixpoint nearby_loop (i : nat) (a1 : alert) (others : list (nat * alert))
    (nearby : list Z) : list Z :=
  match others with
  | [] => nearby
  | (j, a2) :: rest =>
      if Nat.eqb i j then nearby_loop i a1 rest nearby
      else if Rlt_dec (dist a1 a2) 0.1
           then nearby_loop i a1 rest (nearby ++ [a_mmsi a2])
           else nearby_loop i a1 rest nearby
  end.

(** The outer loop: a cluster for each alert with two neighbours or more. *)
Fixpoint clusters_loop (all : list alert) (todo : list (nat * alert))
    (acc : list cluster) : list cluster :=
  match todo with
  | [] => acc
  | (i, a1) :: rest =>
      let nearby := nearby_loop i a1 (enumerate all) [] in
      if (2 <=? List.length nearby)%nat
      then clusters_loop all rest
             (acc ++ [mk_cluster (last_pos a1) (a_mmsi a1 :: nearby)
                                 "POTENTIAL_JAMMING_ZONE"])
      else clusters_loop all rest acc
  end.

(** [AnomalyDetector.get_enhanced_anomalies], on the rows [vessels] that
    [repo.get_inactive_vessels] returned. *)
Definition get_enhanced_anomalies (clock : nat -> datetime)
    (vessels : list vessel) : result report :=
  match vessels with
  | [] => Ok (mk_report [] [])
  | _ =>
      als <- alerts_loop clock 0 vessels [] ;;
      Ok (mk_report als (clusters_loop als (enumerate als) []))
  end.

End Anomalies.

(** ** [src/api/broadcaster.py] *)

Module Broadcaster.

(** A WebSocket object, by identity. *)
Definition connection := nat.

Inductive log_entry : Type :=
| LogSendFailed (ws : connection) (e : exn)
| LogDisconnected (remaining : nat).

(** [ConnectionManager], with what left through the sockets and what was
    logged. *)
Record manager : Type := mk_manager {
  active_connections : list connection;
  delivered : list (connection * string);
  log : list log_entry
}.

Definition init : manager := mk_manager [] [] [].

(** [list.remove(x)] where [x] is known to be in the list: the first
    occurrence goes. *)
Fixpoint list_remove (x : connection) (l : list connection) : list connection :=
  match l with
  | [] => []
  | y :: rest => if Nat.eqb y x then rest else y :: list_remove x rest
  end.

(** [x in l]. *)
Definition list_mem (x : connection) (l : list connection) : bool :=
  existsb (Nat.eqb x) l.

(** [ConnectionManager.connect] (the handshake [accept] aside). *)
Definition connect (ws : connection) (m : manager) : manager :=
  mk_manager (active_connections m ++ [ws]) (delivered m) (log m).

(** [ConnectionManager.disconnect]. *)
Definition disconnect (ws : connection) (m : manager) : manager :=
  if list_mem ws (active_connections m) then
    let remaining := list_remove ws (active_connections m) in
    mk_manager remaining (delivered m)
               (log m ++ [LogDisconnected (List.length remaining)])
  else m.

Section Broadcast.

(** The payloads and [json.dumps] on them. *)
Variable message : Type.
Variable dumps : message -> string.

(** [websocket.send_text]: what the socket of each connection does with
    a text during this broadcast. *)
Variable send_text : connection -> string -> result unit.

(** The order in which [asyncio.gather] sees the sends complete. *)
Variable schedule : list connection -> list connection.

(** [ConnectionManager._send_safe]: the [except Exception] clause
    handles whatever [send_text] raises, so the coroutine returns. *)
Definition _send_safe (ws : connection) (data : string) (m : manager)
  : manager * result unit :=
  match send_text ws data with
  | Ok _ =>
      (mk_manager (active_connections m) (delivered m ++ [(ws, data)]) (log m),
       Ok tt)
  | Raise e =>
      (disconnect ws
         (mk_manager (active_connections m) (delivered m)
                     (log m ++ [LogSendFailed ws e])),
       Ok tt)
  end.

(** What [gather] returns once a further task has ended: the first
    exception a task raised, if any. *)
Definition first_raise (so_far this : result unit) : result unit :=
  match so_far with
  | Ok _ => this
  | Raise e => Raise e
  end.

(** [asyncio.gather] over the tasks: each task runs to its end, in the
    order of completion. *)
Definition gather (tasks : list connection) (data : string) (m : manager)
  : manager * result unit :=
  fold_left
    (fun st ws =>
       let '(m', r') := _send_safe ws data (fst st) in
       (m', first_raise (snd st) r'))
    (schedule tasks) (m, Ok tt).

(** [ConnectionManager.broadcast]. The tasks are made from the
    connections registered when the call starts. *)
Definition broadcast (msg : message) (m : manager) : manager * result unit :=
  match active_connections m with
  | [] => (m, Ok tt)
  | _ =>
      let data := dumps msg in
      let tasks := active_connections m in
      gather tasks data m
  end.

End Broadcast.

(** A scenario: three registered connections, the socket of connection 2
    closed, the sends completing in reverse order. *)
Definition three_clients : manager := mk_manager [1; 2; 3]%nat [] [].

Definition socket_2_closed (ws : connection) (_ : string) : result unit :=
  if Nat.eqb ws 2 then Raise (OtherError "closed") else Ok tt.

End Broadcaster.

(** ** The normalized report *)

Module Vessel.

(** The dictionary the feed client builds for each message, key by key. *)
Record vessel_data : Type := mk_vessel_data {
  mmsi : value;
  name : value;
  lat : value;
  lon : value;
  speed : value;
  course : value;
  vessel_type : value
}.

End Vessel.

(** ** [src/db/repository.py] *)

Module Repository.
Import Vessel.

(** A row of table [vessels], the key column [mmsi] aside. [last_pos] is
    the point made of longitude and latitude, in that order. *)
Record vessel_row : Type := mk_row {
  r_name : value;
  r_last_pos : value * value;
  r_speed : value;
  r_course : value;
  r_type : value;
  r_last_seen : datetime
}.

Definition table := list (value * vessel_row).

(** The store: the table and the number of [executemany] calls made. *)
Record db : Type := mk_db {
  vessels : table;
  executemany_calls : nat
}.

(** The parameters of one execution of the statement, in the order of
    its placeholders. *)
Definition params := (value * value * value * value * value * value * value)%type.

Fixpoint find (tbl : table) (key : value) : option vessel_row :=
  match tbl with
  | [] => None
  | (k, r) :: rest => if value_eq_dec k key then Some r else find rest key
  end.

(** One execution of
    [INSERT INTO vessels (mmsi, name, last_pos, speed, course, type, last_seen)
     VALUES (..., NOW()) ON CONFLICT (mmsi) DO UPDATE SET
     last_pos = EXCLUDED.last_pos, speed = EXCLUDED.speed,
     course = EXCLUDED.course, last_seen = NOW()]. *)
Fixpoint upsert (now : datetime) (p : params) (tbl : table) : table :=
  let '(p_mmsi, p_name, p_lon, p_lat, p_speed, p_course, p_type) := p in
  match tbl with
  | [] => [(p_mmsi, mk_row p_name (p_lon, p_lat) p_speed p_course p_type now)]
  | (k, r) :: rest =>
      if value_eq_dec k p_mmsi
      then (k, mk_row (r_name r) (p_lon, p_lat) p_speed p_course (r_type r) now) :: rest
      else (k, r) :: upsert now p rest
  end.

(** [cursor.executemany]: the statement once for each parameter tuple,
    in order. *)
Definition executemany (now : datetime) (data_tuples : list params) (d : db) : db :=
  mk_db (fold_left (fun tbl p => upsert now p tbl) data_tuples (vessels d))
        (S (executemany_calls d)).

(** [AISRepository.update_vessels_batch]. *)
Definition update_vessels_batch (now : datetime)
    (vessels_list : list vessel_data) (d : db) : db :=
  match vessels_list with
  | [] => d
  | _ =>
      let data_tuples :=
        map (fun v => (mmsi v, name v, lon v, lat v, speed v, course v, vessel_type v))
            vessels_list in
      executemany now data_tuples d
  end.

(** *** The upsert, as the specification words it *)

(** The stored row once a report for its vessel has been written with
    every field of the report winning. *)
Definition overwritten (now : datetime) (v : vessel_data) : vessel_row :=
  mk_row (name v) (lon v, lat v) (speed v) (course v) (vessel_type v) now.

(** The stored row once a report for its vessel has been written by the
    statement: position, speed, course and last-seen time are those of
    the report, name and type are those already stored. *)
Definition refreshed (now : datetime) (v : vessel_data) (r : vessel_row) : vessel_row :=
  mk_row (r_name r) (lon v, lat v) (speed v) (course v) (r_type r) now.

(** The last report of the batch for the vessel [key]. *)
Fixpoint last_report (key : value) (batch : list vessel_data) : option vessel_data :=
  match batch with
  | [] => None
  | v :: rest =>
      match last_report key rest with
      | Some w => Some w
      | None => if value_eq_dec key (mmsi v) then Some v else None
      end
  end.

(** A scenario: a vessel stored under a name and a type, and a later
    report for it that carries another name and another type. *)
Definition stored_vessel : db :=
  mk_db [(VInt 257000000,
          mk_row (VStr "NORDLYS") (VFloat (10 # 1), VFloat (60 # 1))
                 (VInt 12) (VInt 90) (VStr "PositionReport") 100%Z)]
        0%nat.

Definition later_report : vessel_data :=
  mk_vessel_data (VInt 257000000) (VStr "Unknown")
                 (VFloat (601 # 10)) (VFloat (101 # 10))
                 (VInt 11) (VInt 95) (VStr "StandardClassBPositionReport").

End Repository.

(** ** [src/api/ais_client.py] *)

Module AisClient.
Import Vessel.

(** A row of table [geofences], as the containment query returns it. *)
Record zone : Type := mk_zone { z_name : value; z_severity : value }.

(** The payloads handed to [manager.broadcast]. *)
Inductive message : Type :=
| MsgAlert (data : zone) (vessel : value)
| MsgVesselUpdate (data : list vessel_data).

(** What [process_and_flush] does to the outside, in order. *)
Inductive event : Type :=
| EvGeofenceCheck (v : vessel_data)
| EvBroadcast (m : message)
| EvPersist (batch : list vessel_data).

Inductive log_entry : Type :=
| LogQueueFull
| LogGeofenceFailed (e : exn).

Section Ingestion.

(** [repo.check_point_in_geofence]: the first zone containing the
    point, if any; the query may fail. *)
Variable check_point_in_geofence : value -> value -> result (option zone).

(** [AnomalyDetector.check_geofence_violation]
    ([src/core/anomalies.py]): a failed query counts as no violation. *)
Definition check_geofence_violation (la lo : value) : option zone :=
  match check_point_in_geofence la lo with
  | Ok z => z
  | Raise _ => None
  end.

(** Part A of [process_and_flush]: the loop over the batch. *)
Fixpoint geofence_loop (vessel_batch : list vessel_data) (trace : list event)
  : list event :=
  match vessel_batch with
  | [] => trace
  | v :: rest =>
      let trace1 := trace ++ [EvGeofenceCheck v] in
      match check_geofence_violation (lat v) (lon v) with
      | Some violation =>
          geofence_loop rest
            (trace1 ++ [EvBroadcast (MsgAlert violation (name v))])
      | None => geofence_loop rest trace1
      end
  end.

(** [process_and_flush]: the loop, then the position broadcast, then
    the write. *)
Definition process_and_flush (vessel_batch : list vessel_data) : list event :=
  let trace := geofence_loop vessel_batch [] in
  let trace := trace ++ [EvBroadcast (MsgVesselUpdate vessel_batch)] in
  trace ++ [EvPersist vessel_batch].

(** *** The consumer [db_writer] *)

Record writer : Type := mk_writer {
  buffer : list vessel_data;
  total_processed : nat;
  trace : list event
}.

Definition batch_size : nat := 50.

(** One turn of the loop of [db_writer]: [got] is what
    [wait_for(queue.get(), 5.0)] gave, [None] for a timeout. *)
Definition db_writer_step (got : option vessel_data) (w : writer) : writer :=
  match got with
  | None =>
      match buffer w with
      | [] => w
      | _ =>
          mk_writer [] (total_processed w + List.length (buffer w))
                    (trace w ++ process_and_flush (buffer w))
      end
  | Some data =>
      let buffer' := buffer w ++ [data] in
      if (batch_size <=? List.length buffer')%nat
      then mk_writer [] (total_processed w + List.length buffer')
                     (trace w ++ process_and_flush buffer')
      else mk_writer buffer' (total_processed w) (trace w)
  end.

End Ingestion.

(** *** The producer *)

(** [asyncio.Queue(maxsize=5000)]. *)
Definition maxsize : Z := 5000.

(** [Queue.full]. *)
Definition full (queue : list vessel_data) : bool :=
  if (maxsize <=? 0)%Z then false
  else (maxsize <=? Z.of_nat (List.length queue))%Z.

(** [Queue.put_nowait]. *)
Definition put_nowait (item : vessel_data) (queue : list vessel_data)
  : result (list vessel_data) :=
  if full queue then Raise QueueFull else Ok (queue ++ [item]).

(** [Queue.get] when an item is there. *)
Definition queue_get (queue : list vessel_data)
  : option (vessel_data * list vessel_data) :=
  match queue with
  | [] => None
  | x :: rest => Some (x, rest)
  end.

(** The position report of a message:
    [(m.get("PositionReport") or m.get("StandardClassBPositionReport") or {})]
    with [m = msg.get("Message", {})]. *)
Definition position_report (msg : value) : result value :=
  m1 <- dict_get msg "Message" (VDict []) ;;
  r1 <- dict_get m1 "PositionReport" VNone ;;
  if truthy r1 then Ok r1
  else
    m2 <- dict_get msg "Message" (VDict []) ;;
    r2 <- dict_get m2 "StandardClassBPositionReport" VNone ;;
    Ok (py_or r2 (VDict [])).

(** The normalization of a parsed message into [vessel_data]. *)
Definition normalize (msg : value) : result vessel_data :=
  meta <- dict_get msg "MetaData" (VDict []) ;;
  d_mmsi <- dict_get meta "MMSI" VNone ;;
  ship_name <- dict_get meta "ShipName" (VStr "Unknown") ;;
  d_name <- str_strip ship_name ;;
  d_lat <- dict_get meta "latitude" VNone ;;
  d_lon <- dict_get meta "longitude" VNone ;;
  rep_s <- position_report msg ;;
  d_speed <- dict_get rep_s "Sog" (VInt 0) ;;
  rep_c <- position_report msg ;;
  d_course <- dict_get rep_c "Cog" (VInt 0) ;;
  d_type <- dict_get msg "MessageType" (VStr "Unknown") ;;
  Ok (mk_vessel_data d_mmsi d_name d_lat d_lon d_speed d_course d_type).

(** The test that guards the queue. *)
Definition accepted (vd : vessel_data) : bool :=
  truthy (mmsi vd) && is_not_None (lat vd).

Record producer : Type := mk_producer {
  queue : list vessel_data;
  log : list log_entry
}.

(** The body of [async for message in ws], on the parsed message. An
    exception leaves the loop for the reconnection handler. *)
Definition on_message (msg : value) (p : producer) : result producer :=
  vd <- normalize msg ;;
  if accepted vd then
    match put_nowait vd (queue p) with
    | Ok queue' => Ok (mk_producer queue' (log p))
    | Raise QueueFull => Ok (mk_producer (queue p) (log p ++ [LogQueueFull]))
    | Raise e => Raise e
    end
  else Ok p.

(** *** The batch cycle, as the specification words it *)

(** What the cycle does for one report: the geofence check, then the
    alert when a zone contains the position. *)
Definition per_report (check : value -> value -> result (option zone))
    (v : vessel_data) : list event :=
  EvGeofenceCheck v ::
  match check_geofence_violation check (lat v) (lon v) with
  | Some violation => [EvBroadcast (MsgAlert violation (name v))]
  | None => []
  end.

Definition is_position_update (ev : event) : bool :=
  match ev with
  | EvBroadcast (MsgVesselUpdate _) => true
  | _ => false
  end.

Definition is_persist (ev : event) : bool :=
  match ev with
  | EvPersist _ => true
  | _ => false
  end.

(** *** Scenarios *)

Local Open Scope string_scope.

(** A class A position report of the feed. *)
Definition position_message : value :=
  VDict [("MessageType", VStr "PositionReport");
         ("MetaData", VDict [("MMSI", VInt 257000000);
                             ("ShipName", VStr "NORDLYS   ");
                             ("latitude", VFloat (601 # 10));
                             ("longitude", VFloat (101 # 10))]);
         ("Message", VDict [("PositionReport",
                             VDict [("Sog", VFloat (123 # 10));
                                    ("Cog", VFloat (90 # 1))])])].

Definition position_report_data : vessel_data :=
  mk_vessel_data (VInt 257000000) (VStr "NORDLYS")
                 (VFloat (601 # 10)) (VFloat (101 # 10))
                 (VFloat (123 # 10)) (VFloat (90 # 1)) (VStr "PositionReport").

(** The same message with no longitude in its metadata. *)
Definition message_without_longitude : value :=
  VDict [("MessageType", VStr "PositionReport");
         ("MetaData", VDict [("MMSI", VInt 257000000);
                             ("ShipName", VStr "NORDLYS   ");
                             ("latitude", VFloat (601 # 10))]);
         ("Message", VDict [("PositionReport",
                             VDict [("Sog", VFloat (123 # 10));
                                    ("Cog", VFloat (90 # 1))])])].

Definition report_without_longitude : vessel_data :=
  mk_vessel_data (VInt 257000000) (VStr "NORDLYS")
                 (VFloat (601 # 10)) VNone
                 (VFloat (123 # 10)) (VFloat (90 # 1)) (VStr "PositionReport").

(** A store of zones whose containment query fails on a missing
    coordinate and finds no zone otherwise. *)
Definition no_zone (la lo : value) : result (option zone) :=
  match la, lo with
  | VNone, _ | _, VNone => Raise (OtherError "null coordinate")
  | _, _ => Ok None
  end.

End AisClient.

(** ** The clustering rule, as the specification words it *)

Module AnomaliesSpec.
Import Anomalies.
Local Open Scope R_scope.

Definition no_alert : alert :=
  mk_alert 0%Z "" 0 0%Z (mk_pos 0 0) (mk_pos 0 0).

(** The alert of index [i]. *)
Definition alert_at (als : list alert) (i : nat) : alert := nth i als no_alert.

(** Two alerts are neighbours when the Euclidean distance between their
    last known positions, in degrees, is below 0.1. *)
Definition near (a1 a2 : alert) : bool :=
  if Rlt_dec (dist a1 a2) 0.1 then true else false.

(** The indices of the neighbours of alert [i], in increasing order. *)
Definition neighbours (als : list alert) (i : nat) : list nat :=
  filter (fun j => negb (Nat.eqb i j) && near (alert_at als i) (alert_at als j))
         (seq 0 (List.length als)).

(** The cluster centred at alert [i]. *)
Definition cluster_at (als : list alert) (i : nat) : cluster :=
  mk_cluster (last_pos (alert_at als i))
             (a_mmsi (alert_at als i)
                :: map (fun j => a_mmsi (alert_at als j)) (neighbours als i))
             "POTENTIAL_JAMMING_ZONE".

(** One cluster for each alert that has two neighbours or more, in the
    order of the alerts. *)
Definition cluster_centres (als : list alert) : list nat :=
  filter (fun i => (2 <=? List.length (neighbours als i))%nat)
         (seq 0 (List.length als)).

Definition jamming_clusters (als : list alert) : list cluster :=
  map (cluster_at als) (cluster_centres als).

(** The rows of the clustering test of the repository: three vessels at
    10 knots, within 0.03 degrees of each other, without a course key. *)
Definition three_vessels : list vessel :=
  [ mk_vessel 1%Z "S1" 50 10 10 None 0%Z;
    mk_vessel 2%Z "S2" 50.01 10.01 10 None 0%Z;
    mk_vessel 3%Z "S3" 50.02 10.02 10 None 0%Z ].

End AnomaliesSpec.

(** ** Rows the position predictor cannot take *)

Module AnomaliesEdge.
Import Anomalies.
Local Open Scope R_scope.

(** A vessel under way whose stored course is null. *)
Definition moving_with_null_course (v : vessel) : Prop :=
  0.5 <= v_speed v /\ v_course v = Some PyNone.

End AnomaliesEdge.

(** ** Python's [float] *)

Module Float64.
Import Floats.
Local Open Scope float_scope.

(** A Python [float]: an IEEE 754 binary64 number. Addition, subtraction,
    multiplication, division and the comparisons are the machine's,
    rounding to nearest, ties to even. *)
Definition float : Set := PrimFloat.float.

(** An integer as a number without rounding: sign, magnitude, exponent 0. *)
Definition SF_of_Z (z : Z) : spec_float :=
  match z with
  | Z0 => S754_zero false
  | Zpos p => S754_finite false p 0
  | Zneg p => S754_finite true p 0
  end.

(** [n / d] on two integers ([int.__truediv__]): the float nearest to the
    quotient. *)
Definition div_Z (n d : Z) : float :=
  SF2Prim (SFdiv prec emax (SF_of_Z n) (SF_of_Z d)).

(** [x / y] on floats: a zero divisor raises. *)
Definition truediv (x y : float) : result float :=
  if (y =? 0) then Raise ZeroDivisionError else Ok (x / y).

(** [math.radians]: [x * (pi / 180)], the factor being a double. *)
Definition degToRad : float := 0x1.921fb54442d18p+1 / 180.

Definition radians (x : float) : float := x * degToRad.

(** [math.sqrt]: the machine's square root, a domain error below zero. *)
Definition math_sqrt (x : float) : result float :=
  if (x <? 0) then Raise ValueError else Ok (PrimFloat.sqrt x).

(** [timedelta.total_seconds()] of a difference in microseconds. *)
Definition total_seconds (d : Z) : float := div_Z d 1000000.

(** The constants of the detector. *)
Definition half : float := 0x1p-1.
Definition sixty : float := 60.
Definition seconds_per_hour : float := 3600.
Definition tenth : float := 0x1.999999999999ap-4.

(** *** Stand-ins for the library, for the scenarios *)

(** [x ** 2] where the square is finite and the library's power is
    correctly rounded. *)
Definition square (x : float) : result float := Ok (x * x).

(** The exact value of a finite float scaled by [10^6] and rounded to the
    nearest integer, ties to even. *)
Definition scaled6 (m : positive) (e : Z) : Z :=
  let n := (Zpos m * 1000000)%Z in
  match e with
  | Zneg p =>
      let d := Z.pow_pos 2 p in
      let q := (n / d)%Z in
      let r := (n mod d)%Z in
      if (2 * r <? d)%Z then q
      else if (d <? 2 * r)%Z then (q + 1)%Z
      else if Z.even q then q else (q + 1)%Z
  | _ => (n * 2 ^ e)%Z
  end.

(** [round(x, 6)]: the float nearest to the decimal with six places
    nearest to [x], ties to even in both steps; an infinity or a NaN is
    returned as it is. *)
Definition round6 (x : float) : float :=
  match Prim2SF x with
  | S754_finite s m e =>
      let n := scaled6 m e in
      match n with
      | Z0 => SF2Prim (S754_zero s)
      | _ => div_Z (if s then - n else n)%Z 1000000
      end
  | _ => x
  end.

End Float64.

(** ** [src/core/anomalies.py], on floats *)

Module Detector.
Import Floats Float64.
Local Open Scope float_scope.

(** What a numeric column of a row holds: a float, the columns being
    double precision, or [None] for a null. *)
Inductive pyval : Type :=
| PyNone
| PyFloat (x : float).

(** The operand of an arithmetic operation or of a comparison with a
    float: [None] there is a [TypeError]. *)
Definition number (v : pyval) : result float :=
  match v with
  | PyFloat x => Ok x
  | PyNone => Raise TypeError
  end.

(** The dictionary [{"lat": _, "lon": _}]. *)
Record pos : Type := mk_pos { p_lat : pyval; p_lon : pyval }.

(** A row of [repo.get_inactive_vessels]. The keys read with [v[...]]
    are there; [v_course] is what [v.get('course', 0)] looks up: [None]
    when the row has no such key, as in the rows of the repository's
    test, [Some PyNone] when the key holds [None], as in a row of the
    query whose stored course is null. *)
Record vessel : Type := mk_vessel {
  v_mmsi : value;
  v_name : value;
  v_lat : pyval;
  v_lon : pyval;
  v_speed : pyval;
  v_course : option pyval;
  v_last_seen : datetime
}.

Record alert : Type := mk_alert {
  a_mmsi : value;
  a_name : value;
  a_speed : pyval;
  a_last_seen : datetime;
  last_pos : pos;
  predicted_pos : pos
}.

Record cluster : Type := mk_cluster {
  center : pos;
  affected_mmsi : list value;
  c_type : string
}.

Record report : Type := mk_report {
  alerts : list alert;
  clusters : list cluster
}.

(** [d.get(key, default)] on an optional key. *)
Definition get {A} (field : option A) (default : A) : A :=
  match field with
  | Some x => x
  | None => default
  end.

(** [enumerate(l)]. *)
Definition enumerate {A} (l : list A) : list (nat * A) :=
  combine (seq 0 (List.length l)) l.

Section Library.

(** [math.cos] and [math.sin] (a [ValueError] at an infinity), [x ** 2]
    (an [OverflowError] when the square overflows) and [round(x, 6)], as
    the platform computes them. *)
Variable cos : float -> result float.
Variable sin : float -> result float.
Variable pow2 : float -> result float.
Variable round6 : float -> float.

(** [AnomalyDetector.calculate_predicted_pos], [last_seen] being a
    datetime aware of its zone, as the subtraction from
    [datetime.now(timezone.utc)] needs it. *)
Definition calculate_predicted_pos (now : datetime)
    (lat lon speed course : pyval) (last_seen : datetime) : result pos :=
  s <- number speed ;;
  if (s <? half) then Ok (mk_pos lat lon)
  else
    let hours_passed := total_seconds (now - last_seen) / seconds_per_hour in
    let dist_nm := s * hours_passed in
    c <- number course ;;
    cos_c <- cos (radians c) ;;
    let d_lat := (dist_nm * cos_c) / sixty in
    sin_c <- sin (radians c) ;;
    la <- number lat ;;
    cos_la <- cos (radians la) ;;
    d_lon <- truediv (dist_nm * sin_c) (sixty * cos_la) ;;
    let r_lat := round6 (la + d_lat) in
    lo <- number lon ;;
    Ok (mk_pos (PyFloat r_lat) (PyFloat (round6 (lo + d_lon)))).

(** The first loop of [get_enhanced_anomalies]: one alert per vessel,
    appended in order. [clock k] is what [datetime.now] returns in the
    call made for the vessel of index [k]. *)
Fixpoint alerts_loop (clock : nat -> datetime) (k : nat)
    (vessels : list vessel) (acc : list alert) : result (list alert) :=
  match vessels with
  | [] => Ok acc
  | v :: rest =>
      predicted <- calculate_predicted_pos (clock k)
                     (v_lat v) (v_lon v) (v_speed v)
                     (get (v_course v) (PyFloat 0)) (v_last_seen v) ;;
      alerts_loop clock (S k) rest
        (acc ++ [mk_alert (v_mmsi v) (v_name v) (v_speed v) (v_last_seen v)
                          (mk_pos (v_lat v) (v_lon v)) predicted])
  end.

(** The distance the clustering loop computes between two alerts:
    [math.sqrt((lat1 - lat2) ** 2 + (lon1 - lon2) ** 2)]. *)
Definition dist (a1 a2 : alert) : result float :=
  lat1 <- number (p_lat (last_pos a1)) ;;
  lat2 <- number (p_lat (last_pos a2)) ;;
  sq_lat <- pow2 (lat1 - lat2) ;;
  lon1 <- number (p_lon (last_pos a1)) ;;
  lon2 <- number (p_lon (last_pos a2)) ;;
  sq_lon <- pow2 (lon1 - lon2) ;;
  math_sqrt (sq_lat + sq_lon).

(** The inner loop: [nearby] collects the identifiers of the alerts other
    than [i] that are closer than 0.1. *)
Fixpoint nearby_loop (i : nat) (a1 : alert) (others : list (nat * alert))
    (nearby : list value) : result (list value) :=
  match others with
  | [] => Ok nearby
  | (j, a2) :: rest =>
      if Nat.eqb i j then nearby_loop i a1 rest nearby
      else
        d <- dist a1 a2 ;;
        if (d <? tenth) then nearby_loop i a1 rest (nearby ++ [a_mmsi a2])
        else nearby_loop i a1 rest nearby
  end.

(** The outer loop: a cluster for each alert with two neighbours or more. *)
Fixpoint clusters_loop (all : list alert) (todo : list (nat * alert))
    (acc : list cluster) : result (list cluster) :=
  match todo with
  | [] => Ok acc
  | (i, a1) :: rest =>
      nearby <- nearby_loop i a1 (enumerate all) [] ;;
      if (2 <=? List.length nearby)%nat
      then clusters_loop all rest
             (acc ++ [mk_cluster (last_pos a1) (a_mmsi a1 :: nearby)
                                 "POTENTIAL_JAMMING_ZONE"])
      else clusters_loop all rest acc
  end.

(** [AnomalyDetector.get_enhanced_anomalies], on the rows [vessels] that
    [repo.get_inactive_vessels] returned. *)
Definition get_enhanced_anomalies (clock : nat -> datetime)
    (vessels : list vessel) : result report :=
  match vessels with
  | [] => Ok (mk_report [] [])
  | _ =>
      als <- alerts_loop clock 0 vessels [] ;;
      cls <- clusters_loop als (enumerate als) [] ;;
      Ok (mk_report als cls)
  end.

End Library.

End Detector.

(** ** The clustering rule on floats, as the specification words it *)

Module DetectorSpec.
Import Floats Float64 Detector.
Local Open Scope float_scope.

Definition no_alert : alert :=
  mk_alert VNone VNone PyNone 0%Z (mk_pos PyNone PyNone) (mk_pos PyNone PyNone).

(** The alert of index [i]. *)
Definition alert_at (als : list alert) (i : nat) : alert := nth i als no_alert.

Section Rule.

Variable cos : float -> result float.
Variable sin : float -> result float.
Variable pow2 : float -> result float.
Variable round6 : float -> float.

(** Two alerts are neighbours when the distance computed between their
    last known positions is below 0.1. *)
Definition near (a1 a2 : alert) : bool :=
  match dist pow2 a1 a2 with
  | Ok d => (d <? tenth)
  | Raise _ => false
  end.

(** The indices of the neighbours of alert [i], in increasing order. *)
Definition neighbours (als : list alert) (i : nat) : list nat :=
  filter (fun j => negb (Nat.eqb i j) && near (alert_at als i) (alert_at als j))
         (seq 0 (List.length als)).

(** The cluster centred at alert [i]. *)
Definition cluster_at (als : list alert) (i : nat) : cluster :=
  mk_cluster (last_pos (alert_at als i))
             (a_mmsi (alert_at als i)
                :: map (fun j => a_mmsi (alert_at als j)) (neighbours als i))
             "POTENTIAL_JAMMING_ZONE".

(** One cluster for each alert that has two neighbours or more, in the
    order of the alerts. *)
Definition cluster_centres (als : list alert) : list nat :=
  filter (fun i => (2 <=? List.length (neighbours als i))%nat)
         (seq 0 (List.length als)).

Definition jamming_clusters (als : list alert) : list cluster :=
  map (cluster_at als) (cluster_centres als).

(** The alert made for vessel [v], the [k]-th of the rows. *)
Definition alert_for (clock : nat -> datetime) (k : nat) (v : vessel) (a : alert) : Prop :=
  a_mmsi a = v_mmsi v /\ a_name a = v_name v /\ a_speed a = v_speed v /\
  a_last_seen a = v_last_seen v /\
  last_pos a = mk_pos (v_lat v) (v_lon v) /\
  calculate_predicted_pos cos sin round6 (clock k) (v_lat v) (v_lon v) (v_speed v)
    (get (v_course v) (PyFloat 0)) (v_last_seen v) = Ok (predicted_pos a).

Fixpoint alerts_for (clock : nat -> datetime) (k : nat)
    (vs : list vessel) (als : list alert) : Prop :=
  match vs, als with
  | [], [] => True
  | v :: vs', a :: als' => alert_for clock k v a /\ alerts_for clock (S k) vs' als'
  | _, _ => False
  end.

End Rule.

(** A row with a null where the detector needs a number: a null speed; a
    null course, latitude or longitude on a vessel that is not below 0.5
    knots; a null latitude or longitude when the rows are two or more. *)
Definition null_in_arithmetic (rows : list vessel) (v : vessel) : Prop :=
  v_speed v = PyNone
  \/ (exists s, v_speed v = PyFloat s /\ (s <? half) = false
                /\ (v_course v = Some PyNone \/ v_lat v = PyNone \/ v_lon v = PyNone))
  \/ ((v_lat v = PyNone \/ v_lon v = PyNone) /\ (2 <= List.length rows)%nat).

End DetectorSpec.

(** ** Scenarios on floats *)

Module DetectorScenarios.
Import Floats Float64 Detector.
Local Open Scope float_scope.

(** The library's cosine and sine at the arguments the scenarios call
    them with: 0, and 60, 50, 50.01, 50.02, 64.71275 and 90 degrees in
    radians; the cosine of 90 degrees in radians is about 6.1e-17, the
    float nearest to a quarter turn being below it. At any other
    argument the stand-in raises, so that no scenario rests on a value
    the library was not asked for. *)
Definition cos_sample (x : float) : result float :=
  if (x =? 0) then Ok 1
  else if (x =? 0x1.0c152382d7365p+0) then Ok 0x1.0000000000001p-1
  else if (x =? 0x1.becde5da115a9p-1) then Ok 0x1.491b7523c161dp-1
  else if (x =? 0x1.bee4c6347aba1p-1) then Ok 0x1.4909ee959a323p-1
  else if (x =? 0x1.befba68ee419ap-1) then Ok 0x1.48f8675f4a252p-1
  else if (x =? 0x1.2123abee68426p+0) then Ok 0x1.b5688eb9ad184p-2
  else if (x =? 0x1.921fb54442d18p+0) then Ok 0x1.1a62633145c07p-54
  else Raise ValueError.

Definition sin_sample (x : float) : result float :=
  if (x =? 0) then Ok 0
  else if (x =? 0x1.921fb54442d18p+0) then Ok 1
  else Raise ValueError.

(** The rows of the clustering test of the repository: three vessels at
    10 knots, at (50.0, 10.0), (50.01, 10.01) and (50.02, 10.02), without
    a course key. *)
Definition test_rows : list vessel :=
  [ mk_vessel (VStr "1") (VStr "S1")
      (PyFloat 50) (PyFloat 10) (PyFloat 10) None 0%Z;
    mk_vessel (VStr "2") (VStr "S2")
      (PyFloat 0x1.90147ae147ae1p+5) (PyFloat 0x1.4051eb851eb85p+3)
      (PyFloat 10) None 0%Z;
    mk_vessel (VStr "3") (VStr "S3")
      (PyFloat 0x1.9028f5c28f5c3p+5) (PyFloat 0x1.40a3d70a3d70ap+3)
      (PyFloat 10) None 0%Z ].


(** Rows of the inactivity query: a vessel in order; a vessel at 12
    knots whose stored course is null; the same vessel in a row without
    the course key; a vessel whose stored speed is null. *)
Definition row_in_order : vessel :=
  mk_vessel (VInt 258000000) (VStr "POLARLYS")
    (PyFloat 50) (PyFloat 10) (PyFloat 10) (Some (PyFloat 0)) 0%Z.

Definition row_null_course : vessel :=
  mk_vessel (VInt 257000000) (VStr "NORDLYS")
    (PyFloat 60) (PyFloat 10) (PyFloat 12) (Some PyNone) 0%Z.

Definition row_without_course : vessel :=
  mk_vessel (VInt 257000000) (VStr "NORDLYS")
    (PyFloat 60) (PyFloat 10) (PyFloat 12) None 0%Z.

Definition row_null_speed : vessel :=
  mk_vessel (VInt 259000000) (VStr "TROLLFJORD")
    (PyFloat 60) (PyFloat 10) PyNone (Some (PyFloat 0)) 0%Z.

End DetectorScenarios.

(** ** The sends of a broadcast, one by one *)

Module BroadcasterSpec.
Import Broadcaster.

(** Whether the socket of a connection takes the text. *)
Definition sent_ok (send_text : connection -> string -> result unit)
    (data : string) (ws : connection) : bool :=
  match send_text ws data with
  | Ok _ => true
  | Raise _ => false
  end.

(** The registrations left once [list.remove] has run for each of [xs]. *)
Definition remove_each (xs : list connection) (l : list connection) : list connection :=
  fold_left (fun act x => list_remove x act) xs l.

(** A scenario: connection 2 registered twice, the sockets of connections
    2 and 4 closed. *)
Definition five_registrations : manager := mk_manager [1; 2; 3; 2; 4]%nat [] [].

Definition sockets_2_4_closed (ws : connection) (_ : string) : result unit :=
  if Nat.eqb ws 2 || Nat.eqb ws 4 then Raise (OtherError "closed") else Ok tt.

End BroadcasterSpec.

(** ** [src/main.py] *)

Module Main.
Import Broadcaster.

Local Open Scope string_scope.

(** Upper case on a text of ASCII characters: the letters a to z go to
    A to Z. On such a text it is what [str.upper] returns. *)
Definition upper_char (c : Ascii.ascii) : Ascii.ascii :=
  let n := Ascii.nat_of_ascii c in
  if ((97 <=? n) && (n <=? 122))%nat then Ascii.ascii_of_nat (n - 32) else c.

Fixpoint upper_ascii (s : string) : string :=
  match s with
  | EmptyString => EmptyString
  | String c rest => String (upper_char c) (upper_ascii rest)
  end.

(** [s in l], on strings. *)
Definition str_in (s : string) (l : list string) : bool :=
  existsb (String.eqb s) l.

(** The payload of the simulated alert. *)
Record alert_data : Type := mk_alert_data { ad_name : string; ad_severity : string }.

Record alert_msg : Type := mk_alert_msg {
  am_type : string;
  am_vessel : string;
  am_data : alert_data
}.

(** What the endpoint answers. *)
Record response : Type := mk_response {
  status : string;
  active_clients : nat;
  sent_severity : string
}.

(** The alert [force_alarm] builds for a severity. *)
Definition alert_of (sev : string) : alert_msg :=
  mk_alert_msg "ALERT" ("SIM_TEST_" ++ sev) (mk_alert_data "Manual Test Zone" sev).

Section ForceAlarm.

(** [str.upper], as Python computes it on the text of the path. *)
Variable upper : string -> string.

Variable dumps : alert_msg -> string.
Variable send_text : connection -> string -> result unit.
Variable schedule : list connection -> list connection.

(** [force_alarm], the handler of [/force-alarm/{severity}]. *)
Definition force_alarm (severity : string) (m : manager) : manager * result response :=
  let num_clients := List.length (active_connections m) in
  let sev := upper severity in
  let sev := if negb (str_in sev ["CRITICAL"; "WARNING"; "INFO"]) then "CRITICAL" else sev in
  let alert := alert_of sev in
  let '(m', r) := broadcast dumps send_text schedule alert m in
  (m', _ <- r ;; Ok (mk_response "SUCCESS" num_clients sev)).

End ForceAlarm.

(** *** The WebSocket endpoint *)

(** What the coroutines that share the manager do to it: an endpoint
    registering its socket, an endpoint removing its socket, a send task of
    a broadcast ending with its outcome. *)
Inductive op : Type :=
| OpConnect (ws : connection)
| OpDisconnect (ws : connection)
| OpSend (ws : connection) (data : string) (outcome : result unit).

Definition run_op (o : op) (m : manager) : manager :=
  match o with
  | OpConnect ws => connect ws m
  | OpDisconnect ws => disconnect ws m
  | OpSend ws data outcome => fst (_send_safe (fun _ _ => outcome) ws data m)
  end.

Definition run (ops : list op) (m : manager) : manager :=
  fold_left (fun m o => run_op o m) ops m.

(** [websocket_endpoint], once the handshake is accepted: the socket is
    registered, the handler waits in [receive_text] while the other
    coroutines do [meanwhile], and when [receive_text] raises an
    [Exception] the socket is removed. *)
Definition websocket_endpoint (ws : connection) (meanwhile : list op)
    (m : manager) : manager :=
  let m := connect ws m in
  let m := run meanwhile m in
  disconnect ws m.

(** Whether the operation registers [ws]: a socket is registered by its
    own endpoint, once. *)
Definition registers (ws : connection) (o : op) : bool :=
  match o with
  | OpConnect ws' => Nat.eqb ws' ws
  | _ => false
  end.

(** How many times a socket is registered. *)
Definition occurrences (ws : connection) (m : manager) : nat :=
  count_occ Nat.eq_dec (active_connections m) ws.

(** A scenario: while socket 7 is connected, socket 8 comes and goes and
    a broadcast finds socket 7 closed. *)
Definition traffic : list op :=
  [OpConnect 8%nat; OpSend 8%nat "ping" (Ok tt);
   OpSend 7%nat "ping" (Raise (OtherError "closed")); OpDisconnect 8%nat].

End Main.

(** ** [src/db/session.py] *)

Module Session.

Local Open Scope string_scope.
Local Open Scope list_scope.

(** What [wait_for_db] does to the outside, in order. *)
Inductive event : Type :=
| EvConnect (i : nat)
| EvLogReady
| EvLogWaiting (attempt : nat) (max : nat)
| EvSleep (seconds : nat)
| EvLogCritical (msg : string).

Definition max_retries : nat := 10.

Definition retry_interval : nat := 2.

Definition error_msg : string :=
  "❌ Critical Error: Could not connect to the database after multiple attempts.".

Section WaitForDb.

(** [psycopg.AsyncConnection.connect], by the turn of the loop in which
    it is called. *)
Variable connect : nat -> result unit.

(** The loop [for i in range(max_retries)] and what follows it. *)
Fixpoint retry_loop (range : list nat) (trace : list event)
  : list event * result bool :=
  match range with
  | [] =>
      (trace ++ [EvLogCritical error_msg], Raise (OtherError error_msg))
  | i :: rest =>
      match connect i with
      | Ok _ => (trace ++ [EvConnect i; EvLogReady], Ok true)
      | Raise _ =>
          retry_loop rest
            (trace ++ [EvConnect i; EvLogWaiting (i + 1) max_retries;
                       EvSleep retry_interval])
      end
  end.

(** [wait_for_db]. *)
Definition wait_for_db : list event * result bool :=
  retry_loop (seq 0 max_retries) [].

End WaitForDb.

(** *** The retry policy, as a trace *)

(** A turn whose connection attempt failed. *)
Definition failed_turn (i : nat) : list event :=
  [EvConnect i; EvLogWaiting (i + 1) 10; EvSleep 2].

(** The seconds slept in a trace. *)
Fixpoint slept (trace : list event) : nat :=
  match trace with
  | [] => 0
  | EvSleep s :: rest => s + slept rest
  | _ :: rest => slept rest
  end.

(** The connection attempts made in a trace. *)
Fixpoint attempts (trace : list event) : nat :=
  match trace with
  | [] => 0
  | EvConnect _ :: rest => S (attempts rest)
  | _ :: rest => attempts rest
  end.

(** A database that answers from the fourth attempt on. *)
Definition ready_at_3 (i : nat) : result unit :=
  if (i <? 3)%nat then Raise (OtherError "connection refused") else Ok tt.

(** A database that never answers. *)
Definition never_ready (_ : nat) : result unit :=
  Raise (OtherError "connection refused").

End Session.

(** ** [src/mcp/tools.py] *)

Module Tools.
Import Float64 Detector.

Local Open Scope string_scope.

Definition no_anomalies : string :=
  "✅ No maritime anomalies detected in the specified time window.".

Section AnalyzeMaritimeSecurity.

(** The library the detector calls, and its clock. *)
Variable cos : float -> result float.
Variable sin : float -> result float.
Variable pow2 : float -> result float.
Variable round6 : float -> float.
Variable clock : nat -> datetime.

(** [repo.get_inactive_vessels]: the rows, or the exception of the
    database. *)
Variable get_inactive_vessels : Z -> result (list vessel).

(** [json.dumps(data, indent=2, default=str)] and [str(e)]. *)
Variable dumps : report -> string.
Variable str : exn -> string.

(** [detector.get_enhanced_anomalies(threshold_min)], the query
    included. *)
Definition detector_get_enhanced_anomalies (threshold_min : Z) : result report :=
  vessels <- get_inactive_vessels threshold_min ;;
  get_enhanced_anomalies cos sin pow2 round6 clock vessels.

(** The tool [analyze_maritime_security]. *)
Definition analyze_maritime_security (threshold_min : Z) : string :=
  match detector_get_enhanced_anomalies threshold_min with
  | Ok data =>
      match alerts data with
      | [] => no_anomalies
      | _ => dumps data
      end
  | Raise e => "Analysis error occurred: " ++ str e
  end.

End AnalyzeMaritimeSecurity.

(** A scenario: the query returns a row in order and a row at 12 knots
    with a null course. *)
Definition one_null_course (_ : Z) : result (list vessel) :=
  Ok [DetectorScenarios.row_in_order; DetectorScenarios.row_null_course].

Definition str_of_exn (e : exn) : string :=
  match e with
  | TypeError => "must be real number, not NoneType"
  | OtherError what => what
  | _ => ""
  end.

End Tools.

(** ** [src/db/repository.py]: the inactivity query *)

Module Queries.
Import Vessel Repository.

(** A row of the inactivity query, column by column. *)
Record inactive_vessel : Type := mk_inactive {
  i_mmsi : value;
  i_name : value;
  i_speed : value;
  i_course : value;
  i_last_seen : datetime;
  i_lat : value;
  i_lon : value
}.

(** [INTERVAL '1 minute'], in microseconds. *)
Definition minute : Z := 60000000.

(** [INTERVAL '24 hours'], in microseconds. *)
Definition hours_24 : Z := 24 * 60 * minute.

(** [WHERE last_seen < NOW() - (%s * INTERVAL '1 minute')
     AND last_seen > NOW() - INTERVAL '24 hours']. *)
Definition inactive (now : datetime) (minutes : Z) (r : vessel_row) : bool :=
  (r_last_seen r <? now - minutes * minute)%Z
  && (now - hours_24 <? r_last_seen r)%Z.

(** A coordinate as PostGIS hands it back, a double precision number:
    an integer written comes back as the float of the same value. *)
Definition float8 (x : value) : value :=
  match x with
  | VInt z => VFloat (inject_Z z)
  | _ => x
  end.

(** [ST_MakePoint] is strict: when one of the two coordinates written is
    null, the point it makes, and the store keeps, is null. *)
Definition point_is_null (p : value * value) : bool :=
  negb (is_not_None (fst p) && is_not_None (snd p)).

(** [ST_X] and [ST_Y] of the stored point: its first and its second
    coordinate, and null when the point is null. *)
Definition ST_X (p : value * value) : value :=
  if point_is_null p then VNone else float8 (fst p).

Definition ST_Y (p : value * value) : value :=
  if point_is_null p then VNone else float8 (snd p).

(** The select list: [ST_Y(last_pos::geometry) as lat] and
    [ST_X(last_pos::geometry) as lon]. *)
Definition select_row (kr : value * vessel_row) : inactive_vessel :=
  mk_inactive (fst kr) (r_name (snd kr)) (r_speed (snd kr)) (r_course (snd kr))
              (r_last_seen (snd kr))
              (ST_Y (r_last_pos (snd kr))) (ST_X (r_last_pos (snd kr))).

(** A float that [::geography] keeps as it is: at most [bound] degrees
    on either side. *)
Definition within_degrees (bound : Z) (q : Q) : Prop :=
  (inject_Z (- bound) <= q <= inject_Z bound)%Q.

(** [ORDER BY last_seen DESC]. *)
Fixpoint insert_desc (x : inactive_vessel) (l : list inactive_vessel)
  : list inactive_vessel :=
  match l with
  | [] => [x]
  | y :: rest =>
      if (i_last_seen y <=? i_last_seen x)%Z then x :: l
      else y :: insert_desc x rest
  end.

Definition order_by_last_seen_desc (l : list inactive_vessel) : list inactive_vessel :=
  fold_right insert_desc [] l.

(** [AISRepository.get_inactive_vessels], the query run at time [now]. *)
Definition get_inactive_vessels (now : datetime) (minutes : Z) (d : db)
  : list inactive_vessel :=
  order_by_last_seen_desc
    (map select_row
         (filter (fun kr => inactive now minutes (snd kr)) (vessels d))).

(** *** The batch, vessel by vessel *)

(** The first report of the batch for the vessel [key]. *)
Fixpoint first_report (key : value) (batch : list vessel_data) : option vessel_data :=
  match batch with
  | [] => None
  | v :: rest => if value_eq_dec key (mmsi v) then Some v else first_report key rest
  end.

(** The identifiers stored, in the order of the rows. *)
Definition keys (tbl : table) : list value := map fst tbl.

(** A scenario: an empty store, and a batch with two reports of one
    vessel under two names and a report of another vessel. *)
Definition empty_store : db := mk_db [] 0%nat.

Definition first_of_257 : vessel_data :=
  mk_vessel_data (VInt 257000000) (VStr "NORDLYS")
                 (VFloat (601 # 10)) (VFloat (101 # 10))
                 (VInt 11) (VInt 95) (VStr "PositionReport").

Definition second_of_257 : vessel_data :=
  mk_vessel_data (VInt 257000000) (VStr "Unknown")
                 (VFloat (602 # 10)) (VFloat (102 # 10))
                 (VInt 12) (VInt 96) (VStr "StandardClassBPositionReport").

Definition only_of_258 : vessel_data :=
  mk_vessel_data (VInt 258000000) (VStr "POLARLYS")
                 (VFloat (590 # 10)) (VFloat (50 # 10))
                 (VInt 0) (VInt 0) (VStr "PositionReport").

Definition mixed_batch : list vessel_data :=
  [first_of_257; only_of_258; second_of_257].

End Queries.

(** ** [src/api/ais_client.py]: the loops *)

Module Ingestion.
Import Vessel AisClient.

(** *** The receive loop of the producer *)

(** [async for message in ws], on the parsed messages of one connection:
    the first exception ends the loop, and with it the connection. *)
Fixpoint receive_loop (messages : list value) (p : producer)
  : producer * result unit :=
  match messages with
  | [] => (p, Ok tt)
  | msg :: rest =>
      match on_message msg p with
      | Ok p' => receive_loop rest p'
      | Raise e => (p, Raise e)
      end
  end.

(** *** The loop of the consumer *)

Section Consumer.

Variable check_point_in_geofence : value -> value -> result (option zone).

(** The turns of [db_writer] one after the other, each with what
    [wait_for(queue.get(), 5.0)] gave. *)
Definition db_writer_run (gots : list (option vessel_data)) (w : writer) : writer :=
  fold_left (fun w got => db_writer_step check_point_in_geofence got w) gots w.

(** The consumer with the calls of [queue.task_done] counted and the
    exceptions its handler logged. *)
Record consumer : Type := mk_consumer {
  c_writer : writer;
  task_done : nat;
  errors : list exn
}.

(** [process_and_flush(buffer)] and what follows it, when the write of
    the batch ends with [write]: an exception leaves the buffer and the
    counters as they are and goes to the handler of the loop. *)
Definition flush (write : result unit) (batch : list vessel_data) (w : writer)
  : writer * result unit :=
  let trace' := trace w ++ process_and_flush check_point_in_geofence batch in
  match write with
  | Ok _ =>
      (mk_writer [] (total_processed w + List.length batch) trace', Ok tt)
  | Raise e => (mk_writer batch (total_processed w) trace', Raise e)
  end.

(** One turn of the loop of [db_writer], exceptions included: [write] is
    how [repo.update_vessels_batch] ends if this turn calls it. *)
Definition db_writer_turn (got : option vessel_data) (write : result unit)
    (c : consumer) : consumer :=
  let w := c_writer c in
  match got with
  | None =>
      match buffer w with
      | [] => c
      | _ =>
          match flush write (buffer w) w with
          | (w', Ok _) => mk_consumer w' (task_done c) (errors c)
          | (w', Raise e) => mk_consumer w' (task_done c) (errors c ++ [e])
          end
      end
  | Some data =>
      let buffer' := buffer w ++ [data] in
      if (batch_size <=? List.length buffer')%nat
      then
        match flush write buffer' w with
        | (w', Ok _) => mk_consumer w' (S (task_done c)) (errors c)
        | (w', Raise e) => mk_consumer w' (task_done c) (errors c ++ [e])
        end
      else
        mk_consumer (mk_writer buffer' (total_processed w) (trace w))
                    (S (task_done c)) (errors c)
  end.

End Consumer.

(** *** What a trace says *)

(** The reports handed to the write, in order. *)
Definition persisted (tr : list event) : list vessel_data :=
  flat_map (fun ev => match ev with EvPersist b => b | _ => [] end) tr.

(** The sizes of the batches handed to the write. *)
Definition batch_sizes (tr : list event) : list nat :=
  flat_map (fun ev => match ev with EvPersist b => [List.length b] | _ => [] end) tr.

(** The alerts broadcast. *)
Definition is_alert (ev : event) : bool :=
  match ev with
  | EvBroadcast (MsgAlert _ _) => true
  | _ => false
  end.

(** The reports taken from the queue. *)
Definition taken (gots : list (option vessel_data)) : list vessel_data :=
  flat_map (fun got => match got with Some d => [d] | None => [] end) gots.

(** What every turn of the consumer keeps. *)
Definition consistent (w : writer) : Prop :=
  (List.length (buffer w) < 50)%nat
  /\ total_processed w = List.length (persisted (trace w))
  /\ Forall (fun n => (1 <= n <= 50)%nat) (batch_sizes (trace w)).

(** *** What a message can raise *)

(** A computation whose only exception is [AttributeError]. *)
Definition attribute_errors_only {A} (r : result A) : Prop :=
  forall e, r = Raise e -> e = AttributeError.

(** A string of white space only. *)
Fixpoint blank (s : string) : bool :=
  match s with
  | EmptyString => true
  | String c rest => is_space c && blank rest
  end.

(** *** Scenarios *)

Local Open Scope string_scope.

(** A message whose ship name is null. *)
Definition message_with_null_name : value :=
  VDict [("MessageType", VStr "PositionReport");
         ("MetaData", VDict [("MMSI", VInt 257000000);
                             ("ShipName", VNone);
                             ("latitude", VFloat (601 # 10));
                             ("longitude", VFloat (101 # 10))]);
         ("Message", VDict [("PositionReport",
                             VDict [("Sog", VFloat (123 # 10));
                                    ("Cog", VFloat (90 # 1))])])].

(** A static-data message of the feed: metadata with a position, no
    position report. *)
Definition static_data_message : value :=
  VDict [("MessageType", VStr "ShipStaticData");
         ("MetaData", VDict [("MMSI", VInt 257000000);
                             ("ShipName", VStr "NORDLYS");
                             ("latitude", VFloat (601 # 10));
                             ("longitude", VFloat (101 # 10))]);
         ("Message", VDict [("ShipStaticData",
                             VDict [("Destination", VStr "BERGEN")])])].

Definition static_data_report : vessel_data :=
  mk_vessel_data (VInt 257000000) (VStr "NORDLYS")
                 (VFloat (601 # 10)) (VFloat (101 # 10))
                 (VInt 0) (VInt 0) (VStr "ShipStaticData").

(** A consumer one report short of a batch. *)
Definition almost_full : consumer :=
  mk_consumer (mk_writer (repeat position_report_data 49) 0 []) 0 [].

End Ingestion.

(** ** Properties of the position predictor *)

Module AnomaliesFacts.
Import Anomalies AnomaliesSpec.
Local Open Scope R_scope.


(** The two branches of the predictor. *)
Lemma predicted_slow now lat lon speed course last_seen :
  speed < 0.5 ->
  calculate_predicted_pos now lat lon speed course last_seen = Ok (mk_pos lat lon).
Proof.
  intros Hslow. unfold calculate_predicted_pos.
  destruct (Rlt_dec speed 0.5) as [_ | Hge]; [reflexivity | contradiction].
Qed.


(** C4. Below 0.5 knots the predictor returns the input position
    unchanged, whatever the course, the last-seen time and the current
    time are. *)
Theorem C4_slow_vessel_position_unchanged :
  forall (now last_seen : datetime) (lat lon speed : R) (course : pyval),
    speed < 0.5 ->
    calculate_predicted_pos now lat lon speed course last_seen
    = Ok (mk_pos lat lon).
Proof.
  intros now last_seen lat lon speed course Hslow.
  now apply predicted_slow.
Qed.

Lemma C4_slow_vessel_witness :
  0.2 < 0.5 /\
  calculate_predicted_pos 7200000000%Z 60 10 0.2 PyNone 0%Z = Ok (mk_pos 60 10).
Proof.
  assert (H : 0.2 < 0.5) by lra.
  split; [exact H | exact (C4_slow_vessel_position_unchanged 7200000000%Z 0%Z 60 10 PyNone H)].
Defined.





(** *** The clustering loops *)

Lemma enumerate_nth (l : list alert) :
  enumerate l = map (fun j => (j, alert_at l j)) (seq 0 (List.length l)).
Proof.
  unfold enumerate, alert_at.
  assert (G : forall (l0 : list alert) s,
             combine (seq s (List.length l0)) l0
             = map (fun j => (j, nth (j - s) l0 no_alert)) (seq s (List.length l0))).
  { induction l0 as [| a l0 IH]; intros s; [reflexivity |].
    simpl. rewrite Nat.sub_diag. f_equal.
    rewrite IH. apply map_ext_in. intros j Hj. apply in_seq in Hj.
    replace (j - s)%nat with (S (j - S s)) by lia. reflexivity. }
  rewrite G. apply map_ext. intros j. now rewrite Nat.sub_0_r.
Qed.

Lemma nearby_loop_spec (als : list alert) (i : nat) (a1 : alert) :
  forall js nearby,
    nearby_loop i a1 (map (fun j => (j, alert_at als j)) js) nearby
    = nearby ++ map (fun j => a_mmsi (alert_at als j))
                    (filter (fun j => negb (Nat.eqb i j) && near a1 (alert_at als j)) js).
Proof.
  induction js as [| j js IH]; intros nearby; simpl.
  - now rewrite app_nil_r.
  - unfold near at 1.
    destruct (Nat.eqb i j); simpl.
    + apply IH.
    + destruct (Rlt_dec (dist a1 (alert_at als j)) 0.1); simpl.
      * rewrite IH, <- app_assoc. reflexivity.
      * apply IH.
Qed.

Lemma nearby_of_alert (als : list alert) (i : nat) :
  nearby_loop i (alert_at als i) (enumerate als) []
  = map (fun j => a_mmsi (alert_at als j)) (neighbours als i).
Proof. rewrite enumerate_nth, nearby_loop_spec. reflexivity. Qed.

Lemma clusters_loop_spec (als : list alert) :
  forall todo acc,
    clusters_loop als (map (fun i => (i, alert_at als i)) todo) acc
    = acc ++ map (cluster_at als)
                 (filter (fun i => (2 <=? List.length (neighbours als i))%nat) todo).
Proof.
  induction todo as [| i todo IH]; intros acc.
  - simpl. now rewrite app_nil_r.
  - cbn [map clusters_loop filter].
    rewrite nearby_of_alert, length_map.
    destruct (2 <=? List.length (neighbours als i))%nat.
    + rewrite IH, <- app_assoc. reflexivity.
    + apply IH.
Qed.

Lemma clusters_of_alerts (als : list alert) :
  clusters_loop als (enumerate als) [] = jamming_clusters als.
Proof. rewrite enumerate_nth, clusters_loop_spec. reflexivity. Qed.

Lemma cluster_centres_iff (als : list alert) (i : nat) :
  In i (cluster_centres als) <->
  (i < List.length als)%nat /\ (2 <= List.length (neighbours als i))%nat.
Proof.
  unfold cluster_centres. rewrite filter_In, in_seq, Nat.leb_le.
  split; intros [H1 H2]; split; auto; lia.
Qed.

End AnomaliesFacts.

(** ** Properties of the anomaly detector on floats *)

Module DetectorFacts.
Import Floats Float64 Detector DetectorSpec DetectorScenarios.
Local Open Scope float_scope.

(** *** Facts of float arithmetic *)

Lemma radians_zero : radians 0 = 0.
Proof. reflexivity. Qed.

(** A zero numerator over a positive divisor. *)
Lemma zero_over_positive (y : float) :
  (0 <? y) = true -> (y =? 0) = false /\ 0 / y = 0.
Proof.
  intros H. rewrite FloatAxioms.ltb_spec in H.
  rewrite FloatAxioms.eqb_spec.
  assert (Hd : Prim2SF (0 / y) = Prim2SF 0).
  { rewrite FloatAxioms.div_spec.
    change (Prim2SF 0) with (S754_zero false) in *.
    destruct (Prim2SF y) as [s | s | | s m e]; try discriminate H;
      destruct s; try discriminate H; reflexivity. }
  split.
  - change (Prim2SF 0) with (S754_zero false) in *.
    destruct (Prim2SF y) as [s | s | | s m e]; try discriminate H;
      destruct s; try discriminate H; reflexivity.
  - now apply FloatAxioms.Prim2SF_inj.
Qed.

(** Adding zero changes no float but the negative zero. *)
Lemma add_zero (x : float) : x <> (-0) -> x + 0 = x.
Proof.
  intros Hx. apply FloatAxioms.Prim2SF_inj. rewrite FloatAxioms.add_spec.
  change (Prim2SF 0) with (S754_zero false).
  destruct (Prim2SF x) as [s | s | | s m e] eqn:E; try reflexivity.
  destruct s; [| reflexivity].
  exfalso. apply Hx. rewrite <- (FloatAxioms.SF2Prim_Prim2SF x), E. reflexivity.
Qed.

Section Library.

Variable cos : float -> result float.
Variable sin : float -> result float.
Variable pow2 : float -> result float.
Variable round6 : float -> float.

(** *** The position predictor *)

(** Below 0.5 knots the position comes back as it is, null or not. *)
Lemma predictor_slow now lat lon s course last_seen :
  (s <? half) = true ->
  calculate_predicted_pos cos sin round6 now lat lon (PyFloat s) course last_seen
  = Ok (mk_pos lat lon).
Proof. intros H. unfold calculate_predicted_pos. cbn [number Py.bind]. now rewrite H. Qed.

Lemma predictor_moving now lat lon s course last_seen :
  (s <? half) = false ->
  calculate_predicted_pos cos sin round6 now (PyFloat lat) (PyFloat lon) (PyFloat s)
    (PyFloat course) last_seen
  = (cos_c <- cos (radians course) ;;
     sin_c <- sin (radians course) ;;
     cos_la <- cos (radians lat) ;;
     d_lon <- truediv
                (s * (total_seconds (now - last_seen) / seconds_per_hour) * sin_c)
                (sixty * cos_la) ;;
     Ok (mk_pos
           (PyFloat (round6 (lat + (s * (total_seconds (now - last_seen)
                                         / seconds_per_hour) * cos_c) / sixty)))
           (PyFloat (round6 (lon + d_lon))))).
Proof.
  intros H. unfold calculate_predicted_pos. cbn [number Py.bind]. rewrite H.
  destruct (cos (radians course)); cbn [Py.bind]; [| reflexivity].
  destruct (sin (radians course)); cbn [Py.bind]; [| reflexivity].
  destruct (cos (radians lat)); cbn [Py.bind]; [| reflexivity].
  destruct (truediv _ _); reflexivity.
Qed.

(** A null course on a vessel that is not below 0.5 knots. *)
Lemma predictor_null_course now lat lon s last_seen :
  (s <? half) = false ->
  calculate_predicted_pos cos sin round6 now lat lon (PyFloat s) PyNone last_seen
  = Raise TypeError.
Proof. intros H. unfold calculate_predicted_pos. cbn [number Py.bind]. now rewrite H. Qed.

(** A null position on a vessel that is not below 0.5 knots: whatever
    the library does before, the predictor does not return. *)
Lemma predictor_null_position now lat lon s course last_seen p :
  (s <? half) = false ->
  lat = PyNone \/ lon = PyNone ->
  calculate_predicted_pos cos sin round6 now lat lon (PyFloat s) course last_seen
  <> Ok p.
Proof.
  intros H Hnull. unfold calculate_predicted_pos. cbn [number Py.bind]. rewrite H.
  destruct (number course); cbn [Py.bind]; [| discriminate].
  destruct (cos (radians a)); cbn [Py.bind]; [| discriminate].
  destruct (sin (radians a)); cbn [Py.bind]; [| discriminate].
  destruct lat as [| la]; cbn [number Py.bind]; [discriminate |].
  destruct (cos (radians la)); cbn [Py.bind]; [| discriminate].
  destruct (truediv _ _); cbn [Py.bind]; [| discriminate].
  destruct lon as [| lo]; cbn [number Py.bind]; [discriminate |].
  destruct Hnull; discriminate.
Qed.

(** *** The loop over the rows *)

Lemma alerts_loop_ok clock :
  forall vs k acc res,
    alerts_loop cos sin round6 clock k vs acc = Ok res ->
    exists als, res = acc ++ als /\ alerts_for cos sin round6 clock k vs als.
Proof.
  induction vs as [| v vs IH]; intros k acc res H.
  - cbn in H. injection H as <-. exists []. split; [now rewrite app_nil_r | exact I].
  - cbn [alerts_loop] in H.
    destruct (calculate_predicted_pos cos sin round6 (clock k) (v_lat v) (v_lon v)
                (v_speed v) (get (v_course v) (PyFloat 0)) (v_last_seen v))
      as [p | e] eqn:Ep; cbn [Py.bind] in H; [| discriminate].
    destruct (IH _ _ _ H) as (als & -> & Hfor).
    eexists (_ :: als). split; [now rewrite <- app_assoc |].
    cbn [alerts_for]. split; [| exact Hfor].
    unfold alert_for. cbn. repeat split. exact Ep.
Qed.

Lemma alerts_loop_app clock :
  forall before k acc acc1 rest,
    alerts_loop cos sin round6 clock k before acc = Ok acc1 ->
    alerts_loop cos sin round6 clock k (before ++ rest) acc
    = alerts_loop cos sin round6 clock (k + List.length before) rest acc1.
Proof.
  induction before as [| v before IH]; intros k acc acc1 rest H.
  - cbn in H. injection H as <-. cbn. now rewrite Nat.add_0_r.
  - cbn [alerts_loop app] in *.
    destruct (calculate_predicted_pos cos sin round6 (clock k) (v_lat v) (v_lon v)
                (v_speed v) (get (v_course v) (PyFloat 0)) (v_last_seen v))
      as [p | e]; cbn [Py.bind] in *; [| discriminate].
    rewrite (IH _ _ _ rest H). cbn [List.length].
    now replace (S k + List.length before)%nat with (k + S (List.length before))%nat
      by lia.
Qed.

Lemma alerts_for_length clock :
  forall vs als k, alerts_for cos sin round6 clock k vs als ->
                   List.length als = List.length vs.
Proof.
  induction vs as [| v vs IH]; intros als k H; destruct als as [| a als];
    try contradiction; [reflexivity |].
  cbn [alerts_for] in H. destruct H as [_ H]. cbn. f_equal. exact (IH _ _ H).
Qed.

Lemma alerts_for_nth clock :
  forall vs als k i v,
    alerts_for cos sin round6 clock k vs als ->
    nth_error vs i = Some v ->
    exists a, nth_error als i = Some a
              /\ alert_for cos sin round6 clock (k + i) v a.
Proof.
  induction vs as [| v0 vs IH]; intros als k i v Hfor Hnth.
  - destruct i; discriminate.
  - destruct als as [| a0 als]; [contradiction |].
    destruct Hfor as [H0 Hrest].
    destruct i as [| i]; simpl in Hnth.
    + injection Hnth as <-. exists a0. split; [reflexivity |].
      now rewrite Nat.add_0_r.
    + destruct (IH als (S k) i v Hrest Hnth) as (a & Ha & Hfa).
      exists a. split; [exact Ha |].
      now replace (k + S i)%nat with (S k + i)%nat by lia.
Qed.

(** *** The clustering loops *)

Lemma enumerate_alert_at (l : list alert) :
  enumerate l = map (fun j => (j, alert_at l j)) (seq 0 (List.length l)).
Proof.
  unfold enumerate, alert_at.
  assert (G : forall (l0 : list alert) s,
             combine (seq s (List.length l0)) l0
             = map (fun j => (j, nth (j - s) l0 no_alert)) (seq s (List.length l0))).
  { induction l0 as [| a l0 IH]; intros s; [reflexivity |].
    simpl. rewrite Nat.sub_diag. f_equal.
    rewrite IH. apply map_ext_in. intros j Hj. apply in_seq in Hj.
    replace (j - s)%nat with (S (j - S s)) by lia. reflexivity. }
  rewrite G. apply map_ext. intros j. now rewrite Nat.sub_0_r.
Qed.


Lemma nearby_loop_ok (als : list alert) (i : nat) (a1 : alert) :
  forall js nearby res,
    nearby_loop pow2 i a1 (map (fun j => (j, alert_at als j)) js) nearby = Ok res ->
    res = nearby ++ map (fun j => a_mmsi (alert_at als j))
                        (filter (fun j => negb (Nat.eqb i j)
                                          && near pow2 a1 (alert_at als j)) js)
    /\ forall j, In j js -> j <> i ->
                 exists d, dist pow2 a1 (alert_at als j) = Ok d.
Proof.
  induction js as [| j js IH]; intros nearby res H.
  - cbn in H. injection H as <-. split; [cbn; now rewrite app_nil_r | intros j []].
  - cbn [map nearby_loop filter] in *. unfold near at 1.
    destruct (Nat.eqb i j) eqn:Eij; cbn [negb andb].
    + destruct (IH _ _ H) as [Hres Hd]. split; [exact Hres |].
      intros j' [<- | Hin] Hne; [| now apply Hd].
      apply Nat.eqb_eq in Eij. congruence.
    + destruct (dist pow2 a1 (alert_at als j)) as [d | e] eqn:Ed;
        cbn [Py.bind] in H; [| discriminate].
      destruct (d <? tenth).
      * destruct (IH _ _ H) as [Hres Hd]. split.
        -- rewrite Hres. cbn [map]. now rewrite <- app_assoc.
        -- intros j' [<- | Hin] Hne; [now exists d | now apply Hd].
      * destruct (IH _ _ H) as [Hres Hd]. split; [exact Hres |].
        intros j' [<- | Hin] Hne; [now exists d | now apply Hd].
Qed.

Lemma clusters_loop_ok (als : list alert) :
  forall todo acc res,
    clusters_loop pow2 als (map (fun i => (i, alert_at als i)) todo) acc = Ok res ->
    res = acc ++ map (cluster_at pow2 als)
                     (filter (fun i => (2 <=? List.length (neighbours pow2 als i))%nat)
                             todo)
    /\ forall i j, In i todo -> (j < List.length als)%nat -> j <> i ->
                   exists d, dist pow2 (alert_at als i) (alert_at als j) = Ok d.
Proof.
  induction todo as [| i todo IH]; intros acc res H.
  - cbn in H. injection H as <-. split; [cbn; now rewrite app_nil_r | intros i j []].
  - cbn [map clusters_loop filter] in *.
    rewrite enumerate_alert_at in H.
    destruct (nearby_loop pow2 i (alert_at als i)
                (map (fun j => (j, alert_at als j)) (seq 0 (List.length als))) [])
      as [nearby | e] eqn:En; cbn [Py.bind] in H; [| discriminate].
    destruct (nearby_loop_ok _ _ _ _ _ En) as [Hn Hd]. cbn [app] in Hn.
    assert (Hlen : List.length nearby = List.length (neighbours pow2 als i)).
    { rewrite Hn, length_map. reflexivity. }
    rewrite Hlen in H.
    assert (Hpairs : forall j, (j < List.length als)%nat -> j <> i ->
                       exists d, dist pow2 (alert_at als i) (alert_at als j) = Ok d).
    { intros j Hj Hne. apply Hd; [apply in_seq; lia | exact Hne]. }
    destruct (2 <=? List.length (neighbours pow2 als i))%nat.
    + destruct (IH _ _ H) as [Hres Hrest]. split.
      * rewrite Hres, <- app_assoc. cbn [map app]. unfold cluster_at at 2.
        now rewrite Hn.
      * intros i' j [<- | Hin] Hj Hne; [now apply Hpairs | now apply Hrest].
    + destruct (IH _ _ H) as [Hres Hrest]. split; [exact Hres |].
      intros i' j [<- | Hin] Hj Hne; [now apply Hpairs | now apply Hrest].
Qed.

(** What a returned report holds. *)
Lemma get_enhanced_anomalies_ok clock vessels rep :
  get_enhanced_anomalies cos sin pow2 round6 clock vessels = Ok rep ->
  alerts_for cos sin round6 clock 0 vessels (alerts rep)
  /\ clusters rep = jamming_clusters pow2 (alerts rep)
  /\ forall i j, (i < List.length (alerts rep))%nat ->
                 (j < List.length (alerts rep))%nat -> j <> i ->
                 exists d, dist pow2 (alert_at (alerts rep) i)
                                (alert_at (alerts rep) j) = Ok d.
Proof.
  unfold get_enhanced_anomalies. intros H.
  destruct vessels as [| v vs].
  - injection H as <-. cbn. split; [exact I |]. split; [reflexivity |].
    intros i j Hi. inversion Hi.
  - destruct (alerts_loop cos sin round6 clock 0 (v :: vs) []) as [als | e] eqn:Ea;
      cbn [Py.bind] in H; [| discriminate].
    destruct (clusters_loop pow2 als (enumerate als) []) as [cls | e] eqn:Ec;
      cbn [Py.bind] in H; [| discriminate].
    injection H as <-. cbn [alerts clusters].
    destruct (alerts_loop_ok _ _ _ _ Ea) as (als' & Hals & Hfor). cbn [app] in Hals.
    subst als'. split; [exact Hfor |].
    rewrite enumerate_alert_at in Ec.
    destruct (clusters_loop_ok _ _ _ Ec) as [Hcls Hpairs]. cbn [app] in Hcls.
    split; [exact Hcls |].
    intros i j Hi Hj Hne. apply Hpairs; [apply in_seq; lia | exact Hj | exact Hne].
Qed.



(** The first row on which the predictor raises ends the aggregation
    with that exception: no report is returned. *)
Lemma first_failure_raises clock (before after : list vessel) (v : vessel)
    (als : list alert) (e : exn) :
  alerts_loop cos sin round6 clock 0 before [] = Ok als ->
  calculate_predicted_pos cos sin round6 (clock (List.length before))
    (v_lat v) (v_lon v) (v_speed v) (get (v_course v) (PyFloat 0)) (v_last_seen v)
  = Raise e ->
  get_enhanced_anomalies cos sin pow2 round6 clock (before ++ v :: after) = Raise e.
Proof.
  intros Hbefore Hp. unfold get_enhanced_anomalies.
  destruct (before ++ v :: after) as [| v0 rest] eqn:E.
  { destruct before; discriminate E. }
  rewrite <- E. rewrite (@alerts_loop_app clock before 0 [] als (v :: after) Hbefore).
  cbn [alerts_loop Nat.add]. rewrite Hp. reflexivity.
Qed.

(** *** A null where the detector computes *)

Lemma null_in_arithmetic_raises clock (vessels : list vessel) (v : vessel) :
  In v vessels ->
  null_in_arithmetic vessels v ->
  exists e, get_enhanced_anomalies cos sin pow2 round6 clock vessels = Raise e.
Proof.
  intros Hin Hnull.
  destruct (get_enhanced_anomalies cos sin pow2 round6 clock vessels)
    as [rep | e] eqn:E; [exfalso | now exists e].
  destruct (get_enhanced_anomalies_ok _ _ E) as (Hfor & _ & Hpairs).
  destruct (In_nth_error _ _ Hin) as [k Hk].
  destruct (@alerts_for_nth clock vessels (alerts rep) 0 k v Hfor Hk)
    as (a & Ha & Hfa).
  destruct Hfa as (_ & _ & _ & _ & Hpos & Hpred).
  pose proof (@alerts_for_length clock vessels (alerts rep) 0 Hfor) as Hlen.
  destruct Hnull as [Hsp | [(s & Hsp & Hs & Hn) | (Hn & H2)]].
  - rewrite Hsp in Hpred. discriminate Hpred.
  - rewrite Hsp in Hpred. destruct Hn as [Hc | Hn].
    + rewrite Hc in Hpred. cbn [get] in Hpred.
      rewrite (@predictor_null_course _ _ _ _ _ Hs) in Hpred.
      discriminate Hpred.
    + exact (@predictor_null_position _ _ _ _ _ _ _ Hs Hn Hpred).
  - assert (Hklt : (k < List.length (alerts rep))%nat).
    { apply nth_error_Some. congruence. }
    assert (Hat : alert_at (alerts rep) k = a).
    { unfold alert_at. now apply nth_error_nth. }
    assert (Hj : exists j, (j < List.length (alerts rep))%nat /\ j <> k).
    { destruct k; [exists 1%nat | exists 0%nat]; split; lia. }
    destruct Hj as (j & Hj & Hne).
    destruct (Hpairs k j Hklt Hj Hne) as [d Hd].
    unfold dist in Hd. rewrite Hat, Hpos in Hd. cbn [p_lat p_lon] in Hd.
    destruct Hn as [Hn | Hn]; rewrite Hn in Hd.
    + discriminate Hd.
    + destruct (number (v_lat v)); cbn [Py.bind] in Hd; [| discriminate].
      destruct (number (p_lat (last_pos (alert_at (alerts rep) j))));
        cbn [Py.bind] in Hd; [| discriminate].
      destruct (pow2 _); cbn [Py.bind] in Hd; discriminate.
Qed.

End Library.



(** The clustering test of the repository: three alerts, and each of the
    three vessels is the centre of a cluster that lists all three. *)
Lemma test_rows_report :
  exists rep,
    get_enhanced_anomalies cos_sample sin_sample square round6 (fun _ => 0%Z) test_rows
    = Ok rep
    /\ List.length (alerts rep) = 3%nat
    /\ map affected_mmsi (clusters rep)
       = [[VStr "1"; VStr "2"; VStr "3"];
          [VStr "2"; VStr "1"; VStr "3"];
          [VStr "3"; VStr "1"; VStr "2"]]
    /\ map c_type (clusters rep)
       = ["POTENTIAL_JAMMING_ZONE"; "POTENTIAL_JAMMING_ZONE";
          "POTENTIAL_JAMMING_ZONE"]%string.
Proof.
  eexists. split; [vm_compute; reflexivity |].
  split; [reflexivity |]. split; reflexivity.
Qed.

(** C5. For a vessel that is not below 0.5 knots, with numbers for the
    position and the course, the predictor returns exactly when the
    library's cosine and sine return and the divisor [60 * cos(lat)] is
    not zero, and it returns the latitude
    [round(lat + (speed * hours * cos(course)) / 60, 6)] and the
    longitude [round(lon + (speed * hours * sin(course)) / (60 * cos(lat)), 6)],
    the angles in radians, [hours] the elapsed seconds over 3600, every
    operation in float arithmetic. At 20 knots, course 0 and one hour,
    with the library exact at 0, the latitude is the last one plus the
    float nearest to 1/3, rounded, and the longitude the last one,
    rounded. *)
Theorem C5_moving_vessel_dead_reckoning :
  forall (cos sin : float -> result float) (round6 : float -> float)
         (now last_seen : datetime) (lat lon speed course : float),
    (speed <? half) = false ->
    let hours := total_seconds (now - last_seen) / seconds_per_hour in
    (forall p,
       calculate_predicted_pos cos sin round6 now (PyFloat lat) (PyFloat lon)
         (PyFloat speed) (PyFloat course) last_seen = Ok p
       <->
       exists cos_c sin_c cos_la,
         cos (radians course) = Ok cos_c
         /\ sin (radians course) = Ok sin_c
         /\ cos (radians lat) = Ok cos_la
         /\ (sixty * cos_la =? 0) = false
         /\ p = mk_pos
                  (PyFloat (round6 (lat + (speed * hours * cos_c) / sixty)))
                  (PyFloat (round6 (lon + (speed * hours * sin_c)
                                          / (sixty * cos_la)))))
    /\ (speed = 20 -> course = 0 -> (now - last_seen = 3600000000)%Z ->
        cos 0 = Ok 1 -> sin 0 = Ok 0 ->
        forall cos_la,
          cos (radians lat) = Ok cos_la -> (0 <? sixty * cos_la) = true ->
          calculate_predicted_pos cos sin round6 now (PyFloat lat) (PyFloat lon)
            (PyFloat speed) (PyFloat course) last_seen
          = Ok (mk_pos (PyFloat (round6 (lat + div_Z 1 3)))
                       (PyFloat (round6 (lon + 0))))
          /\ (lon <> (-0) -> lon + 0 = lon)).
Proof.
  intros cos sin round6 now last_seen lat lon speed course Hs hours.
  pose proof (predictor_moving cos sin round6 now lat lon course last_seen Hs) as Hm.
  fold hours in Hm. split.
  - intros p. rewrite Hm. split.
    + intros H.
      destruct (cos (radians course)) as [cos_c |]; cbn [Py.bind] in H; [| discriminate].
      destruct (sin (radians course)) as [sin_c |]; cbn [Py.bind] in H; [| discriminate].
      destruct (cos (radians lat)) as [cos_la |]; cbn [Py.bind] in H; [| discriminate].
      unfold truediv in H.
      destruct (sixty * cos_la =? 0) eqn:Ez; cbn [Py.bind] in H; [discriminate |].
      injection H as <-. exists cos_c, sin_c, cos_la.
      repeat split; try reflexivity. exact Ez.
    + intros (cos_c & sin_c & cos_la & -> & -> & -> & Ez & ->).
      cbn [Py.bind]. unfold truediv. rewrite Ez. reflexivity.
  - intros -> -> Ht Hc0 Hs0 cos_la Hla Hpos.
    destruct (@zero_over_positive _ Hpos) as [Ez Hdiv].
    split; [| apply add_zero].
    rewrite Hm. rewrite radians_zero, Hc0, Hs0, Hla. cbn [Py.bind].
    unfold truediv. rewrite Ez. cbn [Py.bind].
    unfold hours. rewrite Ht.
    change (20 * (total_seconds 3600000000 / seconds_per_hour) * 1 / sixty)
      with (div_Z 1 3).
    change (20 * (total_seconds 3600000000 / seconds_per_hour) * 0) with 0.
    now rewrite Hdiv.
Qed.

Lemma C5_moving_vessel_witness :
  (20 <? half) = false
  /\ calculate_predicted_pos cos_sample sin_sample round6 3600000000%Z
       (PyFloat 60) (PyFloat 10) (PyFloat 20) (PyFloat 0) 0%Z
     = Ok (mk_pos (PyFloat 0x1.e2aaaa7ded6bbp+5) (PyFloat 10))
  /\ (0x1.e266666666666p+5 <? 0x1.e2aaaa7ded6bbp+5) = true.
Proof.
  assert (Hs : (20 <? half) = false) by reflexivity.
  split; [exact Hs |].
  destruct (proj2 (@C5_moving_vessel_dead_reckoning cos_sample sin_sample round6
                     3600000000%Z 0%Z 60 10 20 0 Hs)
              eq_refl eq_refl eq_refl eq_refl eq_refl
              0x1.0000000000001p-1 eq_refl eq_refl) as [H _].
  rewrite H. split; reflexivity.
Defined.

(** At latitude 90 the divisor is not zero: one hour at 20 knots due
    east from (90, 10) is predicted at longitude 5443746451065133.0. *)
Lemma predictor_at_the_pole :
  calculate_predicted_pos cos_sample sin_sample round6 3600000000%Z
    (PyFloat 90) (PyFloat 10) (PyFloat 20) (PyFloat 90) 0%Z
  = Ok (mk_pos (PyFloat 90) (PyFloat 0x1.3570efd76892dp+52)).
Proof. vm_compute. reflexivity. Qed.

(** The sum is a float before it is rounded to six places: 194.346
    seconds at 2 knots due north from latitude 64.71275 give 64.71455. *)
Lemma predictor_rounds_the_float_sum :
  calculate_predicted_pos cos_sample sin_sample round6 194346000%Z
    (PyFloat 0x1.02d9db22d0e56p+6) (PyFloat 10) (PyFloat 2) (PyFloat 0) 0%Z
  = Ok (mk_pos (PyFloat 0x1.02dbb2fec56d6p+6) (PyFloat 10)).
Proof. vm_compute. reflexivity. Qed.

(** C10. For a row whose speed is not below 0.5 knots, the rows before
    it being in order. When the key [course] holds [None], as in a row
    of the inactivity query whose stored course is null,
    [v.get('course', 0)] returns that [None], [math.radians(None)]
    raises [TypeError], and the aggregation raises it and returns no
    report. The default course 0 is taken for a row without the key
    only; the predicted position is then the last one moved along the
    meridian: [cos(0)] and [sin(0)] being 1 and 0, the latitude is
    [round(lat + (speed * hours * 1) / 60, 6)] and the longitude
    [round(lon + (speed * hours * 0) / (60 * cos(lat)), 6)]. *)
Theorem C10_null_course_raises_type_error :
  forall (cos sin pow2 : float -> result float) (round6 : float -> float)
         (clock : nat -> datetime) (before after : list vessel) (v : vessel)
         (s : float) (als : list alert),
    alerts_loop cos sin round6 clock 0 before [] = Ok als ->
    v_speed v = PyFloat s ->
    (s <? half) = false ->
    (v_course v = Some PyNone ->
     get (v_course v) (PyFloat 0) = PyNone
     /\ calculate_predicted_pos cos sin round6 (clock (List.length before))
          (v_lat v) (v_lon v) (v_speed v) (get (v_course v) (PyFloat 0))
          (v_last_seen v)
        = Raise TypeError
     /\ get_enhanced_anomalies cos sin pow2 round6 clock (before ++ v :: after)
        = Raise TypeError)
    /\ (v_course v = None ->
        get (v_course v) (PyFloat 0) = PyFloat 0
        /\ forall la lo cos_la,
             v_lat v = PyFloat la -> v_lon v = PyFloat lo ->
             cos 0 = Ok 1 -> sin 0 = Ok 0 ->
             cos (radians la) = Ok cos_la -> (sixty * cos_la =? 0) = false ->
             calculate_predicted_pos cos sin round6 (clock (List.length before))
               (v_lat v) (v_lon v) (v_speed v) (get (v_course v) (PyFloat 0))
               (v_last_seen v)
             = Ok (mk_pos
                     (PyFloat
                        (round6
                           (la + (s * (total_seconds
                                         (clock (List.length before) - v_last_seen v)
                                       / seconds_per_hour) * 1) / sixty)))
                     (PyFloat
                        (round6
                           (lo + (s * (total_seconds
                                         (clock (List.length before) - v_last_seen v)
                                       / seconds_per_hour) * 0)
                                 / (sixty * cos_la)))))).
Proof.
  intros cos sin pow2 round6 clock before after v s als Hbefore Hspeed Hs. split.
  - intros Hcourse.
    assert (Hp : calculate_predicted_pos cos sin round6 (clock (List.length before))
                   (v_lat v) (v_lon v) (v_speed v) (get (v_course v) (PyFloat 0))
                   (v_last_seen v) = Raise TypeError).
    { rewrite Hspeed, Hcourse. cbn [get]. now apply predictor_null_course. }
    split; [now rewrite Hcourse |]. split; [exact Hp |].
    exact (first_failure_raises cos sin pow2 round6 clock before after v Hbefore Hp).
  - intros Hcourse. split; [now rewrite Hcourse |].
    intros la lo cos_la Hla Hlo Hc0 Hs0 Hcla Hz.
    rewrite Hspeed, Hcourse, Hla, Hlo. cbn [get].
    rewrite (predictor_moving cos sin round6 _ la lo 0 _ Hs).
    rewrite radians_zero, Hc0, Hs0, Hcla. cbn [Py.bind].
    unfold truediv. rewrite Hz. reflexivity.
Qed.

Lemma C10_null_course_witness :
  (exists als,
     alerts_loop cos_sample sin_sample round6 (fun _ => 3600000000%Z) 0 [row_in_order] []
     = Ok als)
  /\ (12 <? half) = false
  /\ get_enhanced_anomalies cos_sample sin_sample square round6
       (fun _ => 3600000000%Z) [row_in_order; row_null_course; row_in_order]
     = Raise TypeError
  /\ calculate_predicted_pos cos_sample sin_sample round6 3600000000%Z
       (v_lat row_without_course) (v_lon row_without_course)
       (v_speed row_without_course) (get (v_course row_without_course) (PyFloat 0))
       (v_last_seen row_without_course)
     = Ok (mk_pos (PyFloat 0x1.e19999999999ap+5) (PyFloat 10)).
Proof.
  destruct (alerts_loop cos_sample sin_sample round6 (fun _ => 3600000000%Z) 0
              [row_in_order] []) as [als | e] eqn:E;
    [| vm_compute in E; discriminate E].
  assert (Hs : (12 <? half) = false) by reflexivity.
  split; [now exists als |]. split; [exact Hs |]. split.
  - exact (proj2 (proj2 (proj1 (@C10_null_course_raises_type_error
                                  cos_sample sin_sample square round6
                                  (fun _ => 3600000000%Z) [row_in_order] [row_in_order]
                                  row_null_course 12 als E eq_refl Hs)
                               eq_refl))).
  - rewrite (proj2 (proj2 (@C10_null_course_raises_type_error
                             cos_sample sin_sample square round6
                             (fun _ => 3600000000%Z) [row_in_order] [row_in_order]
                             row_without_course 12 als E eq_refl Hs)
                          eq_refl)
               60 10 0x1.0000000000001p-1 eq_refl eq_refl eq_refl eq_refl eq_refl
               eq_refl).
    reflexivity.
Defined.

(** X1. The aggregation returns no report, but raises, as soon as one
    row holds a null where the detector computes: a null speed; a null
    course, latitude or longitude on a vessel that is not below 0.5
    knots; a null latitude or longitude when there are two rows or more,
    the distances being computed on every pair. When the row with the
    null speed is the first on which the predictor fails, the exception
    is [TypeError]. *)
Theorem X1_null_in_a_row_aborts_the_report :
  forall (cos sin pow2 : float -> result float) (round6 : float -> float)
         (clock : nat -> datetime) (vessels : list vessel) (v : vessel),
    In v vessels ->
    null_in_arithmetic vessels v ->
    (exists e, get_enhanced_anomalies cos sin pow2 round6 clock vessels = Raise e)
    /\ (forall before after als,
          vessels = before ++ v :: after ->
          alerts_loop cos sin round6 clock 0 before [] = Ok als ->
          v_speed v = PyNone ->
          get_enhanced_anomalies cos sin pow2 round6 clock vessels = Raise TypeError).
Proof.
  intros cos sin pow2 round6 clock vessels v Hin Hnull. split.
  - now apply null_in_arithmetic_raises with (v := v).
  - intros before after als -> Hbefore Hsp.
    apply (first_failure_raises cos sin pow2 round6 clock before after v Hbefore).
    rewrite Hsp. reflexivity.
Qed.

Lemma X1_null_in_a_row_witness :
  (In row_null_speed [row_in_order; row_null_speed]
   /\ null_in_arithmetic [row_in_order; row_null_speed] row_null_speed)
  /\ get_enhanced_anomalies cos_sample sin_sample square round6
       (fun _ => 3600000000%Z) [row_in_order; row_null_speed]
     = Raise TypeError.
Proof.
  assert (Hin : In row_null_speed [row_in_order; row_null_speed]) by (simpl; tauto).
  assert (Hn : null_in_arithmetic [row_in_order; row_null_speed] row_null_speed)
    by (left; reflexivity).
  split; [split; assumption |].
  destruct (alerts_loop cos_sample sin_sample round6 (fun _ => 3600000000%Z) 0
              [row_in_order] []) as [als | e] eqn:E;
    [| vm_compute in E; discriminate E].
  exact (proj2 (@X1_null_in_a_row_aborts_the_report
                  cos_sample sin_sample square round6 (fun _ => 3600000000%Z)
                  [row_in_order; row_null_speed] row_null_speed Hin Hn)
               [row_in_order] [] als eq_refl E eq_refl).
Defined.

End DetectorFacts.

(** ** Properties of the connection manager *)

Module BroadcasterFacts.
Import Broadcaster.

Lemma list_mem_In (x : connection) (l : list connection) :
  list_mem x l = true <-> In x l.
Proof.
  unfold list_mem. rewrite existsb_exists. split.
  - intros (y & Hy & E). apply Nat.eqb_eq in E. now subst.
  - intros H. exists x. split; [exact H | apply Nat.eqb_refl].
Qed.

Lemma list_mem_false (x : connection) (l : list connection) :
  ~ In x l -> list_mem x l = false.
Proof.
  intros H. destruct (list_mem x l) eqn:E; [| reflexivity].
  now apply list_mem_In in E.
Qed.

(** On a list without repetition [list.remove] drops its argument and
    nothing else. *)
Lemma list_remove_filter (x : connection) (l : list connection) :
  NoDup l -> list_remove x l = filter (fun y => negb (Nat.eqb y x)) l.
Proof.
  induction l as [| y l IH]; intros Hnd; [reflexivity |].
  inversion Hnd as [| ? ? Hy Hl]; subst. simpl.
  destruct (Nat.eqb y x) eqn:E; simpl.
  - apply Nat.eqb_eq in E. subst y.
    symmetry. apply forallb_filter_id. apply forallb_forall.
    intros z Hz. apply negb_true_iff, Nat.eqb_neq. intros ->. contradiction.
  - now rewrite IH.
Qed.

Lemma list_remove_In (x y : connection) (l : list connection) :
  NoDup l -> (In y (list_remove x l) <-> In y l /\ y <> x).
Proof.
  intros Hnd. rewrite list_remove_filter by exact Hnd.
  rewrite filter_In, negb_true_iff, Nat.eqb_neq. tauto.
Qed.

Lemma list_remove_NoDup (x : connection) (l : list connection) :
  NoDup l -> NoDup (list_remove x l).
Proof.
  intros Hnd. rewrite list_remove_filter by exact Hnd. now apply NoDup_filter.
Qed.

Lemma list_remove_length (x : connection) (l : list connection) :
  In x l -> List.length (list_remove x l) = (List.length l - 1)%nat.
Proof.
  induction l as [| y l IH]; intros Hin; [contradiction |].
  simpl. destruct (Nat.eqb y x) eqn:E; [lia |].
  apply Nat.eqb_neq in E. destruct Hin as [-> | Hin]; [contradiction |].
  simpl. rewrite (IH Hin). destruct l; [contradiction | simpl; lia].
Qed.

Section OneFailure.

Variable message : Type.
Variable dumps : message -> string.
Variable send_text : connection -> string -> result unit.
Variable schedule : list connection -> list connection.

(** The text being broadcast, the connection whose send fails, and the
    exception it raises. *)
Variable data : string.
Variable c : connection.
Variable e : exn.

Hypothesis send_fails : send_text c data = Raise e.
Hypothesis send_succeeds : forall x, x <> c -> send_text x data = Ok tt.

Let step (st : manager * result unit) (ws : connection) : manager * result unit :=
  let '(m', r') := _send_safe send_text ws data (fst st) in
  (m', first_raise (snd st) r').

(** The tasks that complete after the failing one, or instead of it. *)
Lemma gather_others (l : list connection) :
  forall m,
    ~ In c l ->
    fold_left step l (m, Ok tt)
    = (mk_manager (active_connections m)
                  (delivered m ++ map (fun x => (x, data)) l)
                  (log m),
       Ok tt).
Proof.
  induction l as [| x l IH]; intros m Hc.
  - simpl. rewrite app_nil_r. now destruct m.
  - assert (Hx : x <> c) by (intros ->; apply Hc; now left).
    assert (Hl : ~ In c l) by (intros H; apply Hc; now right).
    cbn [fold_left]. unfold step at 2, _send_safe. cbn [fst snd].
    rewrite (send_succeeds Hx). cbn [first_raise].
    rewrite (IH _ Hl). cbn [active_connections delivered log].
    rewrite <- app_assoc. reflexivity.
Qed.

(** All the tasks of a broadcast in which [c] is registered once. *)
Lemma gather_one_failure (l : list connection) :
  forall m,
    NoDup l -> In c l -> In c (active_connections m) ->
    exists lg,
      fold_left step l (m, Ok tt)
      = (mk_manager (list_remove c (active_connections m))
                    (delivered m
                       ++ map (fun x => (x, data))
                              (filter (fun x => negb (Nat.eqb x c)) l))
                    lg,
         Ok tt).
Proof.
  induction l as [| x l IH]; intros m Hnd Hin Hact; [contradiction |].
  inversion Hnd as [| ? ? Hx Hl]; subst.
  cbn [fold_left filter].
  destruct (Nat.eq_dec x c) as [-> | Hne].
  - unfold step at 2, _send_safe. cbn [fst snd].
    rewrite send_fails. unfold disconnect. cbn [active_connections delivered log].
    apply list_mem_In in Hact. rewrite Hact. cbn [first_raise].
    rewrite gather_others by exact Hx. cbn [active_connections delivered log].
    rewrite Nat.eqb_refl. cbn [negb].
    assert (Hf : filter (fun x => negb (Nat.eqb x c)) l = l).
    { apply forallb_filter_id, forallb_forall.
      intros z Hz. apply negb_true_iff, Nat.eqb_neq. intros ->. contradiction. }
    rewrite Hf. eexists. reflexivity.
  - destruct Hin as [-> | Hin]; [contradiction |].
    unfold step at 2, _send_safe. cbn [fst snd].
    rewrite (send_succeeds Hne). cbn [first_raise].
    destruct (IH (mk_manager (active_connections m)
                             (delivered m ++ [(x, data)]) (log m))
                Hl Hin Hact) as [lg Hlg].
    exists lg. rewrite Hlg. cbn [active_connections delivered log].
    apply Nat.eqb_neq in Hne. rewrite Hne. cbn [negb map].
    rewrite <- app_assoc. reflexivity.
Qed.

End OneFailure.

(** C7. When the send of one registered connection raises and the sends
    of the others succeed, [broadcast] returns without raising, whatever
    the order in which the sends complete; the failing connection, and
    it alone, has left the active connections; each of the other N - 1
    connections has been sent the serialized message once. *)
Theorem C7_broadcast_isolates_failing_connection :
  forall (message : Type) (dumps : message -> string)
         (send_text : connection -> string -> result unit)
         (schedule : list connection -> list connection)
         (msg : message) (m : manager) (c : connection) (e : exn),
    NoDup (active_connections m) ->
    In c (active_connections m) ->
    Permutation (schedule (active_connections m)) (active_connections m) ->
    send_text c (dumps msg) = Raise e ->
    (forall x, x <> c -> send_text x (dumps msg) = Ok tt) ->
    exists m' recipients,
      broadcast dumps send_text schedule msg m = (m', Ok tt)
      /\ active_connections m' = list_remove c (active_connections m)
      /\ (forall x, In x (active_connections m')
                    <-> In x (active_connections m) /\ x <> c)
      /\ List.length (active_connections m')
         = (List.length (active_connections m) - 1)%nat
      /\ delivered m' = delivered m ++ map (fun x => (x, dumps msg)) recipients
      /\ Permutation recipients (active_connections m')
      /\ List.length recipients = (List.length (active_connections m) - 1)%nat.
Proof.
  intros message dumps send_text schedule msg m c e Hnd Hin Hperm Hfail Hok.
  assert (Hnd' : NoDup (schedule (active_connections m))).
  { eapply Permutation_NoDup; [symmetry; exact Hperm | exact Hnd]. }
  assert (Hin' : In c (schedule (active_connections m))).
  { eapply Permutation_in; [symmetry; exact Hperm | exact Hin]. }
  destruct (@gather_one_failure send_text (dumps msg) c e Hfail Hok
              (schedule (active_connections m)) m Hnd' Hin' Hin) as [lg Hrun].
  set (recipients := filter (fun x => negb (Nat.eqb x c))
                            (schedule (active_connections m))) in *.
  assert (Hrec : Permutation recipients (list_remove c (active_connections m))).
  { apply NoDup_Permutation.
    - now apply NoDup_filter.
    - now apply list_remove_NoDup.
    - intros x. unfold recipients.
      rewrite filter_In, negb_true_iff, Nat.eqb_neq, list_remove_In by exact Hnd.
      split; intros [H1 H2]; split; try assumption.
      + eapply Permutation_in; [exact Hperm | exact H1].
      + eapply Permutation_in; [symmetry; exact Hperm | exact H1]. }
  assert (Hb : broadcast dumps send_text schedule msg m
               = gather send_text schedule (active_connections m) (dumps msg) m).
  { unfold broadcast. destruct (active_connections m) eqn:E; [| reflexivity].
    contradiction. }
  eexists. exists recipients.
  split; [rewrite Hb; exact Hrun |].
  cbn [active_connections delivered].
  split; [reflexivity |].
  split; [intros x; now apply list_remove_In |].
  split; [now apply list_remove_length |].
  split; [reflexivity |].
  split; [exact Hrec |].
  etransitivity; [exact (Permutation_length Hrec) | now apply list_remove_length].
Qed.

Lemma C7_broadcast_witness :
  (NoDup (active_connections three_clients)
   /\ In 2%nat (active_connections three_clients))
  /\ exists m' recipients,
       broadcast (fun s : string => s) socket_2_closed (@rev connection)
                 "ping"%string three_clients
       = (m', Ok tt)
       /\ active_connections m' = [1; 3]%nat
       /\ delivered m' = map (fun x => (x, "ping"%string)) recipients
       /\ Permutation recipients [1; 3]%nat.
Proof.
  assert (Hnd : NoDup (active_connections three_clients)).
  { repeat constructor; simpl; intuition discriminate. }
  assert (Hin : In 2%nat (active_connections three_clients)) by (simpl; auto).
  split; [split; assumption |].
  assert (Hperm : Permutation (rev (active_connections three_clients))
                              (active_connections three_clients)).
  { symmetry. apply Permutation_rev. }
  assert (Hfail : socket_2_closed 2%nat "ping"%string = Raise (OtherError "closed"))
    by reflexivity.
  assert (Hok : forall x, x <> 2%nat -> socket_2_closed x "ping"%string = Ok tt).
  { intros x Hx. unfold socket_2_closed. apply Nat.eqb_neq in Hx. now rewrite Hx. }
  destruct (@C7_broadcast_isolates_failing_connection
              string (fun s : string => s) socket_2_closed (@rev connection)
              "ping"%string three_clients 2%nat (OtherError "closed")
              Hnd Hin Hperm Hfail Hok)
    as (m' & recipients & Hb & Hact & _ & _ & Hdel & Hrec & _).
  exists m', recipients. split; [exact Hb |]. split; [exact Hact |].
  split; [exact Hdel |]. rewrite Hact in Hrec. exact Hrec.
Defined.

End BroadcasterFacts.

(** ** Properties of the batch upsert *)

Module RepositoryFacts.
Import Vessel Repository.

Lemma find_upsert_same (now : datetime) (v : vessel_data) (tbl : table) :
  find (upsert now (mmsi v, name v, lon v, lat v, speed v, course v, vessel_type v) tbl)
       (mmsi v)
  = Some match find tbl (mmsi v) with
         | Some r => refreshed now v r
         | None => overwritten now v
         end.
Proof.
  induction tbl as [| [k r] tbl IH]; simpl.
  - destruct (value_eq_dec (mmsi v) (mmsi v)) as [_ | N]; [reflexivity | now contradiction N].
  - destruct (value_eq_dec k (mmsi v)) as [E | N]; simpl.
    + destruct (value_eq_dec k (mmsi v)) as [_ | N]; [reflexivity | contradiction].
    + destruct (value_eq_dec k (mmsi v)) as [E | _]; [contradiction | exact IH].
Qed.

Lemma find_upsert_other (now : datetime) (v : vessel_data) (tbl : table) (key : value) :
  key <> mmsi v ->
  find (upsert now (mmsi v, name v, lon v, lat v, speed v, course v, vessel_type v) tbl)
       key
  = find tbl key.
Proof.
  intros Hne. induction tbl as [| [k r] tbl IH]; simpl.
  - destruct (value_eq_dec (mmsi v) key) as [E | _]; [now contradiction Hne | reflexivity].
  - destruct (value_eq_dec k (mmsi v)) as [E | N]; simpl.
    + destruct (value_eq_dec k key) as [E' | _]; [| reflexivity].
      contradiction Hne. now rewrite <- E', E.
    + destruct (value_eq_dec k key); [reflexivity | exact IH].
Qed.

Lemma refreshed_twice (now : datetime) (v w : vessel_data) (r : vessel_row) :
  refreshed now w (refreshed now v r) = refreshed now w r.
Proof. reflexivity. Qed.

(** The rows of a batch written one after the other to a table that
    already stores the vessel [key]. *)
Lemma find_executemany (now : datetime) (key : value) :
  forall (batch : list vessel_data) (tbl : table) (row : vessel_row),
    find tbl key = Some row ->
    find (fold_left (fun t p => upsert now p t)
            (map (fun v => (mmsi v, name v, lon v, lat v, speed v, course v,
                            vessel_type v)) batch)
            tbl)
         key
    = Some match last_report key batch with
           | Some v => refreshed now v row
           | None => row
           end.
Proof.
  induction batch as [| v batch IH]; intros tbl row Hrow; [exact Hrow |].
  cbn [map fold_left last_report].
  destruct (value_eq_dec key (mmsi v)) as [E | N].
  - assert (H1 : find (upsert now (mmsi v, name v, lon v, lat v, speed v, course v,
                                   vessel_type v) tbl) key
                 = Some (refreshed now v row)).
    { rewrite E, find_upsert_same. rewrite <- E, Hrow. reflexivity. }
    rewrite (IH _ _ H1).
    destruct (last_report key batch); reflexivity.
  - assert (H1 : find (upsert now (mmsi v, name v, lon v, lat v, speed v, course v,
                                   vessel_type v) tbl) key
                 = Some row).
    { rewrite find_upsert_other by exact N. exact Hrow. }
    rewrite (IH _ _ H1).
    destruct (last_report key batch); reflexivity.
Qed.

(** C2, as the specification words it, fails on the name and the type
    of the vessel: the statement leaves them as they were stored. *)
Lemma C2_name_and_type_kept_counterexample :
  exists r,
    find (vessels (update_vessels_batch 200%Z [later_report] stored_vessel))
         (mmsi later_report) = Some r
    /\ r <> overwritten 200%Z later_report
    /\ r_name r = VStr "NORDLYS" /\ r_name r <> name later_report
    /\ r_type r = VStr "PositionReport" /\ r_type r <> vessel_type later_report.
Proof.
  eexists. split; [vm_compute; reflexivity |].
  repeat split; discriminate.
Qed.

(** C2 (amended). A non-empty batch is written by one [executemany]
    call. For a vessel that already has a row, the position, speed and
    course of its last report in the batch replace the stored ones and
    the last-seen time becomes the time of the write; the stored name and
    type stay. A stored vessel the batch does not mention keeps its row. *)
Theorem C2_batch_upsert_refreshes_position :
  forall (now : datetime) (batch : list vessel_data) (d : db)
         (key : value) (row : vessel_row),
    batch <> [] ->
    find (vessels d) key = Some row ->
    executemany_calls (update_vessels_batch now batch d) = S (executemany_calls d)
    /\ find (vessels (update_vessels_batch now batch d)) key
       = Some match last_report key batch with
              | Some v =>
                  mk_row (r_name row) (lon v, lat v) (speed v) (course v)
                         (r_type row) now
              | None => row
              end.
Proof.
  intros now batch d key row Hne Hrow.
  destruct batch as [| v batch]; [now contradiction Hne |].
  unfold update_vessels_batch, executemany. cbn [executemany_calls vessels].
  split; [reflexivity |].
  rewrite (find_executemany now key (v :: batch) (vessels d) Hrow).
  reflexivity.
Qed.

Lemma C2_batch_upsert_witness :
  ([later_report] <> []
   /\ find (vessels stored_vessel) (VInt 257000000)
      = Some (mk_row (VStr "NORDLYS") (VFloat (10 # 1), VFloat (60 # 1))
                     (VInt 12) (VInt 90) (VStr "PositionReport") 100%Z))
  /\ executemany_calls (update_vessels_batch 200%Z [later_report] stored_vessel) = 1%nat
  /\ find (vessels (update_vessels_batch 200%Z [later_report] stored_vessel))
          (VInt 257000000)
     = Some (mk_row (VStr "NORDLYS") (VFloat (101 # 10), VFloat (601 # 10))
                    (VInt 11) (VInt 95) (VStr "PositionReport") 200%Z).
Proof.
  assert (Hne : [later_report] <> []) by discriminate.
  assert (Hrow : find (vessels stored_vessel) (VInt 257000000)
                 = Some (mk_row (VStr "NORDLYS") (VFloat (10 # 1), VFloat (60 # 1))
                                (VInt 12) (VInt 90) (VStr "PositionReport") 100%Z))
    by reflexivity.
  split; [split; assumption |].
  exact (@C2_batch_upsert_refreshes_position 200%Z [later_report] stored_vessel
           (VInt 257000000) _ Hne Hrow).
Defined.

End RepositoryFacts.

(** ** Properties of the ingestion *)

Module AisClientFacts.
Import Vessel AisClient.

Section Cycle.

Variable check : value -> value -> result (option zone).

Lemma geofence_loop_spec :
  forall (batch : list vessel_data) (trace : list event),
    geofence_loop check batch trace = trace ++ flat_map (per_report check) batch.
Proof.
  induction batch as [| v batch IH]; intros trace.
  - simpl. now rewrite app_nil_r.
  - cbn [geofence_loop flat_map]. unfold per_report at 1.
    destruct (check_geofence_violation check (lat v) (lon v)) as [z |];
      rewrite IH; repeat rewrite <- app_assoc; reflexivity.
Qed.

Lemma per_report_events :
  forall (batch : list vessel_data) (ev : event),
    In ev (flat_map (per_report check) batch) ->
    is_position_update ev = false /\ is_persist ev = false.
Proof.
  intros batch ev Hin. apply in_flat_map in Hin. destruct Hin as (v & _ & Hev).
  unfold per_report in Hev.
  destruct (check_geofence_violation check (lat v) (lon v));
    simpl in Hev; intuition (subst; auto).
Qed.

End Cycle.

(** C9. The events of one batch cycle are, in this order: for each
    report of the batch, in batch order, its geofence check followed by
    its ALERT broadcast when a zone is violated; then one VESSEL_UPDATE
    broadcast carrying the whole batch; then one persistence call on the
    whole batch. *)
Theorem C9_batch_cycle_order :
  forall (check : value -> value -> result (option zone))
         (batch : list vessel_data),
    process_and_flush check batch
    = flat_map (per_report check) batch
      ++ [EvBroadcast (MsgVesselUpdate batch); EvPersist batch]
    /\ (forall ev,
          In ev (flat_map (per_report check) batch) ->
          is_position_update ev = false /\ is_persist ev = false).
Proof.
  intros check batch. split.
  - unfold process_and_flush. rewrite geofence_loop_spec.
    simpl. rewrite <- app_assoc. reflexivity.
  - intros ev. apply per_report_events.
Qed.

(** *** The producer *)

Lemma full_at_capacity (queue : list vessel_data) :
  full queue = true <-> (5000 <= List.length queue)%nat.
Proof.
  unfold full, maxsize.
  assert (E : (5000 <=? 0)%Z = false) by reflexivity.
  rewrite E, Z.leb_le. lia.
Qed.

(** C8. A report that passes the guard while the queue holds 5000
    entries is dropped: [put_nowait] raises [QueueFull], the handler logs
    the warning, the producer goes on without an exception and the queue
    is as it was. *)
Theorem C8_full_queue_drops_report :
  forall (msg : value) (vd : vessel_data) (p : producer),
    normalize msg = Ok vd ->
    accepted vd = true ->
    List.length (queue p) = 5000%nat ->
    put_nowait vd (queue p) = Raise QueueFull
    /\ on_message msg p = Ok (mk_producer (queue p) (log p ++ [LogQueueFull])).
Proof.
  intros msg vd p Hnorm Hacc Hlen.
  assert (Hfull : full (queue p) = true) by (apply full_at_capacity; lia).
  assert (Hput : put_nowait vd (queue p) = Raise QueueFull).
  { unfold put_nowait. now rewrite Hfull. }
  split; [exact Hput |].
  unfold on_message. rewrite Hnorm. cbn [Py.bind]. rewrite Hacc, Hput.
  reflexivity.
Qed.

Lemma C8_full_queue_witness :
  (normalize position_message = Ok position_report_data
   /\ accepted position_report_data = true
   /\ List.length (repeat position_report_data 5000) = 5000%nat)
  /\ on_message position_message
       (mk_producer (repeat position_report_data 5000) [])
     = Ok (mk_producer (repeat position_report_data 5000) [LogQueueFull]).
Proof.
  assert (Hnorm : normalize position_message = Ok position_report_data)
    by (vm_compute; reflexivity).
  assert (Hacc : accepted position_report_data = true) by reflexivity.
  assert (Hlen : List.length (queue (mk_producer (repeat position_report_data 5000) []))
                 = 5000%nat) by apply repeat_length.
  split; [split; [exact Hnorm | split; [exact Hacc | exact Hlen]] |].
  exact (proj2 (@C8_full_queue_drops_report position_message position_report_data
                  (mk_producer (repeat position_report_data 5000) [])
                  Hnorm Hacc Hlen)).
Defined.

(** What the guard does keep out: a report enters the queue only with a
    true identifier and a latitude other than [None]. *)
Lemma on_message_queue (msg : value) (p p' : producer) :
  on_message msg p = Ok p' ->
  queue p' = queue p
  \/ exists vd,
       normalize msg = Ok vd /\ queue p' = queue p ++ [vd]
       /\ truthy (mmsi vd) = true /\ lat vd <> VNone.
Proof.
  unfold on_message. destruct (normalize msg) as [vd | e]; [| discriminate].
  cbn [Py.bind]. destruct (accepted vd) eqn:Hacc.
  - unfold put_nowait. destruct (full (queue p)).
    + intros H. injection H as <-. now left.
    + intros H. injection H as <-. right. exists vd.
      unfold accepted in Hacc. apply andb_true_iff in Hacc. destruct Hacc as [Hm Hl].
      repeat split; try assumption.
      intros E. rewrite E in Hl. discriminate.
  - intros H. injection H as <-. now left.
Qed.

(** C1. The guard of the queue tests the identifier and the latitude,
    not the longitude: a message whose metadata has no longitude yields a
    report with longitude [None] that enters the queue, and the next
    flush broadcasts it in the VESSEL_UPDATE message and hands it to the
    persistence call. *)
Theorem C1_report_without_longitude_is_processed :
  normalize message_without_longitude = Ok report_without_longitude
  /\ lon report_without_longitude = VNone
  /\ on_message message_without_longitude (mk_producer [] [])
     = Ok (mk_producer [report_without_longitude] [])
  /\ queue_get [report_without_longitude] = Some (report_without_longitude, [])
  /\ trace (db_writer_step no_zone None
              (db_writer_step no_zone (Some report_without_longitude)
                 (mk_writer [] 0 [])))
     = [EvGeofenceCheck report_without_longitude;
        EvBroadcast (MsgVesselUpdate [report_without_longitude]);
        EvPersist [report_without_longitude]].
Proof.
  repeat split; vm_compute; reflexivity.
Qed.

End AisClientFacts.

(** ** Further properties of the anomaly detector *)

Module AnomaliesMore.
Import Anomalies AnomaliesSpec AnomaliesEdge AnomaliesFacts.
Local Open Scope R_scope.

Lemma moving_with_null_course_dec (v : vessel) :
  {moving_with_null_course v} + {~ moving_with_null_course v}.
Proof.
  unfold moving_with_null_course.
  destruct (Rlt_dec (v_speed v) 0.5) as [Hlt | Hge].
  - right. intros [H _]. lra.
  - destruct (v_course v) as [[| c] |].
    + left. split; [lra | reflexivity].
    + right. intros [_ H]. discriminate.
    + right. intros [_ H]. discriminate.
Qed.

(** What the predictor does with the course of a row. *)
Lemma predicted_of_row (now : datetime) (v : vessel) :
  (moving_with_null_course v ->
   calculate_predicted_pos now (v_lat v) (v_lon v) (v_speed v)
     (get (v_course v) (PyFloat 0)) (v_last_seen v) = Raise TypeError)
  /\ (~ moving_with_null_course v ->
      exists p,
        calculate_predicted_pos now (v_lat v) (v_lon v) (v_speed v)
          (get (v_course v) (PyFloat 0)) (v_last_seen v) = Ok p).
Proof.
  unfold moving_with_null_course, calculate_predicted_pos. split.
  - intros [Hs Hc]. rewrite Hc. cbn [get radians_of bind].
    destruct (Rlt_dec (v_speed v) 0.5) as [Hlt | _]; [exfalso; lra | reflexivity].
  - intros Hn. destruct (Rlt_dec (v_speed v) 0.5) as [Hlt | Hge]; [eexists; reflexivity |].
    destruct (v_course v) as [[| c] |]; cbn [get radians_of bind].
    + exfalso. apply Hn. split; [lra | reflexivity].
    + eexists; reflexivity.
    + eexists; reflexivity.
Qed.

Lemma alerts_loop_outcome (clock : nat -> datetime) :
  forall vs k acc,
    (Exists moving_with_null_course vs ->
     alerts_loop clock k vs acc = Raise TypeError)
    /\ (~ Exists moving_with_null_course vs ->
        exists als,
          alerts_loop clock k vs acc = Ok (acc ++ als)
          /\ List.length als = List.length vs).
Proof.
  induction vs as [| v vs IH]; intros k acc.
  - split.
    + intros H. inversion H.
    + intros _. exists []. split; [cbn; now rewrite app_nil_r | reflexivity].
  - cbn [alerts_loop].
    destruct (moving_with_null_course_dec v) as [Hb | Hn].
    + rewrite (proj1 (predicted_of_row (clock k) v) Hb). cbn [bind]. split.
      * reflexivity.
      * intros H. exfalso. apply H. now left.
    + destruct (proj2 (predicted_of_row (clock k) v) Hn) as [p Hp].
      rewrite Hp. cbn [bind].
      set (a := mk_alert (v_mmsi v) (v_name v) (v_speed v) (v_last_seen v)
                         (mk_pos (v_lat v) (v_lon v)) p).
      destruct (IH (S k) (acc ++ [a])) as [IHbad IHgood]. split.
      * intros H. apply IHbad. inversion H; subst; [contradiction | assumption].
      * intros H. destruct IHgood as (als & Hals & Hlen).
        { intros Hex. apply H. now right. }
        exists (a :: als). split.
        -- rewrite Hals, <- app_assoc. reflexivity.
        -- cbn [List.length]. now rewrite Hlen.
Qed.

(** *** Bounds on the clusters *)

Lemma alerts_loop_length (clock : nat -> datetime) :
  forall vs k acc als,
    alerts_loop clock k vs acc = Ok als ->
    List.length als = (List.length acc + List.length vs)%nat.
Proof.
  induction vs as [| v vs IH]; intros k acc als H.
  - cbn in H. injection H as <-. cbn. lia.
  - cbn [alerts_loop] in H.
    destruct (calculate_predicted_pos (clock k) (v_lat v) (v_lon v) (v_speed v)
                (get (v_course v) (PyFloat 0)) (v_last_seen v)) as [p | e];
      cbn [bind] in H; [| discriminate].
    apply IH in H. rewrite H, length_app. cbn. lia.
Qed.

Lemma report_shape (clock : nat -> datetime) (vessels : list vessel) (rep : report) :
  get_enhanced_anomalies clock vessels = Ok rep ->
  List.length (alerts rep) = List.length vessels
  /\ clusters rep = jamming_clusters (alerts rep).
Proof.
  unfold get_enhanced_anomalies. intros H.
  destruct vessels as [| v vs].
  - injection H as <-. split; reflexivity.
  - destruct (alerts_loop clock 0 (v :: vs) []) as [als | e] eqn:E;
      cbn [bind] in H; [| discriminate].
    injection H as <-. cbn [alerts clusters]. split.
    + apply alerts_loop_length in E. exact E.
    + apply clusters_of_alerts.
Qed.

Lemma neighbours_length (als : list alert) (i : nat) :
  (i < List.length als)%nat ->
  (S (List.length (neighbours als i)) <= List.length als)%nat.
Proof.
  intros Hi. unfold neighbours.
  set (f := fun j => negb (Nat.eqb i j) && near (alert_at als i) (alert_at als j)).
  pose proof (filter_length f (seq 0 (List.length als))) as Hsplit.
  rewrite length_seq in Hsplit.
  assert (Hin : In i (filter (fun x => negb (f x)) (seq 0 (List.length als)))).
  { apply filter_In. split; [apply in_seq; lia |].
    unfold f. now rewrite Nat.eqb_refl. }
  destruct (filter (fun x => negb (f x)) (seq 0 (List.length als))) as [| y r];
    [contradiction |].
  cbn [List.length] in Hsplit. lia.
Qed.

(** X2. In every report that [get_enhanced_anomalies] returns there is
    one alert for each row and at most one cluster for each alert; with
    fewer than three rows there is no cluster; and every cluster carries
    the tag and lists at least three identifiers, at most one for each
    row. *)
Theorem X2_clusters_need_three_vessels :
  forall (clock : nat -> datetime) (vessels : list vessel) (rep : report),
    get_enhanced_anomalies clock vessels = Ok rep ->
    List.length (alerts rep) = List.length vessels
    /\ (List.length (clusters rep) <= List.length vessels)%nat
    /\ ((List.length vessels < 3)%nat -> clusters rep = [])
    /\ Forall (fun c =>
                 (3 <= List.length (affected_mmsi c) <= List.length vessels)%nat
                 /\ c_type c = "POTENTIAL_JAMMING_ZONE"%string)
              (clusters rep).
Proof.
  intros clock vessels rep Hrep.
  destruct (report_shape clock vessels Hrep) as [Hlen Hcl].
  assert (Hcentre : forall i, In i (cluster_centres (alerts rep)) ->
                      (i < List.length (alerts rep))%nat
                      /\ (2 <= List.length (neighbours (alerts rep) i))%nat).
  { intros i Hi. now apply cluster_centres_iff in Hi. }
  split; [exact Hlen |].
  rewrite Hcl. unfold jamming_clusters.
  split.
  { rewrite length_map, <- Hlen. unfold cluster_centres.
    etransitivity; [apply filter_length_le | now rewrite length_seq]. }
  split.
  { intros Hfew.
    destruct (cluster_centres (alerts rep)) as [| i r] eqn:E; [reflexivity |].
    exfalso. destruct (Hcentre i (or_introl eq_refl)) as [Hi H2].
    pose proof (neighbours_length (alerts rep) Hi). lia. }
  apply Forall_forall. intros c Hc. apply in_map_iff in Hc.
  destruct Hc as (i & <- & Hi). destruct (Hcentre i Hi) as [Hlt H2].
  pose proof (neighbours_length (alerts rep) Hlt) as Hn.
  unfold cluster_at. cbn [affected_mmsi c_type List.length].
  rewrite length_map. split; [lia | reflexivity].
Qed.

Lemma X2_clusters_witness :
  exists rep,
    get_enhanced_anomalies (fun _ => 0%Z) three_vessels = Ok rep
    /\ List.length (alerts rep) = 3%nat
    /\ (List.length (clusters rep) <= 3)%nat
    /\ Forall (fun c => (3 <= List.length (affected_mmsi c) <= 3)%nat
                        /\ c_type c = "POTENTIAL_JAMMING_ZONE"%string)
              (clusters rep).
Proof.
  destruct (proj2 (alerts_loop_outcome (fun _ => 0%Z) three_vessels 0 []))
    as (als & Hals & _).
  { intros H. apply Exists_exists in H. destruct H as (v & Hv & _ & Hc).
    simpl in Hv. destruct Hv as [<- | [<- | [<- | []]]]; discriminate. }
  assert (Hrep : get_enhanced_anomalies (fun _ => 0%Z) three_vessels
                 = Ok (mk_report als (clusters_loop als (enumerate als) []))).
  { unfold get_enhanced_anomalies, three_vessels in *. now rewrite Hals. }
  destruct (@X2_clusters_need_three_vessels (fun _ => 0%Z) three_vessels _ Hrep)
    as (Hlen & Hcl & _ & Hall).
  eexists. split; [exact Hrep |]. split; [exact Hlen |]. split; [exact Hcl |].
  exact Hall.
Defined.

End AnomaliesMore.

(** ** Further properties of the connection manager *)

Module BroadcasterMore.
Import Broadcaster BroadcasterSpec.

Lemma list_remove_absent (x : connection) (l : list connection) :
  ~ In x l -> list_remove x l = l.
Proof.
  induction l as [| y l IH]; intros H; [reflexivity |].
  simpl. destruct (Nat.eqb y x) eqn:E.
  - apply Nat.eqb_eq in E. subst. exfalso. apply H. now left.
  - f_equal. apply IH. intros Hin. apply H. now right.
Qed.

Lemma list_remove_comm (x y : connection) (l : list connection) :
  list_remove x (list_remove y l) = list_remove y (list_remove x l).
Proof.
  induction l as [| z l IH]; [reflexivity |].
  simpl. destruct (Nat.eqb z y) eqn:Ey, (Nat.eqb z x) eqn:Ex; simpl;
    rewrite ?Ey, ?Ex; try reflexivity.
  - apply Nat.eqb_eq in Ey, Ex. now subst.
  - now rewrite IH.
Qed.

Lemma remove_each_perm (xs ys : list connection) :
  Permutation xs ys -> forall l, remove_each xs l = remove_each ys l.
Proof.
  unfold remove_each.
  induction 1 as [| x xs ys _ IH | x y xs | xs ys zs _ IH1 _ IH2]; intros l; simpl.
  - reflexivity.
  - apply IH.
  - now rewrite list_remove_comm.
  - now rewrite IH1.
Qed.

Lemma remove_each_cons (a : connection) (xs l : list connection) :
  ~ In a xs -> remove_each xs (a :: l) = a :: remove_each xs l.
Proof.
  unfold remove_each. revert l.
  induction xs as [| x xs IH]; intros l H; [reflexivity |].
  simpl. destruct (Nat.eqb a x) eqn:E.
  - apply Nat.eqb_eq in E. subst. exfalso. apply H. now left.
  - apply IH. intros Hin. apply H. now right.
Qed.

Lemma remove_each_filter (f : connection -> bool) (l : list connection) :
  remove_each (filter (fun x => negb (f x)) l) l = filter f l.
Proof.
  induction l as [| a l IH]; [reflexivity |].
  simpl. destruct (f a) eqn:E; simpl.
  - rewrite remove_each_cons; [now rewrite IH |].
    intros Hin. apply filter_In in Hin. destruct Hin as [_ Hin].
    rewrite E in Hin. discriminate.
  - unfold remove_each. simpl. rewrite Nat.eqb_refl. apply IH.
Qed.

Lemma Permutation_filter' (f : connection -> bool) (l l' : list connection) :
  Permutation l l' -> Permutation (filter f l) (filter f l').
Proof.
  induction 1 as [| x l l' _ IH | x y l | l l' l'' _ IH1 _ IH2]; simpl.
  - constructor.
  - destruct (f x); [now constructor | exact IH].
  - destruct (f x), (f y); try apply Permutation_refl; apply perm_swap.
  - now transitivity (filter f l').
Qed.

Section AnyFailures.

Variable send_text : connection -> string -> result unit.
Variable data : string.

Let step (st : manager * result unit) (ws : connection) : manager * result unit :=
  let '(m', r') := _send_safe send_text ws data (fst st) in
  (m', first_raise (snd st) r').

Lemma disconnect_active (ws : connection) (m : manager) :
  active_connections (disconnect ws m) = list_remove ws (active_connections m).
Proof.
  unfold disconnect. destruct (list_mem ws (active_connections m)) eqn:E.
  - reflexivity.
  - symmetry. apply list_remove_absent. intros Hin.
    apply BroadcasterFacts.list_mem_In in Hin. congruence.
Qed.

Lemma disconnect_delivered (ws : connection) (m : manager) :
  delivered (disconnect ws m) = delivered m.
Proof. unfold disconnect. now destruct (list_mem ws (active_connections m)). Qed.

(** The tasks of a broadcast, whatever each socket does. *)
Lemma gather_any (l : list connection) :
  forall m,
    exists m',
      fold_left step l (m, Ok tt) = (m', Ok tt)
      /\ active_connections m'
         = remove_each (filter (fun x => negb (sent_ok send_text data x)) l)
                       (active_connections m)
      /\ delivered m'
         = delivered m ++ map (fun x => (x, data)) (filter (sent_ok send_text data) l).
Proof.
  induction l as [| x l IH]; intros m.
  - exists m. simpl. now rewrite app_nil_r.
  - cbn [fold_left filter]. unfold step at 2, _send_safe. cbn [fst snd].
    assert (Hs : sent_ok send_text data x
                 = match send_text x data with Ok _ => true | Raise _ => false end)
      by reflexivity.
    destruct (send_text x data) as [u | e]; rewrite Hs; cbn [first_raise negb].
    + destruct (IH (mk_manager (active_connections m) (delivered m ++ [(x, data)])
                               (log m))) as (m' & Hrun & Hact & Hdel).
      cbn [active_connections delivered] in Hact, Hdel.
      exists m'. split; [exact Hrun |]. split; [exact Hact |].
      rewrite Hdel. cbn [map]. now rewrite <- app_assoc.
    + destruct (IH (disconnect x
                      (mk_manager (active_connections m) (delivered m)
                                  (log m ++ [LogSendFailed x e]))))
        as (m' & Hrun & Hact & Hdel).
      exists m'. split; [exact Hrun |].
      rewrite Hact, Hdel, disconnect_active, disconnect_delivered.
      split; reflexivity.
Qed.

End AnyFailures.

Lemma broadcast_any (message : Type) (dumps : message -> string)
    (send_text : connection -> string -> result unit)
    (schedule : list connection -> list connection)
    (msg : message) (m : manager) :
  Permutation (schedule (active_connections m)) (active_connections m) ->
  exists m',
    broadcast dumps send_text schedule msg m = (m', Ok tt)
    /\ active_connections m'
       = filter (sent_ok send_text (dumps msg)) (active_connections m)
    /\ delivered m'
       = delivered m
         ++ map (fun x => (x, dumps msg))
                (filter (sent_ok send_text (dumps msg))
                        (schedule (active_connections m))).
Proof.
  intros Hperm. unfold broadcast.
  destruct (active_connections m) as [| c0 rest] eqn:E.
  - exists m. split; [reflexivity |]. split; [now rewrite E |].
    apply Permutation_sym, Permutation_nil in Hperm. rewrite Hperm. simpl. now rewrite app_nil_r.
  - unfold gather.
    destruct (gather_any send_text (dumps msg) (schedule (c0 :: rest)) m)
      as (m' & Hrun & Hact & Hdel).
    exists m'. split; [exact Hrun |]. split; [| exact Hdel].
    rewrite Hact, E.
    rewrite (@remove_each_perm _
               (filter (fun x => negb (sent_ok send_text (dumps msg) x)) (c0 :: rest))).
    + apply remove_each_filter.
    + now apply Permutation_filter'.
Qed.

(** X4. Whatever each socket does with the text and in whatever order the
    sends complete, [broadcast] returns without raising; afterwards the
    registered connections are those whose send succeeded, in their
    former order, a connection registered several times counting once for
    each registration; and the text went out once for each of them. *)
Theorem X4_broadcast_keeps_the_connections_that_took_the_text :
  forall (message : Type) (dumps : message -> string)
         (send_text : connection -> string -> result unit)
         (schedule : list connection -> list connection)
         (msg : message) (m : manager),
    Permutation (schedule (active_connections m)) (active_connections m) ->
    exists m' recipients,
      broadcast dumps send_text schedule msg m = (m', Ok tt)
      /\ active_connections m'
         = filter (sent_ok send_text (dumps msg)) (active_connections m)
      /\ delivered m' = delivered m ++ map (fun x => (x, dumps msg)) recipients
      /\ Permutation recipients (active_connections m').
Proof.
  intros message dumps send_text schedule msg m Hperm.
  destruct (broadcast_any dumps send_text schedule msg m Hperm)
    as (m' & Hb & Hact & Hdel).
  exists m', (filter (sent_ok send_text (dumps msg)) (schedule (active_connections m))).
  split; [exact Hb |]. split; [exact Hact |]. split; [exact Hdel |].
  rewrite Hact. now apply Permutation_filter'.
Qed.

Lemma X4_broadcast_witness :
  Permutation (rev (active_connections five_registrations))
              (active_connections five_registrations)
  /\ exists m' recipients,
       broadcast (fun s : string => s) sockets_2_4_closed (@rev connection)
                 "ping"%string five_registrations
       = (m', Ok tt)
       /\ active_connections m' = [1; 3]%nat
       /\ delivered m' = map (fun x => (x, "ping"%string)) recipients
       /\ Permutation recipients [1; 3]%nat.
Proof.
  assert (Hperm : Permutation (rev (active_connections five_registrations))
                              (active_connections five_registrations)).
  { symmetry. apply Permutation_rev. }
  split; [exact Hperm |].
  destruct (@X4_broadcast_keeps_the_connections_that_took_the_text
              string (fun s : string => s) sockets_2_4_closed (@rev connection)
              "ping"%string five_registrations Hperm)
    as (m' & recipients & Hb & Hact & Hdel & Hrec).
  exists m', recipients. split; [exact Hb |]. split; [exact Hact |].
  split; [exact Hdel |]. rewrite Hact in Hrec. exact Hrec.
Defined.

End BroadcasterMore.

(** ** Properties of the HTTP and WebSocket endpoints *)

Module MainFacts.
Import Broadcaster BroadcasterSpec Main.

Local Open Scope string_scope.

Lemma str_in_In (s : string) (l : list string) : str_in s l = true <-> In s l.
Proof.
  unfold str_in. rewrite existsb_exists. split.
  - intros (y & Hy & E). apply String.eqb_eq in E. now subst.
  - intros H. exists s. split; [exact H | apply String.eqb_refl].
Qed.

(** X5. Whatever [str.upper] returns, [force_alarm] answers with status
    SUCCESS, a severity that is one of CRITICAL, WARNING and INFO (the
    upper-cased argument when it is one of them, CRITICAL otherwise),
    and the number of connections
    registered before the broadcast; the connections whose send failed
    are gone afterwards, so the count answered is an upper bound of the
    connections that remain. *)
Theorem X5_force_alarm_response :
  forall (upper : string -> string) (dumps : alert_msg -> string)
         (send_text : connection -> string -> result unit)
         (schedule : list connection -> list connection)
         (severity : string) (m : manager),
    Permutation (schedule (active_connections m)) (active_connections m) ->
    exists m' resp,
      force_alarm upper dumps send_text schedule severity m = (m', Ok resp)
      /\ status resp = "SUCCESS"
      /\ active_clients resp = List.length (active_connections m)
      /\ In (sent_severity resp) ["CRITICAL"; "WARNING"; "INFO"]
      /\ (In (upper severity) ["CRITICAL"; "WARNING"; "INFO"] ->
          sent_severity resp = upper severity)
      /\ (~ In (upper severity) ["CRITICAL"; "WARNING"; "INFO"] ->
          sent_severity resp = "CRITICAL")
      /\ active_connections m'
         = filter (sent_ok send_text (dumps (alert_of (sent_severity resp))))
                  (active_connections m)
      /\ (List.length (active_connections m') <= active_clients resp)%nat.
Proof.
  intros upper dumps send_text schedule severity m Hperm.
  unfold force_alarm.
  set (sev := if negb (str_in (upper severity) ["CRITICAL"; "WARNING"; "INFO"])
              then "CRITICAL" else upper severity).
  destruct (BroadcasterMore.broadcast_any dumps send_text schedule (alert_of sev) m Hperm)
    as (m' & Hb & Hact & _).
  rewrite Hb. cbn [bind].
  exists m', (mk_response "SUCCESS" (List.length (active_connections m)) sev).
  cbn [status active_clients sent_severity].
  split; [reflexivity |]. split; [reflexivity |]. split; [reflexivity |].
  assert (Hsev : In sev ["CRITICAL"; "WARNING"; "INFO"]).
  { unfold sev. destruct (str_in (upper severity) _) eqn:E; cbn [negb].
    - now apply str_in_In.
    - simpl. auto. }
  split; [exact Hsev |].
  split.
  { intros Hin. apply str_in_In in Hin. unfold sev. now rewrite Hin. }
  split.
  { intros Hnin. unfold sev.
    destruct (str_in (upper severity) _) eqn:E; [| reflexivity].
    apply str_in_In in E. contradiction. }
  split; [exact Hact |].
  rewrite Hact. apply filter_length_le.
Qed.

Lemma X5_force_alarm_witness :
  Permutation (rev (active_connections five_registrations))
              (active_connections five_registrations)
  /\ exists m',
       force_alarm upper_ascii (fun a => am_vessel a) sockets_2_4_closed
                   (@rev connection) "Warning" five_registrations
       = (m', Ok (mk_response "SUCCESS" 5 "WARNING"))
       /\ active_connections m' = [1; 3]%nat.
Proof.
  assert (Hperm : Permutation (rev (active_connections five_registrations))
                              (active_connections five_registrations)).
  { symmetry. apply Permutation_rev. }
  split; [exact Hperm |].
  destruct (@X5_force_alarm_response upper_ascii (fun a => am_vessel a)
              sockets_2_4_closed (@rev connection) "Warning" five_registrations Hperm)
    as (m' & resp & Hf & Hst & Hn & _ & Hup & _ & Hact & _).
  pose proof (Hup (or_intror (or_introl eq_refl))) as Hsv.
  exists m'. destruct resp as [st n sv]. cbn [status active_clients sent_severity] in *.
  subst st n sv. split; [exact Hf | exact Hact].
Defined.

(** *** The life of a registration *)

Lemma count_occ_list_remove (x ws : connection) (l : list connection) :
  count_occ Nat.eq_dec (list_remove ws l) x
  = if Nat.eqb x ws then Nat.pred (count_occ Nat.eq_dec l x)
    else count_occ Nat.eq_dec l x.
Proof.
  induction l as [| y l IH]; [simpl; now destruct (Nat.eqb x ws) |].
  cbn [list_remove]. destruct (Nat.eqb y ws) eqn:Ey.
  - apply Nat.eqb_eq in Ey. subst y. cbn [count_occ].
    destruct (Nat.eq_dec ws x) as [-> | Hne].
    + now rewrite Nat.eqb_refl.
    + assert (E : Nat.eqb x ws = false) by (apply Nat.eqb_neq; congruence).
      now rewrite E.
  - cbn [count_occ]. rewrite IH.
    destruct (Nat.eq_dec y x) as [-> | Hne].
    + rewrite Ey. reflexivity.
    + reflexivity.
Qed.

Lemma occurrences_disconnect (x ws : connection) (m : manager) :
  occurrences x (disconnect ws m)
  = if Nat.eqb x ws then Nat.pred (occurrences x m) else occurrences x m.
Proof.
  unfold occurrences. rewrite BroadcasterMore.disconnect_active.
  apply count_occ_list_remove.
Qed.

Lemma occurrences_connect (x ws : connection) (m : manager) :
  occurrences x (connect ws m)
  = if Nat.eqb x ws then S (occurrences x m) else occurrences x m.
Proof.
  unfold occurrences, connect. cbn [active_connections].
  rewrite count_occ_app. cbn [count_occ].
  destruct (Nat.eq_dec ws x) as [-> | Hne].
  - rewrite Nat.eqb_refl. apply Nat.add_1_r.
  - assert (E : Nat.eqb x ws = false) by (apply Nat.eqb_neq; congruence).
    rewrite E. apply Nat.add_0_r.
Qed.

Lemma occurrences_send (x ws : connection) (data : string) (outcome : result unit)
    (m : manager) :
  occurrences x (fst (_send_safe (fun _ _ => outcome) ws data m))
  = match outcome with
    | Ok _ => occurrences x m
    | Raise _ => if Nat.eqb x ws then Nat.pred (occurrences x m) else occurrences x m
    end.
Proof.
  unfold _send_safe. destruct outcome as [u | e]; cbn [fst].
  - reflexivity.
  - rewrite occurrences_disconnect. reflexivity.
Qed.

(** How many times [x] is registered after an operation depends on how
    many times it was before, and on nothing else of the manager. *)
Lemma run_op_occurrences (o : op) (x : connection) (m1 m2 : manager) :
  occurrences x m1 = occurrences x m2 ->
  occurrences x (run_op o m1) = occurrences x (run_op o m2).
Proof.
  intros H. destruct o as [ws | ws | ws data outcome]; cbn [run_op].
  - now rewrite !occurrences_connect, H.
  - now rewrite !occurrences_disconnect, H.
  - now rewrite !occurrences_send, H.
Qed.

Lemma run_occurrences (ops : list op) (x : connection) :
  forall m1 m2,
    occurrences x m1 = occurrences x m2 ->
    occurrences x (run ops m1) = occurrences x (run ops m2).
Proof.
  unfold run. induction ops as [| o ops IH]; intros m1 m2 H; [exact H |].
  cbn [fold_left]. apply IH. now apply run_op_occurrences.
Qed.

Lemma run_op_at_most_once (o : op) (ws : connection) (m : manager) :
  registers ws o = false ->
  (occurrences ws m <= 1)%nat -> (occurrences ws (run_op o m) <= 1)%nat.
Proof.
  intros Hreg H. destruct o as [ws' | ws' | ws' data outcome]; cbn [run_op].
  - rewrite occurrences_connect. cbn [registers] in Hreg.
    rewrite Nat.eqb_sym, Hreg. exact H.
  - rewrite occurrences_disconnect. destruct (Nat.eqb ws ws'); lia.
  - rewrite occurrences_send. destruct outcome; [exact H |].
    destruct (Nat.eqb ws ws'); lia.
Qed.

Lemma run_at_most_once (ops : list op) (ws : connection) :
  forall m,
    forallb (fun o => negb (registers ws o)) ops = true ->
    (occurrences ws m <= 1)%nat -> (occurrences ws (run ops m) <= 1)%nat.
Proof.
  unfold run. induction ops as [| o ops IH]; intros m Hops H; [exact H |].
  cbn [forallb] in Hops. apply andb_true_iff in Hops. destruct Hops as [Ho Hops].
  apply negb_true_iff in Ho.
  cbn [fold_left]. apply IH; [exact Hops |]. now apply run_op_at_most_once.
Qed.

(** X6. A socket that was not registered when its endpoint started is not
    registered when the endpoint has ended, whatever broadcasts, arrivals
    and departures of other sockets took place meanwhile, and whether or
    not a broadcast had already dropped it; the registrations of every
    other socket are what they would have been without this endpoint. *)
Theorem X6_websocket_endpoint_leaves_no_registration :
  forall (ws : connection) (meanwhile : list op) (m : manager),
    ~ In ws (active_connections m) ->
    forallb (fun o => negb (registers ws o)) meanwhile = true ->
    ~ In ws (active_connections (websocket_endpoint ws meanwhile m))
    /\ forall x, x <> ws ->
         count_occ Nat.eq_dec
           (active_connections (websocket_endpoint ws meanwhile m)) x
         = count_occ Nat.eq_dec (active_connections (run meanwhile m)) x.
Proof.
  intros ws meanwhile m Hfresh Hops. unfold websocket_endpoint. split.
  - apply (count_occ_not_In Nat.eq_dec).
    change (occurrences ws (disconnect ws (run meanwhile (connect ws m))) = 0%nat).
    rewrite occurrences_disconnect, Nat.eqb_refl.
    assert (H1 : (occurrences ws (connect ws m) <= 1)%nat).
    { rewrite occurrences_connect, Nat.eqb_refl.
      apply (count_occ_not_In Nat.eq_dec) in Hfresh.
      unfold occurrences. rewrite Hfresh. lia. }
    pose proof (run_at_most_once meanwhile ws (connect ws m) Hops H1). lia.
  - intros x Hx.
    change (occurrences x (disconnect ws (run meanwhile (connect ws m)))
            = occurrences x (run meanwhile m)).
    rewrite occurrences_disconnect.
    apply Nat.eqb_neq in Hx. rewrite Hx.
    apply run_occurrences. rewrite occurrences_connect, Hx. reflexivity.
Qed.

Lemma X6_websocket_endpoint_witness :
  (~ In 7%nat (active_connections three_clients)
   /\ forallb (fun o => negb (registers 7%nat o)) traffic = true)
  /\ active_connections (websocket_endpoint 7%nat traffic three_clients)
     = [1; 2; 3]%nat
  /\ ~ In 7%nat (active_connections (websocket_endpoint 7%nat traffic three_clients)).
Proof.
  assert (Hfresh : ~ In 7%nat (active_connections three_clients)).
  { simpl. intuition discriminate. }
  assert (Hops : forallb (fun o => negb (registers 7%nat o)) traffic = true)
    by reflexivity.
  split; [split; assumption |].
  split; [reflexivity |].
  exact (proj1 (@X6_websocket_endpoint_leaves_no_registration
                  7%nat traffic three_clients Hfresh Hops)).
Defined.

End MainFacts.

(** ** Properties of the database readiness check *)

Module SessionFacts.
Import Session.

Lemma retry_loop_failures (connect : nat -> result unit) :
  forall (n start : nat) (rest : list nat) (trace : list event),
    (forall i, (start <= i < start + n)%nat -> exists e, connect i = Raise e) ->
    retry_loop connect (seq start n ++ rest) trace
    = retry_loop connect rest (trace ++ flat_map failed_turn (seq start n)).
Proof.
  induction n as [| n IH]; intros start rest trace Hfail.
  - simpl. now rewrite app_nil_r.
  - cbn [seq app retry_loop flat_map].
    destruct (Hfail start ltac:(lia)) as [e He]. rewrite He.
    rewrite IH by (intros i Hi; apply Hfail; lia).
    unfold failed_turn at 2. rewrite <- app_assoc. reflexivity.
Qed.

Lemma slept_failed_turns (n start : nat) :
  slept (flat_map failed_turn (seq start n)) = (2 * n)%nat.
Proof.
  revert start. induction n as [| n IH]; intros start; [reflexivity |].
  cbn [seq flat_map failed_turn app slept]. rewrite IH. lia.
Qed.

Lemma attempts_failed_turns (n start : nat) :
  attempts (flat_map failed_turn (seq start n)) = n.
Proof.
  revert start. induction n as [| n IH]; intros start; [reflexivity |].
  cbn [seq flat_map failed_turn app attempts]. now rewrite IH.
Qed.

Lemma slept_app (t1 t2 : list event) : slept (t1 ++ t2) = (slept t1 + slept t2)%nat.
Proof.
  induction t1 as [| ev t1 IH]; [reflexivity |].
  destruct ev; cbn [app slept]; rewrite IH; lia.
Qed.

Lemma attempts_app (t1 t2 : list event) :
  attempts (t1 ++ t2) = (attempts t1 + attempts t2)%nat.
Proof.
  induction t1 as [| ev t1 IH]; [reflexivity |].
  destruct ev; cbn [app attempts]; rewrite IH; lia.
Qed.

(** X7. When the first [k] connection attempts fail and the next one
    succeeds, with [k] below 10, [wait_for_db] returns [True]; it has made
    [k + 1] attempts, logged and slept 2 seconds after each failed one
    ([2 k] seconds in all), and makes no attempt after the successful
    one. *)
Theorem X7_wait_for_db_returns_at_first_success :
  forall (connect : nat -> result unit) (k : nat),
    (k < 10)%nat ->
    (forall i, (i < k)%nat -> exists e, connect i = Raise e) ->
    connect k = Ok tt ->
    wait_for_db connect
    = (flat_map failed_turn (seq 0 k) ++ [EvConnect k; EvLogReady], Ok true)
    /\ attempts (fst (wait_for_db connect)) = S k
    /\ slept (fst (wait_for_db connect)) = (2 * k)%nat.
Proof.
  intros connect k Hk Hfail Hok.
  assert (Hrun : wait_for_db connect
                 = (flat_map failed_turn (seq 0 k) ++ [EvConnect k; EvLogReady],
                    Ok true)).
  { unfold wait_for_db, max_retries.
    replace 10%nat with (k + (10 - k))%nat by lia.
    rewrite seq_app.
    rewrite retry_loop_failures by (intros i Hi; apply Hfail; lia).
    destruct (10 - k)%nat as [| r] eqn:E; [lia |].
    cbn [seq retry_loop app]. rewrite Nat.add_0_l, Hok. reflexivity. }
  rewrite Hrun. cbn [fst].
  rewrite attempts_app, slept_app, attempts_failed_turns, slept_failed_turns.
  cbn [attempts slept]. repeat split; lia.
Qed.

Lemma X7_wait_for_db_witness :
  ((3 < 10)%nat
   /\ (forall i, (i < 3)%nat -> exists e, ready_at_3 i = Raise e)
   /\ ready_at_3 3 = Ok tt)
  /\ snd (wait_for_db ready_at_3) = Ok true
  /\ attempts (fst (wait_for_db ready_at_3)) = 4%nat
  /\ slept (fst (wait_for_db ready_at_3)) = 6%nat.
Proof.
  assert (Hk : (3 < 10)%nat) by lia.
  assert (Hfail : forall i, (i < 3)%nat -> exists e, ready_at_3 i = Raise e).
  { intros i Hi. exists (OtherError "connection refused"). unfold ready_at_3.
    apply Nat.ltb_lt in Hi. now rewrite Hi. }
  assert (Hok : ready_at_3 3 = Ok tt) by reflexivity.
  split; [repeat split; assumption |].
  destruct (@X7_wait_for_db_returns_at_first_success ready_at_3 3%nat Hk Hfail Hok)
    as (Hrun & Ha & Hs).
  split; [now rewrite Hrun |]. split; [exact Ha | exact Hs].
Defined.

(** X8. When the ten connection attempts all fail, [wait_for_db] raises
    an exception carrying the critical message, after exactly ten
    attempts and ten sleeps of 2 seconds, the last of them after the
    tenth failure; it does not try an eleventh time. *)
Theorem X8_wait_for_db_gives_up_after_ten_attempts :
  forall (connect : nat -> result unit),
    (forall i, (i < 10)%nat -> exists e, connect i = Raise e) ->
    wait_for_db connect
    = (flat_map failed_turn (seq 0 10) ++ [EvLogCritical error_msg],
       Raise (OtherError error_msg))
    /\ attempts (fst (wait_for_db connect)) = 10%nat
    /\ slept (fst (wait_for_db connect)) = 20%nat.
Proof.
  intros connect Hfail.
  assert (Hrun : wait_for_db connect
                 = (flat_map failed_turn (seq 0 10) ++ [EvLogCritical error_msg],
                    Raise (OtherError error_msg))).
  { unfold wait_for_db, max_retries.
    rewrite <- (app_nil_r (seq 0 10)) at 1.
    rewrite retry_loop_failures by (intros i Hi; apply Hfail; lia).
    reflexivity. }
  rewrite Hrun. cbn [fst].
  rewrite attempts_app, slept_app, attempts_failed_turns, slept_failed_turns.
  cbn [attempts slept]. repeat split; lia.
Qed.

Lemma X8_wait_for_db_witness :
  (forall i, (i < 10)%nat -> exists e, never_ready i = Raise e)
  /\ snd (wait_for_db never_ready) = Raise (OtherError error_msg)
  /\ attempts (fst (wait_for_db never_ready)) = 10%nat
  /\ slept (fst (wait_for_db never_ready)) = 20%nat.
Proof.
  assert (Hfail : forall i, (i < 10)%nat -> exists e, never_ready i = Raise e).
  { intros i _. now exists (OtherError "connection refused"). }
  split; [exact Hfail |].
  destruct (@X8_wait_for_db_gives_up_after_ten_attempts never_ready Hfail)
    as (Hrun & Ha & Hs).
  split; [now rewrite Hrun |]. split; [exact Ha | exact Hs].
Defined.

End SessionFacts.

(** ** Properties of the analysis tool *)

Module ToolsFacts.
Import Floats Float64 Detector DetectorSpec DetectorScenarios DetectorFacts Tools.

Local Open Scope string_scope.

(** X9. The analysis tool always answers with a text. It is the
    no-anomaly sentence when the inactivity query returns no row; the
    sentence "Analysis error occurred: " followed by the exception when
    the query raises and when the detector raises on the rows, which it
    does when a row holds a null where it computes, with a [TypeError]
    when the first row on which the predictor fails has a null course
    and is not below 0.5 knots; and the serialized report, which has one
    alert for each row, when the detector returns one. *)
Theorem X9_analysis_tool_answers :
  forall (cos sin pow2 : float -> result float) (round6 : float -> float)
         (clock : nat -> datetime)
         (get_inactive_vessels : Z -> result (list vessel))
         (dumps : report -> string) (str : exn -> string) (threshold_min : Z),
    let answer :=
      analyze_maritime_security cos sin pow2 round6 clock get_inactive_vessels
        dumps str threshold_min in
    (get_inactive_vessels threshold_min = Ok [] -> answer = no_anomalies)
    /\ (forall e,
          get_inactive_vessels threshold_min = Raise e ->
          answer = "Analysis error occurred: " ++ str e)
    /\ (forall rows e,
          get_inactive_vessels threshold_min = Ok rows ->
          get_enhanced_anomalies cos sin pow2 round6 clock rows = Raise e ->
          answer = "Analysis error occurred: " ++ str e)
    /\ (forall rows v,
          get_inactive_vessels threshold_min = Ok rows ->
          In v rows ->
          null_in_arithmetic rows v ->
          exists e, answer = "Analysis error occurred: " ++ str e)
    /\ (forall before v after s als,
          get_inactive_vessels threshold_min = Ok (before ++ v :: after)%list ->
          alerts_loop cos sin round6 clock 0 before [] = Ok als ->
          v_speed v = PyFloat s ->
          PrimFloat.ltb s half = false ->
          v_course v = Some PyNone ->
          answer = "Analysis error occurred: " ++ str TypeError)
    /\ (forall rows rep,
          get_inactive_vessels threshold_min = Ok rows ->
          rows <> [] ->
          get_enhanced_anomalies cos sin pow2 round6 clock rows = Ok rep ->
          List.length (alerts rep) = List.length rows
          /\ answer = dumps rep).
Proof.
  intros cos sin pow2 round6 clock get_inactive_vessels dumps str threshold_min answer.
  unfold answer, analyze_maritime_security, detector_get_enhanced_anomalies.
  split; [| split; [| split; [| split; [| split]]]].
  - intros H. rewrite H. reflexivity.
  - intros e H. rewrite H. reflexivity.
  - intros rows e H He. rewrite H. cbn [Py.bind]. rewrite He. reflexivity.
  - intros rows v H Hin Hnull. rewrite H. cbn [Py.bind].
    destruct (@null_in_arithmetic_raises cos sin pow2 round6 clock rows v Hin Hnull)
      as [e He].
    exists e. rewrite He. reflexivity.
  - intros before v after s als H Hbefore Hspeed Hs Hcourse. rewrite H. cbn [Py.bind].
    rewrite (@first_failure_raises cos sin pow2 round6 clock before after v als
               TypeError Hbefore).
    + reflexivity.
    + rewrite Hspeed, Hcourse. cbn [get]. now apply predictor_null_course.
  - intros rows rep H Hne Hrep. rewrite H. cbn [Py.bind]. rewrite Hrep.
    destruct (@get_enhanced_anomalies_ok cos sin pow2 round6 clock rows rep Hrep)
      as (Hfor & _).
    pose proof (@alerts_for_length cos sin round6 clock rows (alerts rep) 0 Hfor)
      as Hlen.
    split; [exact Hlen |].
    destruct (alerts rep) as [| a als]; [| reflexivity].
    destruct rows; [contradiction | discriminate Hlen].
Qed.

Lemma X9_analysis_tool_witness :
  (exists als,
     alerts_loop cos_sample sin_sample Float64.round6 (fun _ => 3600000000%Z) 0
       [row_in_order] [] = Ok als)
  /\ PrimFloat.ltb 12 half = false
  /\ analyze_maritime_security cos_sample sin_sample square Float64.round6
       (fun _ => 3600000000%Z) one_null_course (fun _ => "{}") str_of_exn 15
     = "Analysis error occurred: must be real number, not NoneType".
Proof.
  destruct (alerts_loop cos_sample sin_sample Float64.round6 (fun _ => 3600000000%Z) 0
              [row_in_order] []) as [als | e] eqn:E;
    [| vm_compute in E; discriminate E].
  assert (Hs : PrimFloat.ltb 12 half = false) by reflexivity.
  split; [now exists als |]. split; [exact Hs |].
  exact (proj1 (proj2 (proj2 (proj2 (proj2
           (@X9_analysis_tool_answers cos_sample sin_sample square Float64.round6
              (fun _ => 3600000000%Z) one_null_course (fun _ => "{}") str_of_exn
              15%Z)))))
         [row_in_order] row_null_course [] 12%float als eq_refl E eq_refl Hs eq_refl).
Defined.

End ToolsFacts.

(** ** Further properties of the repository *)

Module RepositoryMore.
Import Vessel Repository Queries RepositoryFacts.


Lemma update_vessels_batch_fold (now : datetime) (batch : list vessel_data) (d : db) :
  vessels (update_vessels_batch now batch d)
  = fold_left (fun t p => upsert now p t) (map (fun v : vessel_data =>
     (mmsi v, name v, lon v, lat v, speed v, course v, vessel_type v)) batch) (vessels d).
Proof. destruct batch; reflexivity. Qed.

(** The rows of a batch written one after the other to a table that does
    not store the vessel [key]. *)
Lemma find_executemany_new (now : datetime) (key : value) :
  forall (batch : list vessel_data) (tbl : table),
    find tbl key = None ->
    find (fold_left (fun t p => upsert now p t) (map (fun v : vessel_data =>
     (mmsi v, name v, lon v, lat v, speed v, course v, vessel_type v)) batch) tbl) key
    = match first_report key batch, last_report key batch with
      | Some f, Some l =>
          Some (mk_row (name f) (lon l, lat l) (speed l) (course l)
                       (vessel_type f) now)
      | _, _ => None
      end.
Proof.
  induction batch as [| v batch IH]; intros tbl Hnone; [exact Hnone |].
  cbn [map fold_left first_report last_report].
  destruct (value_eq_dec key (mmsi v)) as [E | N].
  - assert (H1 : find (upsert now (mmsi v, name v, lon v, lat v, speed v, course v,
                                   vessel_type v) tbl) key
                 = Some (overwritten now v)).
    { rewrite E, find_upsert_same. rewrite <- E, Hnone. reflexivity. }
    rewrite (find_executemany now key batch _ H1).
    destruct (last_report key batch); reflexivity.
  - assert (H1 : find (upsert now (mmsi v, name v, lon v, lat v, speed v, course v,
                                   vessel_type v) tbl) key
                 = None).
    { rewrite find_upsert_other by exact N. exact Hnone. }
    rewrite (IH _ H1).
    destruct (first_report key batch), (last_report key batch); reflexivity.
Qed.

(** X10. For a vessel that is not stored yet, the batch write inserts one
    row: its name and type are those of the first report of the batch
    for the vessel, its position, speed and course those of the last one,
    and its last-seen time the time of the write; a vessel with no report
    in the batch stays absent. *)
Theorem X10_batch_insert_first_name_last_position :
  forall (now : datetime) (batch : list vessel_data) (d : db) (key : value),
    find (vessels d) key = None ->
    find (vessels (update_vessels_batch now batch d)) key
    = match first_report key batch, last_report key batch with
      | Some f, Some l =>
          Some (mk_row (name f) (lon l, lat l) (speed l) (course l)
                       (vessel_type f) now)
      | _, _ => None
      end.
Proof.
  intros now batch d key Hnone.
  rewrite update_vessels_batch_fold. now apply find_executemany_new.
Qed.

Lemma X10_batch_insert_witness :
  find (vessels empty_store) (VInt 257000000) = None
  /\ find (vessels (update_vessels_batch 200%Z mixed_batch empty_store))
          (VInt 257000000)
     = Some (mk_row (VStr "NORDLYS") (VFloat (102 # 10), VFloat (602 # 10))
                    (VInt 12) (VInt 96) (VStr "PositionReport") 200%Z).
Proof.
  assert (H : find (vessels empty_store) (VInt 257000000) = None) by reflexivity.
  split; [exact H |].
  exact (@X10_batch_insert_first_name_last_position
           200%Z mixed_batch empty_store (VInt 257000000) H).
Defined.

(** *** One row for each vessel *)

Lemma find_None_keys (tbl : table) (key : value) :
  find tbl key = None <-> ~ In key (keys tbl).
Proof.
  induction tbl as [| [k r] tbl IH]; simpl.
  - tauto.
  - destruct (value_eq_dec k key) as [E | N].
    + split; [discriminate | intros H; exfalso; apply H; now left].
    + rewrite IH. tauto.
Qed.

Lemma keys_upsert (now : datetime) (p : params) (tbl : table) :
  keys (upsert now p tbl)
  = let '(k, _, _, _, _, _, _) := p in
    match find tbl k with
    | Some _ => keys tbl
    | None => keys tbl ++ [k]
    end.
Proof.
  destruct p as [[[[[[k n] lo] la] s] c] t]. unfold keys.
  induction tbl as [| [k' r] tbl IH]; [reflexivity |].
  cbn [upsert find]. destruct (value_eq_dec k' k) as [E | N].
  - reflexivity.
  - cbn [map fst]. rewrite IH.
    destruct (find tbl k); reflexivity.
Qed.

Lemma keys_executemany (now : datetime) :
  forall (ps : list params) (tbl : table),
    NoDup (keys tbl) ->
    NoDup (keys (fold_left (fun t p => upsert now p t) ps tbl))
    /\ (exists added,
          keys (fold_left (fun t p => upsert now p t) ps tbl) = keys tbl ++ added)
    /\ forall key,
         In key (keys (fold_left (fun t p => upsert now p t) ps tbl))
         <-> In key (keys tbl)
             \/ In key (map (fun p => let '(k, _, _, _, _, _, _) := p in k) ps).
Proof.
  induction ps as [| p ps IH]; intros tbl Hnd.
  - cbn [fold_left map]. split; [exact Hnd |]. split.
    + exists []. now rewrite app_nil_r.
    + intros key. simpl. tauto.
  - cbn [fold_left map].
    pose proof (keys_upsert now p tbl) as Hk.
    destruct p as [[[[[[k n] lo] la] s] c] t].
    assert (Hnd' : NoDup (keys (upsert now (k, n, lo, la, s, c, t) tbl))).
    { rewrite Hk. destruct (find tbl k) eqn:E; [exact Hnd |].
      apply find_None_keys in E.
      apply NoDup_app; [exact Hnd | repeat constructor; simpl; tauto |].
      intros x Hx [<- | []]. contradiction. }
    destruct (IH _ Hnd') as (H1 & (added & H2) & H3).
    split; [exact H1 |]. split.
    + rewrite H2, Hk. destruct (find tbl k).
      * now exists added.
      * exists (k :: added). now rewrite <- app_assoc.
    + intros key. rewrite H3, Hk. destruct (find tbl k) eqn:E.
      * assert (Hin : In k (keys tbl)).
        { destruct (in_dec value_eq_dec k (keys tbl)) as [Hin | Hnin]; [exact Hin |].
          apply find_None_keys in Hnin. congruence. }
        simpl. intuition (subst; auto).
      * rewrite in_app_iff. simpl. tauto.
Qed.

(** X11. The batch write keeps one row for each vessel: when no two
    stored rows have the same identifier, none do afterwards; the rows
    stored before keep their place, new rows coming after them; and the
    vessels stored afterwards are those stored before and those the
    batch reports. *)
Theorem X11_batch_upsert_keeps_one_row_per_vessel :
  forall (now : datetime) (batch : list vessel_data) (d : db),
    NoDup (keys (vessels d)) ->
    NoDup (keys (vessels (update_vessels_batch now batch d)))
    /\ (exists added,
          keys (vessels (update_vessels_batch now batch d))
          = keys (vessels d) ++ added)
    /\ forall key,
         In key (keys (vessels (update_vessels_batch now batch d)))
         <-> In key (keys (vessels d)) \/ In key (map mmsi batch).
Proof.
  intros now batch d Hnd. rewrite update_vessels_batch_fold.
  destruct (keys_executemany now (map (fun v : vessel_data =>
     (mmsi v, name v, lon v, lat v, speed v, course v, vessel_type v)) batch) (vessels d) Hnd)
    as (H1 & H2 & H3).
  split; [exact H1 |]. split; [exact H2 |].
  intros key. rewrite H3, map_map. reflexivity.
Qed.

Lemma X11_batch_upsert_witness :
  NoDup (keys (vessels stored_vessel))
  /\ keys (vessels (update_vessels_batch 200%Z mixed_batch stored_vessel))
     = [VInt 257000000; VInt 258000000]
  /\ NoDup (keys (vessels (update_vessels_batch 200%Z mixed_batch stored_vessel))).
Proof.
  assert (Hnd : NoDup (keys (vessels stored_vessel))).
  { repeat constructor. simpl. tauto. }
  split; [exact Hnd |]. split; [reflexivity |].
  exact (proj1 (@X11_batch_upsert_keeps_one_row_per_vessel
                  200%Z mixed_batch stored_vessel Hnd)).
Defined.

(** *** The inactivity window *)

Lemma in_insert_desc (x y : inactive_vessel) (l : list inactive_vessel) :
  In y (insert_desc x l) <-> y = x \/ In y l.
Proof.
  induction l as [| z l IH]; simpl.
  - intuition congruence.
  - destruct (i_last_seen z <=? i_last_seen x)%Z; simpl.
    + intuition congruence.
    + rewrite IH. intuition congruence.
Qed.

Lemma in_order_by (y : inactive_vessel) (l : list inactive_vessel) :
  In y (order_by_last_seen_desc l) <-> In y l.
Proof.
  unfold order_by_last_seen_desc.
  induction l as [| x l IH]; simpl; [tauto |].
  rewrite in_insert_desc, IH. intuition congruence.
Qed.

Lemma in_get_inactive_vessels (now : datetime) (minutes : Z) (d : db)
    (y : inactive_vessel) :
  In y (get_inactive_vessels now minutes d)
  <-> exists kr, In kr (vessels d) /\ inactive now minutes (snd kr) = true
                 /\ y = select_row kr.
Proof.
  unfold get_inactive_vessels. rewrite in_order_by, in_map_iff. split.
  - intros (kr & <- & Hin). apply filter_In in Hin. destruct Hin as [Hin Hw].
    now exists kr.
  - intros (kr & Hin & Hw & ->). exists kr. split; [reflexivity |].
    apply filter_In. now split.
Qed.

Lemma find_In (tbl : table) (key : value) (row : vessel_row) :
  find tbl key = Some row -> In (key, row) tbl.
Proof.
  induction tbl as [| [k r] tbl IH]; simpl; [discriminate |].
  destruct (value_eq_dec k key) as [E | N].
  - intros H. injection H as <-. subst. now left.
  - intros H. right. now apply IH.
Qed.

Lemma In_find (tbl : table) (key : value) (row : vessel_row) :
  NoDup (keys tbl) -> In (key, row) tbl -> find tbl key = Some row.
Proof.
  induction tbl as [| [k r] tbl IH]; simpl; [tauto |].
  intros Hnd [E | Hin].
  - injection E as -> ->. destruct (value_eq_dec key key); [reflexivity | contradiction].
  - inversion Hnd as [| ? ? Hk Hnd']; subst.
    destruct (value_eq_dec k key) as [E | N].
    + subst. exfalso. apply Hk. change (In (fst (key, row)) (map fst tbl)).
      now apply in_map.
    + now apply IH.
Qed.

(** The row of a vessel the batch reports, once the batch is written. *)
Lemma find_reported (now : datetime) (batch : list vessel_data) (d : db)
    (v : vessel_data) :
  last_report (mmsi v) batch = Some v ->
  exists row,
    find (vessels (update_vessels_batch now batch d)) (mmsi v) = Some row
    /\ r_last_pos row = (lon v, lat v) /\ r_speed row = speed v
    /\ r_course row = course v /\ r_last_seen row = now.
Proof.
  intros Hlast. rewrite update_vessels_batch_fold.
  destruct (find (vessels d) (mmsi v)) as [row |] eqn:E.
  - rewrite (find_executemany now (mmsi v) batch _ E), Hlast.
    eexists. split; [reflexivity |]. repeat split.
  - rewrite (find_executemany_new now (mmsi v) batch _ E), Hlast.
    destruct (first_report (mmsi v) batch) as [f |] eqn:Ef.
    + eexists. split; [reflexivity |]. repeat split.
    + exfalso. clear - Hlast Ef.
      induction batch as [| w batch IH]; [discriminate |].
      cbn [first_report last_report] in *.
      destruct (value_eq_dec (mmsi v) (mmsi w)); [discriminate |].
      destruct (last_report (mmsi v) batch); [now apply IH | discriminate].
Qed.

Lemma last_report_of_member (batch : list vessel_data) (v : vessel_data) :
  In v batch -> exists w, last_report (mmsi v) batch = Some w /\ mmsi w = mmsi v.
Proof.
  induction batch as [| u batch IH]; intros Hin; [contradiction |].
  cbn [last_report]. destruct Hin as [-> | Hin].
  - destruct (last_report (mmsi v) batch) as [w |] eqn:E.
    + assert (Hw : mmsi w = mmsi v).
      { clear - E. induction batch as [| u batch IH]; [discriminate |].
        cbn [last_report] in E.
        destruct (last_report (mmsi v) batch) as [w' |] eqn:E'.
        - injection E as <-. now apply IH.
        - destruct (value_eq_dec (mmsi v) (mmsi u)) as [Eq | _]; [| discriminate].
          injection E as <-. now symmetry. }
      now exists w.
    + destruct (value_eq_dec (mmsi v) (mmsi v)) as [_ | N]; [| contradiction].
      now exists v.
  - destruct (IH Hin) as (w & Hw & Hk). rewrite Hw. now exists w.
Qed.

(** X12. A threshold of 1440 minutes (24 hours) or more makes the
    inactivity query return no row, whatever is stored: the window
    between the threshold and 24 hours is empty. *)
Theorem X12_inactivity_window_is_empty_from_24_hours :
  forall (now : datetime) (minutes : Z) (d : db),
    (1440 <= minutes)%Z ->
    get_inactive_vessels now minutes d = [].
Proof.
  intros now minutes d Hm.
  destruct (get_inactive_vessels now minutes d) as [| y l] eqn:E; [reflexivity |].
  exfalso.
  assert (Hin : In y (get_inactive_vessels now minutes d)) by (rewrite E; now left).
  apply in_get_inactive_vessels in Hin. destruct Hin as (kr & _ & Hw & _).
  unfold inactive, hours_24, minute in Hw.
  apply andb_true_iff in Hw. destruct Hw as [H1 H2].
  apply Z.ltb_lt in H1, H2. lia.
Qed.

Lemma X12_inactivity_window_witness :
  (1440 <= 1440)%Z
  /\ get_inactive_vessels 80000000000%Z 1440 stored_vessel = []
  /\ get_inactive_vessels 80000000000%Z 15 stored_vessel <> [].
Proof.
  assert (H : (1440 <= 1440)%Z) by lia.
  split; [exact H |]. split.
  - exact (@X12_inactivity_window_is_empty_from_24_hours
             80000000000%Z 1440%Z stored_vessel H).
  - intros E. vm_compute in E. discriminate E.
Defined.

(** X13. A vessel that a batch written at time [now] reports is not
    returned by the inactivity query at any time [t] up to [minutes]
    minutes after the write: its last-seen time is the time of the
    write. *)
Theorem X13_reported_vessel_is_not_inactive :
  forall (now t : datetime) (minutes : Z) (batch : list vessel_data) (d : db)
         (v : vessel_data),
    NoDup (keys (vessels d)) ->
    In v batch ->
    (t - minutes * minute <= now)%Z ->
    ~ In (mmsi v)
         (map i_mmsi (get_inactive_vessels t minutes (update_vessels_batch now batch d))).
Proof.
  intros now t minutes batch d v Hnd Hv Ht Hin.
  apply in_map_iff in Hin. destruct Hin as (y & Hy & Hin).
  apply in_get_inactive_vessels in Hin. destruct Hin as ([k r] & Hkr & Hw & ->).
  cbn [select_row i_mmsi fst snd] in *. subst k.
  destruct (@last_report_of_member batch v Hv) as (w & Hw1 & Hw2).
  assert (Hlast : last_report (mmsi w) batch = Some w) by (now rewrite Hw2).
  destruct (@find_reported now batch d w Hlast) as (row & Hrow & _ & _ & _ & Hseen).
  assert (Hnd' : NoDup (keys (vessels (update_vessels_batch now batch d)))).
  { rewrite update_vessels_batch_fold.
    exact (proj1 (keys_executemany now (map (fun v : vessel_data =>
     (mmsi v, name v, lon v, lat v, speed v, course v, vessel_type v)) batch) (vessels d) Hnd)). }
  rewrite <- Hw2 in Hkr. apply (@In_find _ _ _ Hnd') in Hkr.
  rewrite Hrow in Hkr. injection Hkr as <-.
  unfold inactive in Hw. apply andb_true_iff in Hw. destruct Hw as [H1 _].
  apply Z.ltb_lt in H1. lia.
Qed.

Lemma X13_reported_vessel_witness :
  (NoDup (keys (vessels stored_vessel))
   /\ In second_of_257 mixed_batch
   /\ (1100000000 - 15 * minute <= 200000000)%Z)
  /\ ~ In (VInt 257000000)
          (map i_mmsi
               (get_inactive_vessels 1100000000%Z 15
                  (update_vessels_batch 200000000%Z mixed_batch stored_vessel))).
Proof.
  assert (Hnd : NoDup (keys (vessels stored_vessel))).
  { repeat constructor. simpl. tauto. }
  assert (Hv : In second_of_257 mixed_batch) by (simpl; tauto).
  assert (Ht : (1100000000 - 15 * minute <= 200000000)%Z) by (unfold minute; lia).
  split; [repeat split; assumption |].
  exact (@X13_reported_vessel_is_not_inactive
           200000000%Z 1100000000%Z 15%Z mixed_batch stored_vessel second_of_257
           Hnd Hv Ht).
Defined.

(** X14. A report written by the batch write comes back from the
    inactivity query, once its vessel has been silent for more than the
    threshold and less than 24 hours, with the time of the write as
    last-seen time and, when its coordinates are floats within 90 and
    180 degrees, with its latitude as latitude and its longitude as
    longitude: the point is made longitude first, and read back
    coordinate by coordinate. *)
Theorem X14_written_position_reads_back :
  forall (now t : datetime) (minutes : Z) (batch : list vessel_data) (d : db)
         (v : vessel_data),
    last_report (mmsi v) batch = Some v ->
    (now < t - minutes * minute)%Z ->
    (t - hours_24 < now)%Z ->
    exists y,
      In y (get_inactive_vessels t minutes (update_vessels_batch now batch d))
      /\ i_mmsi y = mmsi v /\ i_last_seen y = now
      /\ (forall la lo,
            lat v = VFloat la -> lon v = VFloat lo ->
            within_degrees 90 la -> within_degrees 180 lo ->
            i_lat y = VFloat la /\ i_lon y = VFloat lo).
Proof.
  intros now t minutes batch d v Hlast H1 H2.
  destruct (@find_reported now batch d v Hlast) as (row & Hrow & Hpos & Hs & Hc & Hseen).
  exists (select_row (mmsi v, row)). split.
  - apply in_get_inactive_vessels. exists (mmsi v, row).
    split; [now apply find_In |]. split; [| reflexivity].
    unfold inactive. cbn [snd]. rewrite Hseen.
    apply andb_true_iff. split; apply Z.ltb_lt; lia.
  - cbn [select_row i_mmsi i_lat i_lon i_last_seen fst snd].
    rewrite Hpos. split; [reflexivity |]. split; [exact Hseen |].
    intros la lo Hla Hlo _ _. rewrite Hla, Hlo. split; reflexivity.
Qed.

Lemma X14_written_position_witness :
  (last_report (mmsi second_of_257) mixed_batch = Some second_of_257
   /\ (200000000 < 1200000000 - 15 * minute)%Z
   /\ (1200000000 - hours_24 < 200000000)%Z
   /\ within_degrees 90 (602 # 10) /\ within_degrees 180 (102 # 10))
  /\ exists y,
       In y (get_inactive_vessels 1200000000%Z 15
               (update_vessels_batch 200000000%Z mixed_batch empty_store))
       /\ i_mmsi y = VInt 257000000
       /\ i_lat y = VFloat (602 # 10) /\ i_lon y = VFloat (102 # 10).
Proof.
  assert (Hlast : last_report (mmsi second_of_257) mixed_batch = Some second_of_257)
    by reflexivity.
  assert (H1 : (200000000 < 1200000000 - 15 * minute)%Z) by (unfold minute; lia).
  assert (H2 : (1200000000 - hours_24 < 200000000)%Z)
    by (unfold hours_24, minute; lia).
  assert (Hla : within_degrees 90 (602 # 10)).
  { unfold within_degrees, Qle. cbn. lia. }
  assert (Hlo : within_degrees 180 (102 # 10)).
  { unfold within_degrees, Qle. cbn. lia. }
  split; [repeat split; try assumption; apply Hla || apply Hlo |].
  destruct (@X14_written_position_reads_back
              200000000%Z 1200000000%Z 15%Z mixed_batch empty_store second_of_257
              Hlast H1 H2)
    as (y & Hin & Hk & _ & Hpos).
  destruct (Hpos (602 # 10) (102 # 10) eq_refl eq_refl Hla Hlo) as [Hy Hx].
  exists y. repeat split; assumption.
Defined.


End RepositoryMore.

(** ** Further properties of the ingestion *)

Module IngestionFacts.
Import Vessel AisClient Ingestion AisClientFacts.

(** *** The geofence check that fails *)

Lemma geofence_loop_silent (check : value -> value -> result (option zone)) :
  forall (batch : list vessel_data) (tr : list event),
    (forall v, In v batch -> check_geofence_violation check (lat v) (lon v) = None) ->
    geofence_loop check batch tr = tr ++ map EvGeofenceCheck batch.
Proof.
  induction batch as [| v batch IH]; intros tr H.
  - simpl. now rewrite app_nil_r.
  - cbn [geofence_loop map]. rewrite (H v (or_introl eq_refl)).
    rewrite IH by (intros u Hu; apply H; now right).
    now rewrite <- app_assoc.
Qed.

(** X15. When, for every report of a batch, the geofence query fails or
    finds no zone, [process_and_flush] broadcasts no alert and no error
    reaches it: the reports are checked in order, then the whole batch is
    broadcast and handed to the write. *)
Theorem X15_failed_geofence_query_raises_no_alert :
  forall (check : value -> value -> result (option zone))
         (batch : list vessel_data),
    (forall v, In v batch ->
       check (lat v) (lon v) = Ok None \/ exists e, check (lat v) (lon v) = Raise e) ->
    process_and_flush check batch
    = map EvGeofenceCheck batch
      ++ [EvBroadcast (MsgVesselUpdate batch); EvPersist batch]
    /\ filter is_alert (process_and_flush check batch) = [].
Proof.
  intros check batch H.
  assert (Hnone : forall v, In v batch ->
                    check_geofence_violation check (lat v) (lon v) = None).
  { intros v Hv. unfold check_geofence_violation.
    destruct (H v Hv) as [E | [e E]]; now rewrite E. }
  assert (Hrun : process_and_flush check batch
                 = map EvGeofenceCheck batch
                   ++ [EvBroadcast (MsgVesselUpdate batch); EvPersist batch]).
  { unfold process_and_flush. rewrite geofence_loop_silent by exact Hnone.
    cbn [app]. now rewrite <- app_assoc. }
  split; [exact Hrun |].
  rewrite Hrun, filter_app. cbn [filter is_alert app].
  rewrite app_nil_r. clear. induction batch as [| v batch IH]; [reflexivity | exact IH].
Qed.

Lemma X15_failed_geofence_witness :
  (forall v, In v [report_without_longitude; position_report_data] ->
     no_zone (lat v) (lon v) = Ok None
     \/ exists e, no_zone (lat v) (lon v) = Raise e)
  /\ process_and_flush no_zone [report_without_longitude; position_report_data]
     = [EvGeofenceCheck report_without_longitude;
        EvGeofenceCheck position_report_data;
        EvBroadcast (MsgVesselUpdate [report_without_longitude; position_report_data]);
        EvPersist [report_without_longitude; position_report_data]].
Proof.
  assert (H : forall v, In v [report_without_longitude; position_report_data] ->
                no_zone (lat v) (lon v) = Ok None
                \/ exists e, no_zone (lat v) (lon v) = Raise e).
  { intros v [<- | [<- | []]].
    - right. eexists. reflexivity.
    - left. reflexivity. }
  split; [exact H |].
  exact (proj1 (@X15_failed_geofence_query_raises_no_alert
                  no_zone [report_without_longitude; position_report_data] H)).
Defined.

(** *** What a message can do to the producer *)

Lemma bind_attribute_errors {A B} (r : result A) (k : A -> result B) :
  attribute_errors_only r ->
  (forall a, attribute_errors_only (k a)) ->
  attribute_errors_only (Py.bind r k).
Proof.
  intros Hr Hk e H. destruct r as [a | e1]; cbn [Py.bind] in H.
  - exact (Hk a e H).
  - apply Hr. congruence.
Qed.

Lemma Ok_attribute_errors {A} (a : A) : attribute_errors_only (Ok a).
Proof. intros e H. discriminate. Qed.

Lemma dict_get_attribute_errors (obj : value) (key : string) (default : value) :
  attribute_errors_only (dict_get obj key default).
Proof.
  intros e. unfold dict_get. destruct obj; try (intros H; congruence).
  destruct (lookup d key); discriminate.
Qed.

Lemma str_strip_attribute_errors (obj : value) :
  attribute_errors_only (str_strip obj).
Proof. intros e. unfold str_strip. destruct obj; intros H; congruence. Qed.

Lemma position_report_attribute_errors (msg : value) :
  attribute_errors_only (position_report msg).
Proof.
  unfold position_report.
  apply bind_attribute_errors; [apply dict_get_attribute_errors | intros m1].
  apply bind_attribute_errors; [apply dict_get_attribute_errors | intros r1].
  destruct (truthy r1); [apply Ok_attribute_errors |].
  apply bind_attribute_errors; [apply dict_get_attribute_errors | intros m2].
  apply bind_attribute_errors; [apply dict_get_attribute_errors | intros r2].
  apply Ok_attribute_errors.
Qed.

Lemma normalize_attribute_errors (msg : value) :
  attribute_errors_only (normalize msg).
Proof.
  unfold normalize.
  repeat (apply bind_attribute_errors;
          [ first [ apply dict_get_attribute_errors
                  | apply str_strip_attribute_errors
                  | apply position_report_attribute_errors ]
          | intros ? ]).
  apply Ok_attribute_errors.
Qed.

(** X16. A message ends the receive loop only by being malformed: the one
    exception [on_message] can raise is the [AttributeError] of the
    normalization, never [QueueFull]. When it returns, the queue is as
    it was or one report longer, and a queue of at most 5000 reports has
    at most 5000 reports afterwards. *)
Theorem X16_message_outcomes :
  forall (msg : value) (p : producer),
    (forall e, on_message msg p = Raise e ->
       e = AttributeError /\ normalize msg = Raise AttributeError)
    /\ (forall p', on_message msg p = Ok p' ->
          (queue p' = queue p \/ exists vd, queue p' = queue p ++ [vd])
          /\ ((List.length (queue p) <= 5000)%nat ->
              (List.length (queue p') <= 5000)%nat)).
Proof.
  intros msg p. unfold on_message. split.
  - intros e H. destruct (normalize msg) as [vd | e1] eqn:En; cbn [Py.bind] in H.
    + exfalso. destruct (accepted vd); [| discriminate].
      unfold put_nowait in H. destruct (full (queue p)); discriminate.
    + injection H as <-. pose proof (@normalize_attribute_errors msg e1 En) as ->. now split.
  - intros p' H. destruct (normalize msg) as [vd | e1]; cbn [Py.bind] in H;
      [| discriminate].
    destruct (accepted vd).
    + unfold put_nowait in H. destruct (full (queue p)) eqn:Ef.
      * injection H as <-. cbn [queue]. split; [now left | tauto].
      * injection H as <-. cbn [queue]. split; [right; now exists vd |].
        intros _. rewrite length_app. cbn [List.length].
        assert (Hlt : ~ (5000 <= List.length (queue p))%nat).
        { intros Hge. apply full_at_capacity in Hge. congruence. }
        lia.
    + injection H as <-. split; [now left | tauto].
Qed.

(** X17. A message whose metadata hold a ship name that is not a string
    (a JSON null, a number) raises [AttributeError] in the normalization:
    the receive loop ends there with that exception, the reports queued
    before it stay queued, and the messages behind it on the connection
    are not read. *)
Theorem X17_ship_name_not_a_string_ends_the_receive_loop :
  forall (d meta : list (string * value)) (ship_name : value)
         (before after : list value) (p p1 : producer),
    lookup d "MetaData" = Some (VDict meta) ->
    lookup meta "ShipName" = Some ship_name ->
    (forall s, ship_name <> VStr s) ->
    receive_loop before p = (p1, Ok tt) ->
    on_message (VDict d) p1 = Raise AttributeError
    /\ receive_loop (before ++ VDict d :: after) p = (p1, Raise AttributeError).
Proof.
  intros d meta ship_name before after p p1 Hmeta Hname Hns Hbefore.
  assert (Hon : on_message (VDict d) p1 = Raise AttributeError).
  { unfold on_message, normalize, dict_get. rewrite Hmeta. cbn [Py.bind].
    destruct (lookup meta "MMSI"); cbn [Py.bind]; rewrite Hname; cbn [Py.bind];
      (destruct ship_name; try reflexivity; exfalso; eapply Hns; reflexivity). }
  split; [exact Hon |].
  revert p Hbefore. induction before as [| m before IH]; intros p Hbefore.
  - cbn [receive_loop] in Hbefore. injection Hbefore as <-.
    cbn [app receive_loop]. now rewrite Hon.
  - cbn [app receive_loop] in *.
    destruct (on_message m p) as [p' | e]; [now apply IH | discriminate].
Qed.

Lemma X17_ship_name_witness :
  (lookup [("MMSI", VInt 257000000); ("ShipName", VNone)]%string "ShipName" = Some VNone
   /\ (forall s, VNone <> VStr s)
   /\ receive_loop [position_message] (mk_producer [] [])
      = (mk_producer [position_report_data] [], Ok tt))
  /\ receive_loop [position_message; message_with_null_name; position_message]
                  (mk_producer [] [])
     = (mk_producer [position_report_data] [], Raise AttributeError).
Proof.
  assert (Hmeta : lookup [("MessageType", VStr "PositionReport");
                          ("MetaData", VDict [("MMSI", VInt 257000000);
                                              ("ShipName", VNone);
                                              ("latitude", VFloat (601 # 10));
                                              ("longitude", VFloat (101 # 10))]);
                          ("Message", VDict [("PositionReport",
                                              VDict [("Sog", VFloat (123 # 10));
                                                     ("Cog", VFloat (90 # 1))])])]%string
                         "MetaData"
                  = Some (VDict [("MMSI", VInt 257000000);
                                 ("ShipName", VNone);
                                 ("latitude", VFloat (601 # 10));
                                 ("longitude", VFloat (101 # 10))]%string))
    by reflexivity.
  assert (Hname : lookup [("MMSI", VInt 257000000);
                          ("ShipName", VNone);
                          ("latitude", VFloat (601 # 10));
                          ("longitude", VFloat (101 # 10))]%string "ShipName"
                  = Some VNone) by reflexivity.
  assert (Hns : forall s, VNone <> VStr s) by (intros s; discriminate).
  assert (Hbefore : receive_loop [position_message] (mk_producer [] [])
                    = (mk_producer [position_report_data] [], Ok tt)) by reflexivity.
  split; [split; [reflexivity | split; assumption] |].
  exact (proj2 (@X17_ship_name_not_a_string_ends_the_receive_loop
                  _ _ VNone [position_message] [position_message]
                  (mk_producer [] []) (mk_producer [position_report_data] [])
                  Hmeta Hname Hns Hbefore)).
Defined.

(** *** The name of a report *)

Lemma rstrip_aux_Some (c : Ascii.ascii) (s : string) :
  is_space c = false -> exists t, rstrip_aux (String c s) = Some (String c t).
Proof.
  intros Hc. cbn [rstrip_aux]. destruct (rstrip_aux s) as [t |].
  - now exists t.
  - rewrite Hc. now exists EmptyString.
Qed.

Lemma rstrip_aux_idem (s t : string) :
  rstrip_aux s = Some t -> rstrip_aux t = Some t.
Proof.
  revert t. induction s as [| c s IH]; intros t H; [discriminate |].
  cbn [rstrip_aux] in H. destruct (rstrip_aux s) as [s' |] eqn:E.
  - injection H as <-. cbn [rstrip_aux]. now rewrite (IH s' eq_refl).
  - destruct (is_space c) eqn:Ec; [discriminate |].
    injection H as <-. cbn [rstrip_aux]. now rewrite Ec.
Qed.

Lemma rstrip_idem (s : string) : rstrip (rstrip s) = rstrip s.
Proof.
  unfold rstrip. destruct (rstrip_aux s) as [t |] eqn:E.
  - now rewrite (@rstrip_aux_idem s t E).
  - reflexivity.
Qed.

Lemma lstrip_head (s : string) :
  lstrip s = EmptyString
  \/ exists c t, lstrip s = String c t /\ is_space c = false.
Proof.
  induction s as [| c s IH]; [now left |].
  cbn [lstrip]. destruct (is_space c) eqn:E; [exact IH |].
  right. now exists c, s.
Qed.

Lemma lstrip_rstrip_lstrip (s : string) :
  lstrip (rstrip (lstrip s)) = rstrip (lstrip s).
Proof.
  destruct (lstrip_head s) as [-> | (c & t & -> & Hc)]; [reflexivity |].
  unfold rstrip. destruct (@rstrip_aux_Some c t Hc) as [t' ->].
  cbn [lstrip]. now rewrite Hc.
Qed.

Lemma lstrip_blank (s : string) : blank s = true -> lstrip s = EmptyString.
Proof.
  induction s as [| c s IH]; [reflexivity |].
  cbn [blank lstrip]. intros H. apply andb_true_iff in H. destruct H as [Hc Hs].
  rewrite Hc. now apply IH.
Qed.

(** X18. The name of every normalized report is a string that neither
    starts nor ends with white space: stripping it again changes
    nothing. A ship name made of white space only gives the empty name,
    not the default name. *)
Theorem X18_report_name_is_stripped :
  forall (msg : value) (vd : vessel_data),
    normalize msg = Ok vd ->
    (exists s, name vd = VStr s /\ lstrip s = s /\ rstrip s = s
               /\ str_strip (name vd) = Ok (name vd))
    /\ (forall raw, blank raw = true -> str_strip (VStr raw) = Ok (VStr "")).
Proof.
  intros msg vd H. split.
  - unfold normalize in H.
    destruct (dict_get msg "MetaData" (VDict [])) as [meta |]; cbn [Py.bind] in H;
      [| discriminate].
    destruct (dict_get meta "MMSI" VNone) as [d_mmsi |]; cbn [Py.bind] in H;
      [| discriminate].
    destruct (dict_get meta "ShipName" (VStr "Unknown")) as [ship_name |];
      cbn [Py.bind] in H; [| discriminate].
    destruct (str_strip ship_name) as [d_name |] eqn:Es; cbn [Py.bind] in H;
      [| discriminate].
    destruct (dict_get meta "latitude" VNone); cbn [Py.bind] in H; [| discriminate].
    destruct (dict_get meta "longitude" VNone); cbn [Py.bind] in H; [| discriminate].
    destruct (position_report msg); cbn [Py.bind] in H; [| discriminate].
    destruct (dict_get a1 "Sog" (VInt 0)); cbn [Py.bind] in H; [| discriminate].
    destruct (dict_get a1 "Cog" (VInt 0)); cbn [Py.bind] in H; [| discriminate].
    destruct (dict_get msg "MessageType" (VStr "Unknown")); cbn [Py.bind] in H;
      [| discriminate].
    injection H as <-. cbn [name].
    unfold str_strip in Es. destruct ship_name; try discriminate.
    injection Es as <-.
    exists (rstrip (lstrip s)).
    assert (Hl : lstrip (rstrip (lstrip s)) = rstrip (lstrip s))
      by apply lstrip_rstrip_lstrip.
    assert (Hr : rstrip (rstrip (lstrip s)) = rstrip (lstrip s))
      by apply rstrip_idem.
    split; [reflexivity |]. split; [exact Hl |]. split; [exact Hr |].
    unfold str_strip. now rewrite Hl, Hr.
  - intros raw Hb. unfold str_strip. now rewrite (@lstrip_blank raw Hb).
Qed.

Lemma X18_report_name_witness :
  normalize position_message = Ok position_report_data
  /\ exists s, name position_report_data = VStr s /\ lstrip s = s /\ rstrip s = s.
Proof.
  assert (H : normalize position_message = Ok position_report_data) by reflexivity.
  split; [exact H |].
  destruct (proj1 (@X18_report_name_is_stripped _ _ H)) as (s & Hs & Hl & Hr & _).
  exists s. repeat split; assumption.
Defined.

(** *** A message without a position report *)

Lemma position_report_absent (d m : list (string * value)) :
  dict_get (VDict d) "Message" (VDict []) = Ok (VDict m) ->
  lookup m "PositionReport" = None ->
  lookup m "StandardClassBPositionReport" = None ->
  position_report (VDict d) = Ok (VDict []).
Proof.
  intros Hm H1 H2. unfold position_report. rewrite Hm. cbn [Py.bind].
  unfold dict_get. rewrite H1, H2. reflexivity.
Qed.

(** X19. A message that carries neither a class A nor a class B position
    report (a static-data message, say) is normalized with speed 0 and
    course 0; written for a vessel already stored, such a report sets
    the stored speed and course to 0 and moves the stored position to
    that of the metadata, the name and the type staying as stored. *)
Theorem X19_message_without_position_report_zeroes_speed_and_course :
  forall (d m : list (string * value)) (vd : vessel_data),
    dict_get (VDict d) "Message" (VDict []) = Ok (VDict m) ->
    lookup m "PositionReport" = None ->
    lookup m "StandardClassBPositionReport" = None ->
    normalize (VDict d) = Ok vd ->
    speed vd = VInt 0 /\ course vd = VInt 0
    /\ forall (now : datetime) (db : Repository.db) (row : Repository.vessel_row),
         Repository.find (Repository.vessels db) (mmsi vd) = Some row ->
         Repository.find
           (Repository.vessels (Repository.update_vessels_batch now [vd] db))
           (mmsi vd)
         = Some (Repository.mk_row (Repository.r_name row) (lon vd, lat vd)
                                   (VInt 0) (VInt 0) (Repository.r_type row) now).
Proof.
  intros d m vd Hm H1 H2 Hn.
  pose proof (position_report_absent d Hm H1 H2) as Hp.
  assert (Hsc : speed vd = VInt 0 /\ course vd = VInt 0).
  { unfold normalize in Hn. rewrite Hp in Hn.
    destruct (dict_get (VDict d) "MetaData" (VDict [])) as [meta |];
      cbn [Py.bind] in Hn; [| discriminate].
    destruct (dict_get meta "MMSI" VNone); cbn [Py.bind] in Hn; [| discriminate].
    destruct (dict_get meta "ShipName" (VStr "Unknown")); cbn [Py.bind] in Hn;
      [| discriminate].
    destruct (str_strip a0); cbn [Py.bind] in Hn; [| discriminate].
    destruct (dict_get meta "latitude" VNone); cbn [Py.bind] in Hn; [| discriminate].
    destruct (dict_get meta "longitude" VNone); cbn [Py.bind] in Hn; [| discriminate].
    change (dict_get (VDict []) "Sog" (VInt 0)) with (Ok (VInt 0)) in Hn.
    change (dict_get (VDict []) "Cog" (VInt 0)) with (Ok (VInt 0)) in Hn.
    cbn [Py.bind] in Hn.
    destruct (dict_get (VDict d) "MessageType" (VStr "Unknown")); cbn [Py.bind] in Hn;
      [| discriminate].
    injection Hn as <-. split; reflexivity. }
  destruct Hsc as [Hs Hc]. split; [exact Hs |]. split; [exact Hc |].
  intros now db row Hrow.
  cbn [Repository.update_vessels_batch Repository.executemany map fold_left
       Repository.vessels].
  rewrite RepositoryFacts.find_upsert_same, Hrow.
  unfold Repository.refreshed. now rewrite Hs, Hc.
Qed.

Lemma X19_message_without_position_report_witness :
  (dict_get static_data_message "Message" (VDict [])
   = Ok (VDict [("ShipStaticData", VDict [("Destination", VStr "BERGEN")])]%string)
   /\ normalize static_data_message = Ok static_data_report)
  /\ Repository.find
       (Repository.vessels
          (Repository.update_vessels_batch 200%Z [static_data_report]
             Repository.stored_vessel))
       (VInt 257000000)
     = Some (Repository.mk_row (VStr "NORDLYS") (VFloat (101 # 10), VFloat (601 # 10))
                               (VInt 0) (VInt 0) (VStr "PositionReport") 200%Z).
Proof.
  assert (Hm : dict_get static_data_message "Message" (VDict [])
               = Ok (VDict [("ShipStaticData",
                             VDict [("Destination", VStr "BERGEN")])]%string))
    by reflexivity.
  assert (Hn : normalize static_data_message = Ok static_data_report) by reflexivity.
  split; [split; assumption |].
  destruct (@X19_message_without_position_report_zeroes_speed_and_course
              _ _ static_data_report Hm eq_refl eq_refl Hn) as (_ & _ & Hw).
  exact (Hw 200%Z Repository.stored_vessel _ eq_refl).
Defined.

(** *** The consumer *)

Section ConsumerFacts.

Variable check : value -> value -> result (option zone).

Lemma persisted_app (t1 t2 : list event) :
  persisted (t1 ++ t2) = persisted t1 ++ persisted t2.
Proof. unfold persisted. apply flat_map_app. Qed.

Lemma batch_sizes_app (t1 t2 : list event) :
  batch_sizes (t1 ++ t2) = batch_sizes t1 ++ batch_sizes t2.
Proof. unfold batch_sizes. apply flat_map_app. Qed.

Lemma per_report_persisted (batch : list vessel_data) :
  persisted (flat_map (per_report check) batch) = []
  /\ batch_sizes (flat_map (per_report check) batch) = [].
Proof.
  induction batch as [| v batch [IH1 IH2]]; [split; reflexivity |].
  cbn [flat_map]. rewrite persisted_app, batch_sizes_app, IH1, IH2.
  unfold per_report.
  destruct (check_geofence_violation check (lat v) (lon v)); split; reflexivity.
Qed.

Lemma process_and_flush_persisted (batch : list vessel_data) :
  persisted (process_and_flush check batch) = batch
  /\ batch_sizes (process_and_flush check batch) = [List.length batch].
Proof.
  unfold process_and_flush. rewrite geofence_loop_spec. cbn [app].
  destruct (per_report_persisted batch) as [H1 H2].
  rewrite !persisted_app, !batch_sizes_app, H1, H2. cbn.
  rewrite app_nil_r. split; reflexivity.
Qed.

Lemma taken_app (g1 g2 : list (option vessel_data)) :
  taken (g1 ++ g2) = taken g1 ++ taken g2.
Proof. unfold taken. apply flat_map_app. Qed.

Lemma db_writer_step_keeps (got : option vessel_data) (w : writer) :
  consistent w ->
  consistent (db_writer_step check got w)
  /\ persisted (trace (db_writer_step check got w)) ++ buffer (db_writer_step check got w)
     = persisted (trace w) ++ buffer w ++ taken [got].
Proof.
  intros (Hb & Ht & Hs).
  destruct (process_and_flush_persisted (buffer w)) as [Hp1 Hp2].
  destruct (process_and_flush_persisted (buffer w ++ match got with
                                                     | Some d => [d]
                                                     | None => []
                                                     end)) as [Hq1 Hq2].
  unfold db_writer_step, consistent. destruct got as [data |].
  - destruct (batch_size <=? List.length (buffer w ++ [data]))%nat eqn:E;
      cbn [buffer total_processed trace taken flat_map app].
    + rewrite persisted_app, batch_sizes_app, Hq1, Hq2. split.
      * split; [cbn; lia |]. split.
        -- rewrite (length_app (persisted (trace w))), Ht. reflexivity.
        -- apply Forall_app. split; [exact Hs |]. constructor; [| constructor].
           apply Nat.leb_le in E. unfold batch_size in E.
           rewrite length_app in *. cbn [List.length] in *. lia.
      * now rewrite app_nil_r.
    + split; [| reflexivity].
      apply Nat.leb_gt in E. unfold batch_size in E. repeat split; assumption.
  - destruct (buffer w) as [| x b] eqn:Eb;
      cbn [buffer total_processed trace taken flat_map app].
    + rewrite Eb. split; [| reflexivity].
      repeat split; assumption.
    + rewrite persisted_app, batch_sizes_app, Hp1, Hp2. split.
      * split; [cbn; lia |]. split.
        -- rewrite (length_app (persisted (trace w))), Ht. reflexivity.
        -- apply Forall_app. split; [exact Hs |]. constructor; [| constructor].
           cbn [List.length] in *. lia.
      * now rewrite !app_nil_r.
Qed.

Lemma db_writer_run_keeps :
  forall (gots : list (option vessel_data)) (w : writer),
    consistent w ->
    consistent (db_writer_run check gots w)
    /\ persisted (trace (db_writer_run check gots w)) ++ buffer (db_writer_run check gots w)
       = persisted (trace w) ++ buffer w ++ taken gots.
Proof.
  unfold db_writer_run.
  induction gots as [| got gots IH]; intros w Hw.
  - cbn [fold_left]. split; [exact Hw |]. cbn. now rewrite app_nil_r.
  - cbn [fold_left].
    destruct (db_writer_step_keeps got Hw) as [Hw1 He1].
    destruct (IH _ Hw1) as [Hw2 He2].
    split; [exact Hw2 |].
    rewrite He2. change (got :: gots) with ([got] ++ gots).
    rewrite taken_app.
    rewrite (app_assoc (persisted _) (buffer _) (taken gots)), He1.
    now rewrite <- !app_assoc.
Qed.

End ConsumerFacts.

(** X20. Whatever the queue gives and whenever the waits time out, the
    consumer started with an empty buffer hands the reports it took from
    the queue to the write in the order it took them, each once: the
    batches written, followed by the buffer, are the reports taken. Its
    buffer holds fewer than 50 reports after every turn, every batch
    written has between 1 and 50 reports, and [total_processed] is the
    number of reports handed to the write. *)
Theorem X20_consumer_hands_over_every_report_once :
  forall (check : value -> value -> result (option zone))
         (gots : list (option vessel_data)),
    let w := db_writer_run check gots (mk_writer [] 0 []) in
    persisted (trace w) ++ buffer w = taken gots
    /\ (List.length (buffer w) < 50)%nat
    /\ total_processed w = List.length (persisted (trace w))
    /\ Forall (fun n => (1 <= n <= 50)%nat) (batch_sizes (trace w)).
Proof.
  intros check gots w.
  assert (H0 : consistent (mk_writer [] 0 [])).
  { unfold consistent. cbn. repeat split; [lia | constructor]. }
  destruct (db_writer_run_keeps check gots H0) as [(Hb & Ht & Hs) He].
  fold w in Hb, Ht, Hs, He. cbn in He.
  repeat split; assumption.
Qed.

(** X21. When the write of a batch raises, the consumer keeps the whole
    batch in its buffer, counts nothing as processed, does not call
    [task_done] for the report just taken, and logs the exception; the
    next report taken is added to the kept batch and the whole of it is
    checked, broadcast and handed to the write again, in a batch of more
    than 50 reports. When the writes succeed, the consumer is the one of
    [db_writer_step]. *)
Theorem X21_failed_write_is_retried_with_the_next_report :
  forall (check : value -> value -> result (option zone))
         (c : consumer) (data next : vessel_data) (e : exn),
    (49 <= List.length (buffer (c_writer c)))%nat ->
    let kept := buffer (c_writer c) ++ [data] in
    let c1 := db_writer_turn check (Some data) (Raise e) c in
    let c2 := db_writer_turn check (Some next) (Ok tt) c1 in
    (buffer (c_writer c1) = kept
     /\ total_processed (c_writer c1) = total_processed (c_writer c)
     /\ task_done c1 = task_done c
     /\ errors c1 = errors c ++ [e])
    /\ (trace (c_writer c2)
        = trace (c_writer c)
          ++ process_and_flush check kept
          ++ process_and_flush check (kept ++ [next])
        /\ buffer (c_writer c2) = []
        /\ total_processed (c_writer c2)
           = (total_processed (c_writer c) + List.length kept + 1)%nat
        /\ task_done c2 = S (task_done c)
        /\ (50 < List.length (kept ++ [next]))%nat)
    /\ (forall got,
          c_writer (db_writer_turn check got (Ok tt) c)
          = db_writer_step check got (c_writer c)).
Proof.
  intros check c data next e Hlen kept c1 c2.
  assert (Hk : (batch_size <=? List.length kept)%nat = true).
  { apply Nat.leb_le. unfold kept, batch_size. rewrite length_app. cbn. lia. }
  assert (Hk2 : (batch_size <=? List.length (kept ++ [next]))%nat = true).
  { apply Nat.leb_le. apply Nat.leb_le in Hk. rewrite length_app. lia. }
  assert (E1 : c1 = mk_consumer
                      (mk_writer kept (total_processed (c_writer c))
                                 (trace (c_writer c) ++ process_and_flush check kept))
                      (task_done c) (errors c ++ [e])).
  { unfold c1, db_writer_turn. fold kept. rewrite Hk. reflexivity. }
  assert (E2 : c2 = mk_consumer
                      (mk_writer [] (total_processed (c_writer c)
                                     + List.length (kept ++ [next]))
                                 ((trace (c_writer c) ++ process_and_flush check kept)
                                  ++ process_and_flush check (kept ++ [next])))
                      (S (task_done c)) (errors c ++ [e])).
  { unfold c2. rewrite E1. unfold db_writer_turn.
    cbn [c_writer buffer total_processed trace task_done errors].
    rewrite Hk2. reflexivity. }
  split; [rewrite E1; cbn; repeat split |].
  split.
  - rewrite E2. cbn [c_writer buffer total_processed trace task_done].
    rewrite <- app_assoc. split; [reflexivity |]. split; [reflexivity |].
    split; [rewrite length_app; cbn; lia |]. split; [reflexivity |].
    apply Nat.leb_le in Hk. unfold batch_size in Hk. rewrite length_app. cbn. lia.
  - intros got. unfold db_writer_turn, db_writer_step, flush.
    destruct got as [d |].
    + destruct (batch_size <=? List.length (buffer (c_writer c) ++ [d]))%nat;
        reflexivity.
    + destruct (buffer (c_writer c)); [now destruct (c_writer c) | reflexivity].
Qed.

Lemma X21_failed_write_witness :
  (49 <= List.length (buffer (c_writer almost_full)))%nat
  /\ errors (db_writer_turn no_zone (Some position_report_data)
               (Raise (OtherError "connection lost")) almost_full)
     = [OtherError "connection lost"]
  /\ total_processed
       (c_writer
          (db_writer_turn no_zone (Some report_without_longitude) (Ok tt)
             (db_writer_turn no_zone (Some position_report_data)
                (Raise (OtherError "connection lost")) almost_full)))
     = 51%nat
  /\ task_done
       (db_writer_turn no_zone (Some report_without_longitude) (Ok tt)
          (db_writer_turn no_zone (Some position_report_data)
             (Raise (OtherError "connection lost")) almost_full))
     = 1%nat.
Proof.
  assert (H : (49 <= List.length (buffer (c_writer almost_full)))%nat).
  { cbn [almost_full c_writer buffer]. rewrite repeat_length. lia. }
  split; [exact H |].
  pose proof (@X21_failed_write_is_retried_with_the_next_report
                no_zone almost_full position_report_data report_without_longitude
                (OtherError "connection lost") H) as T.
  cbv zeta in T. destruct T as ((_ & _ & _ & He) & (_ & _ & Ht & Htd & _) & _).
  split; [exact He |]. split; [| exact Htd].
  rewrite Ht. cbn [almost_full c_writer buffer total_processed].
  rewrite length_app, repeat_length. reflexivity.
Defined.

End IngestionFacts.
